(** * output_cache_list.py: cache state and prestage requests for dCache files

    A shallow embedding of [src/output_cache_list.py] (Python 3 semantics):
    the location rewriting of [filename_to_namespace], the tape-location
    pattern [ENSTORE_PATTERN], the REST and pnfs residency queries, the
    prestage request, the two batch loops, the [ProgressBar] and the exit
    status chosen at the end of the script.

    Conventions of the embedding.
    - Python [str] is [string]; [int] is [Z]; [float] is a binary64
      [spec_float]; a [dict] decoded from JSON is a [gmap string json].
    - A Python exception is a value of [exn]; a call that may raise returns a
      [result].
    - Everything the script does to the outside (the curl transfer, the pnfs
      pseudo-file, [cache_list.txt], standard output) is threaded through an
      explicit [State]: the outside world is a type [World] with one
      transition function per operation, and standard output is the list of
      [print] calls made so far. *)

From Stdlib Require Import ZArith String Ascii List Lia Bool SpecFloat.
From stdpp Require Import gmap strings.
Import ListNotations.

#[local] Set Warnings "-register-all".
#[local] Open Scope string_scope.

(** ** Python values and exceptions *)

Inductive exn : Type :=
| PycurlError      (** pycurl.error, raised by [Curl.perform] *)
| ValueError       (** json.JSONDecodeError is a ValueError *)
| TypeError
| OSError          (** [open] on a missing or unreadable path *)
| ZeroDivisionError
| OverflowError
| KeyError
| AttributeError   (** a method called on [None] *)
| AssertionError.

Inductive result (A : Type) : Type :=
| Ok (a : A)
| Raise (e : exn).
Arguments Ok {A} a.
Arguments Raise {A} e.

(** What [json.loads] returns: [None], [bool], [int], [float], [str], [list]
    or [dict]. *)
Inductive json : Type :=
| JNull
| JBool (b : bool)
| JInt (n : Z)
| JFloat (x : spec_float)
| JStr (s : string)
| JArr (xs : list json)
| JObj (m : gmap string json).

(** ** The Python operations the script uses

    Strings, integer and float arithmetic, the operators applied to decoded
    JSON, [os.path] and extended slices. *)

Module Py.

(** *** Strings *)

(** [s.startswith(p)] *)
Definition startswith (s p : string) : bool := String.prefix p s.

(** [s[n:]] for [0 <= n] *)
Fixpoint drop (n : nat) (s : string) : string :=
  match n, s with
  | O, _ => s
  | S _, EmptyString => EmptyString
  | S k, String _ s' => drop k s'
  end.

(** [needle in hay] for two strings: some suffix of [hay] starts with
    [needle]. *)
Fixpoint contains (needle hay : string) : bool :=
  String.prefix needle hay ||
  match hay with
  | EmptyString => false
  | String _ hay' => contains needle hay'
  end.

(** The left-to-right scan of [str.replace] for a non-empty [old]: [skip]
    counts the characters of a matched occurrence still to be passed over. *)
Fixpoint replace_scan (old new : string) (skip : nat) (s : string) : string :=
  match s with
  | EmptyString => EmptyString
  | String c s' =>
      match skip with
      | S k => replace_scan old new k s'
      | O =>
          if String.prefix old s
          then new ++ replace_scan old new (String.length old - 1) s'
          else String c (replace_scan old new 0 s')
      end
  end.

(** [str.replace] with an empty [old] puts [new] around every character. *)
Fixpoint interleave (new s : string) : string :=
  match s with
  | EmptyString => EmptyString
  | String c s' => String c (new ++ interleave new s')
  end.

(** [s.replace(old, new)]: every non-overlapping occurrence, leftmost first. *)
Definition replace (s old new : string) : string :=
  match old with
  | EmptyString => new ++ interleave new s
  | String _ _ => replace_scan old new 0 s
  end.

(** [s.endswith(p)] *)
Fixpoint endswith (s p : string) : bool :=
  String.eqb s p ||
  match s with
  | EmptyString => false
  | String _ s' => endswith s' p
  end.

(** The longest prefix of [s] whose characters satisfy [keep], and the rest. *)
Fixpoint span (keep : ascii -> bool) (s : string) : string * string :=
  match s with
  | EmptyString => (EmptyString, EmptyString)
  | String c s' =>
      if keep c
      then let (run, rest) := span keep s' in (String c run, rest)
      else (EmptyString, s)
  end.

Definition is_char (c : ascii) : ascii -> bool := Ascii.eqb c.
Definition not_char (c : ascii) : ascii -> bool := fun d => negb (Ascii.eqb c d).

(** The double quote and the line feed, by their codes. *)
Definition dquote : ascii := ascii_of_nat 34.
Definition line_feed : string := String (ascii_of_nat 10) EmptyString.
Definition quoted (s : string) : string :=
  String dquote (s ++ String dquote EmptyString).

(** *** Integers and floats *)

(** [a // b] *)
Definition floordiv (a b : Z) : result Z :=
  if (b =? 0)%Z then Raise ZeroDivisionError else Ok (a / b)%Z.

Definition prec : Z := 53.
Definition emax : Z := 1024.

(** An integer read as an exact, not yet rounded, binary number. *)
Definition exact (n : Z) : spec_float :=
  match n with
  | Z0 => S754_zero false
  | Zpos p => S754_finite false p 0
  | Zneg p => S754_finite true p 0
  end.

Definition finite_or_overflow (x : spec_float) : result spec_float :=
  match x with
  | S754_infinity _ => Raise OverflowError
  | _ => Ok x
  end.

(** The binary64 nearest to [n], ties to even (infinite when [n] is out of
    range). *)
Definition nearest (n : Z) : spec_float := binary_normalize prec emax n 0 false.

(** [float(n)] *)
Definition float_of_int (n : Z) : result spec_float :=
  finite_or_overflow (nearest n).

(** [a / b] on two ints under [from __future__ import division]: the
    correctly rounded quotient of the two integers. *)
Definition truediv (a b : Z) : result spec_float :=
  if (b =? 0)%Z then Raise ZeroDivisionError
  else finite_or_overflow (SFdiv prec emax (exact a) (exact b)).

(** [x * n] for a float and an int. *)
Definition mul_int (x : spec_float) (n : Z) : result spec_float :=
  match float_of_int n with
  | Ok y => Ok (SFmul prec emax x y)
  | Raise e => Raise e
  end.

(** [x / y] on two floats. *)
Definition fdiv (x y : spec_float) : result spec_float :=
  match y with
  | S754_zero _ => Raise ZeroDivisionError
  | _ => Ok (SFdiv prec emax x y)
  end.

(** [int(x)]: truncation towards zero. *)
Definition int_of_float (x : spec_float) : result Z :=
  match x with
  | S754_zero _ => Ok 0%Z
  | S754_finite s m e =>
      let a := match e with
               | Zneg k => Z.shiftr (Zpos m) (Zpos k)
               | _ => Z.shiftl (Zpos m) e
               end in
      Ok (if s then - a else a)%Z
  | S754_infinity _ => Raise OverflowError
  | S754_nan => Raise ValueError
  end.

(** [round(x)] with one argument: the nearest int, ties to even. *)
Definition round (x : spec_float) : result Z :=
  match x with
  | S754_zero _ => Ok 0%Z
  | S754_finite s m e =>
      let a := match e with
               | Zneg k =>
                   let unit := Z.shiftl 1 (Zpos k) in
                   let q := (Zpos m / unit)%Z in
                   let r := (Zpos m mod unit)%Z in
                   match (2 * r ?= unit)%Z with
                   | Lt => q
                   | Gt => (q + 1)%Z
                   | Eq => if Z.even q then q else (q + 1)%Z
                   end
               | _ => Z.shiftl (Zpos m) e
               end in
      Ok (if s then - a else a)%Z
  | S754_infinity _ => Raise OverflowError
  | S754_nan => Raise ValueError
  end.

(** *** Operators on decoded JSON *)

(** [key in j] for a [str] key: key membership in a dict, element membership
    in a list, substring in a str, and a TypeError on anything else. *)
Definition json_contains (key : string) (j : json) : result bool :=
  match j with
  | JObj m => Ok (bool_decide (is_Some (m !! key)))
  | JArr xs =>
      Ok (existsb (fun x => match x with
                            | JStr s => String.eqb key s
                            | _ => false
                            end) xs)
  | JStr s => Ok (contains key s)
  | JNull | JBool _ | JInt _ | JFloat _ => Raise TypeError
  end.

(** [j[key]] for a [str] key: only a dict can be indexed by a str. *)
Definition json_getitem (j : json) (key : string) : result json :=
  match j with
  | JObj m =>
      match m !! key with
      | Some v => Ok v
      | None => Raise KeyError
      end
  | _ => Raise TypeError
  end.

(** [j == s] for a [str] literal [s]. *)
Definition json_eq_str (j : json) (s : string) : bool :=
  match j with
  | JStr t => String.eqb t s
  | _ => false
  end.

(** [bool(j)], the truth value tested by [if j]. *)
Definition truthy (j : json) : bool :=
  match j with
  | JNull => false
  | JBool b => b
  | JInt n => negb (n =? 0)%Z
  | JFloat x => negb (SFeqb x (S754_zero false))
  | JStr s => negb (String.eqb s EmptyString)
  | JArr xs => match xs with [] => false | _ => true end
  | JObj m => negb (bool_decide (m = ∅))
  end.

(** *** os.path *)

(** [p] cut after its last slash: [p[:i], p[i:]] for [i = p.rfind('/') + 1],
    when [p] has a slash. *)
Fixpoint cut_after_last_sep (p : string) : option (string * string) :=
  match p with
  | EmptyString => None
  | String c p' =>
      match cut_after_last_sep p' with
      | Some (h, t) => Some (String c h, t)
      | None => if is_char "/" c then Some (String c EmptyString, p') else None
      end
  end.

(** [s.rstrip('/')] *)
Fixpoint rstrip_sep (s : string) : string :=
  match s with
  | EmptyString => EmptyString
  | String c s' =>
      match rstrip_sep s' with
      | EmptyString => if is_char "/" c then EmptyString else String c EmptyString
      | r => String c r
      end
  end.

(** [head == '/' * len(head)] *)
Fixpoint all_sep (s : string) : bool :=
  match s with
  | EmptyString => true
  | String c s' => is_char "/" c && all_sep s'
  end.

(** [os.path.split(p)] of posixpath *)
Definition path_split (p : string) : string * string :=
  let (head, tail) := match cut_after_last_sep p with
                      | Some ht => ht
                      | None => (EmptyString, p)
                      end in
  (if negb (String.eqb head EmptyString) && negb (all_sep head)
   then rstrip_sep head else head, tail).

(** [os.path.join(a, b)] of posixpath *)
Definition path_join (a b : string) : string :=
  if startswith b "/" then b
  else if String.eqb a EmptyString || endswith a "/" then a ++ b
  else a ++ "/" ++ b.

(** *** Extended slices *)

(** Every [S k]-th element of [l], the first after [skip] elements. *)
Fixpoint every {A : Type} (k skip : nat) (l : list A) : list A :=
  match l with
  | [] => []
  | x :: l' =>
      match skip with
      | O => x :: every k k l'
      | S j => every k j l'
      end
  end.

(** [l[::step]] *)
Definition slice_step {A : Type} (l : list A) (step : Z) : result (list A) :=
  match step with
  | Z0 => Raise ValueError
  | Zpos p => Ok (every (Pos.to_nat p - 1) 0 l)
  | Zneg p => Ok (every (Pos.to_nat p - 1) 0 (rev l))
  end.

End Py.

(** ** Location rewriting *)

Definition filename_to_namespace (filename : string) : string :=
  if Py.startswith filename "root://fndca1.fnal.gov:1094" then
    Py.replace filename "root://fndca1.fnal.gov:1094" ""
  else if Py.startswith filename "/pnfs/uboone" then
    Py.replace filename "/pnfs/uboone" "/pnfs/fnal.gov/usr/uboone"
  else if Py.startswith filename "enstore:/pnfs/uboone" then
    Py.replace filename "enstore:/pnfs/uboone" "/pnfs/fnal.gov/usr/uboone"
  else filename.

(** ** The tape-location pattern

    [ENSTORE_PATTERN = re.compile(r"^enstore:([^(]+)(\([^)]+\))?")].  The
    pattern ends in an optional group, so group 1 never gives back a
    character: it is the longest run without an opening parenthesis. *)

(** A match object: groups 1 and 2, the second [None] when the optional group
    took no part in the match. *)
Record enstore_match : Type := { group1 : string; group2 : option string }.

Definition tape_suffix (rest : string) : option string :=
  match rest with
  | String c inner =>
      if Py.is_char "(" c then
        match Py.span (Py.not_char ")") inner with
        | (String v vs, String d _) =>
            if Py.is_char ")" d
            then Some ("(" ++ String v vs ++ ")")
            else None
        | _ => None
        end
      else None
  | EmptyString => None
  end.

(** [ENSTORE_PATTERN.match(s)] *)
Definition ENSTORE_PATTERN (s : string) : option enstore_match :=
  if Py.startswith s "enstore:" then
    match Py.span (Py.not_char "(") (Py.drop 8 s) with
    | (EmptyString, _) => None
    | (dir, rest) => Some {| group1 := dir; group2 := tape_suffix rest |}
    end
  else None.

Definition DCACHE_REST_BASE_URL : string :=
  "https://fndca.fnal.gov:3880/api/v1/namespace".

(** ** Effects: the outside world, standard output, exceptions *)

(** An argument of [print]: an int, a str, a decoded JSON value, or a
    [fmt % args] expression kept with its format and its arguments. *)
Inductive pyval : Type :=
| VInt (n : Z)
| VStr (s : string)
| VJson (j : json)
| VFormat (fmt : string) (args : list pyval).

(** One call of [print]: its positional arguments and its [end]. *)
Record printed : Type := { print_args : list pyval; print_end : string }.

Record State (World : Type) : Type :=
  { world : World; stdout : list printed }.
Arguments world {World} _.
Arguments stdout {World} _.

(** A computation that reads and changes the state and returns or raises. *)
Definition M (World A : Type) : Type :=
  State World -> result A * State World.

Definition ret {W A : Type} (a : A) : M W A := fun st => (Ok a, st).

Definition raise {W A : Type} (e : exn) : M W A := fun st => (Raise e, st).

Definition bind {W A B : Type} (m : M W A) (k : A -> M W B) : M W B :=
  fun st =>
    match m st with
    | (Ok a, st') => k a st'
    | (Raise e, st') => (Raise e, st')
    end.

(** A pure operation that may raise. *)
Definition lift {W A : Type} (r : result A) : M W A := fun st => (r, st).

(** An operation of the outside world. *)
Definition on_world {W A : Type} (f : W -> result A * W) : M W A :=
  fun st =>
    let (r, w) := f (world st) in
    (r, {| world := w; stdout := stdout st |}).

Definition print {W : Type} (args : list pyval) (end_ : string) : M W unit :=
  fun st =>
    (Ok tt,
     {| world := world st;
        stdout := (stdout st ++ [{| print_args := args; print_end := end_ |}])%list |}).

Declare Scope py_scope.
Delimit Scope py_scope with py.
Notation "'let*' x ':=' m 'in' k" := (bind m (fun x => k))
  (at level 10, x pattern, m at level 100, k at level 200) : py_scope.
Notation "m ';;;' k" := (bind m (fun _ => k))
  (at level 100, k at level 200, right associativity) : py_scope.
#[local] Open Scope py_scope.

(** ** The progress bar *)

Record ProgressBar : Type :=
  { total : Z;
    _total_div10 : Z;
    announce : bool;
    _last_announce_decile : Z }.

Definition set_last_announce_decile (self : ProgressBar) (d : Z) : ProgressBar :=
  {| total := total self;
     _total_div10 := _total_div10 self;
     announce := announce self;
     _last_announce_decile := d |}.

(** [int(n / self.total * 100)] *)
Definition curr_perc (n total : Z) : result Z :=
  match Py.truediv n total with
  | Ok q =>
      match Py.mul_int q 100 with
      | Ok x => Py.int_of_float x
      | Raise e => Raise e
      end
  | Raise e => Raise e
  end.

(** [ProgressBar.Update(self, n)]; the updated object is returned.
    [sys.stdout.flush()] leaves the list of prints as it is.  For a total of
    at most 10 [current_decile] stays [None], and comparing [None] with an
    int raises TypeError. *)
Definition Update {W : Type} (self : ProgressBar) (n : Z) : M W ProgressBar :=
  let* current_decile :=
    (if (total self >? 10)%Z
     then let* d := lift (Py.floordiv n (_total_div10 self)) in ret (Some d)
     else ret None) in
  if announce self then
    (match current_decile with
     | None => print [VFormat " %d" [VInt n]] " "
     | Some _ => ret tt
     end) ;;;
    let* crossed :=
      (match current_decile with
       | Some d => ret (d >? _last_announce_decile self)%Z
       | None => raise TypeError
       end) in
    if crossed || (n =? total self)%Z then
      let* p := lift (curr_perc n (total self)) in
      print [VFormat " %d%%" [VInt p]] " " ;;;
      let* d := lift (Py.floordiv n (_total_div10 self)) in
      ret (set_last_announce_decile self d)
    else ret self
  else ret self.

(** [ProgressBar(total, announce_threshold)]; the script only ever relies on
    the default threshold. *)
Definition default_announce_threshold : Z := 50.

Definition ProgressBar_init {W : Type} (total announce_threshold : Z)
  : M W ProgressBar :=
  Update {| total := total;
            _total_div10 := (total / 10)%Z;
            announce := (total >=? announce_threshold)%Z;
            _last_announce_decile := (-1)%Z |} 0%Z.

(** ** The curl handle

    A [pycurl.Curl] object is the table of the options set on it so far;
    [setopt] overwrites one entry.  The write callback is a fresh buffer at
    every transfer: [perform] hands back what was written to it. *)

Inductive curl_option : Type :=
| OStr (s : string)
| OInt (n : Z)
| OBool (b : bool)
| OList (l : list string).

Abbreviation Curl := (gmap string curl_option).

Definition setopt (c : Curl) (option : string) (v : curl_option) : Curl :=
  <[option := v]> c.

(** The URL of the status query of [get_file_qos]. *)
Definition qos_url (filename : string) : string :=
  DCACHE_REST_BASE_URL ++ "/" ++ filename_to_namespace filename
    ++ "?qos=true&locality=true".

(** What [get_file_qos] reads off the decoded body: [(locality, targetQos)]. *)
Definition qos_fields (j : json) : result (json * json) :=
  match Py.json_contains "fileLocality" j with
  | Raise e => Raise e
  | Ok has_locality =>
      match (if has_locality then Py.json_getitem j "fileLocality"
             else Ok (JStr "")) with
      | Raise e => Raise e
      | Ok locality =>
          match Py.json_contains "targetQos" j with
          | Raise e => Raise e
          | Ok has_target =>
              match (if has_target then Py.json_getitem j "targetQos"
                     else Ok (JStr "")) with
              | Raise e => Raise e
              | Ok targetQos => Ok (locality, targetQos)
              end
          end
      end
  end.

Definition prestage_postfields : string :=
  "{" ++ Py.quoted "action" ++ " : " ++ Py.quoted "qos" ++ ", "
      ++ Py.quoted "target" ++ " : " ++ Py.quoted "disk+tape" ++ "}".

(** The test [("status" in j and j["status"] == "success")] on the decoded
    body. *)
Definition status_is_success (j : json) : result bool :=
  match Py.json_contains "status" j with
  | Raise e => Raise e
  | Ok false => Ok false
  | Ok true =>
      match Py.json_getitem j "status" with
      | Raise e => Raise e
      | Ok v => Ok (Py.json_eq_str v "success")
      end
  end.

(** The pseudo-file read by [is_file_online_pnfs]. *)
Definition stat_file (f : string) : string :=
  let (path, filename) := Py.path_split f in
  path ++ "/.(get)(" ++ filename ++ ")(locality)".

Definition tab : string := String (ascii_of_nat 9) EmptyString.

(** [round(count/total*100)] for an int [count] and a float [total]. *)
Definition rounded_percent (count : Z) (total : spec_float) : result Z :=
  match Py.float_of_int count with
  | Raise e => Raise e
  | Ok x =>
      match Py.fdiv x total with
      | Raise e => Raise e
      | Ok q =>
          match Py.mul_int q 100 with
          | Raise e => Raise e
          | Ok y => Py.round y
          end
      end
  end.

(** [(" (%d%%)" % round(count/total*100)) if total > 0 else ""] *)
Definition frac_str (count : Z) (total : spec_float) : result pyval :=
  if SFltb (S754_zero false) total then
    match rounded_percent count total with
    | Raise e => Raise e
    | Ok r => Ok (VFormat " (%d%%)" [VInt r])
    end
  else Ok (VStr "").

(** The exit status of the process: the argument of [sys.exit], or 1 when an
    exception reaches the top of the script. *)
Definition exit_status (outcome : result Z) : Z :=
  match outcome with
  | Ok status => status
  | Raise _ => 1%Z
  end.

(** ** A reference JSON decoder

    The script takes [json.loads] as given: it is a variable of the section
    below, and every general result holds for whatever it returns.  The
    examples need it at concrete bodies, and [json_decode] supplies it
    there: JSON text over
    iso-8859-1 as the [json] module reads it (white space, the three
    literals, [NaN] and the infinities, numbers, strings with their escapes,
    arrays, objects whose last duplicate key wins, nothing but white space
    after the value).  A [\u] escape above U+00FF names a character that
    [string] cannot hold; such a body is outside the examples and is
    rejected here. *)

Module JsonText.

Definition code (c : ascii) : N := N_of_ascii c.

Definition is_ws (c : ascii) : bool :=
  match code c with
  | 32%N | 9%N | 10%N | 13%N => true
  | _ => false
  end.

Fixpoint skip_ws (s : string) : string :=
  match s with
  | String c s' => if is_ws c then skip_ws s' else s
  | EmptyString => s
  end.

Definition is_digit (c : ascii) : bool :=
  (48 <=? code c)%N && (code c <=? 57)%N.

(** The value of a run of decimal digits. *)
Fixpoint decimal (acc : Z) (ds : string) : Z :=
  match ds with
  | EmptyString => acc
  | String d ds' => decimal (10 * acc + Z.of_N (code d - 48))%Z ds'
  end.

Definition hex_digit (c : ascii) : option N :=
  let k := code c in
  if (48 <=? k)%N && (k <=? 57)%N then Some (k - 48)%N
  else if (65 <=? k)%N && (k <=? 70)%N then Some (k - 55)%N
  else if (97 <=? k)%N && (k <=? 102)%N then Some (k - 87)%N
  else None.

Definition hex4 (a b c d : ascii) : option N :=
  match hex_digit a, hex_digit b, hex_digit c, hex_digit d with
  | Some x, Some y, Some z, Some w => Some (((x * 16 + y) * 16 + z) * 16 + w)%N
  | _, _, _, _ => None
  end.

(** The character a one-letter escape stands for. *)
Definition unescape (e : ascii) : option ascii :=
  match code e with
  | 34%N => Some (ascii_of_N 34)    (* quote *)
  | 92%N => Some (ascii_of_N 92)    (* backslash *)
  | 47%N => Some (ascii_of_N 47)    (* slash *)
  | 98%N => Some (ascii_of_N 8)     (* b *)
  | 102%N => Some (ascii_of_N 12)   (* f *)
  | 110%N => Some (ascii_of_N 10)   (* n *)
  | 114%N => Some (ascii_of_N 13)   (* r *)
  | 116%N => Some (ascii_of_N 9)    (* t *)
  | _ => None
  end.

Definition push (c : ascii) (r : option (string * string))
  : option (string * string) :=
  match r with
  | Some (t, rest) => Some (String c t, rest)
  | None => None
  end.

(** The text of a string literal from just after its opening quote, and what
    follows its closing quote. *)
Fixpoint scan_string (s : string) : option (string * string) :=
  match s with
  | EmptyString => None
  | String c s' =>
      if (code c =? 34)%N then Some (EmptyString, s')
      else if (code c =? 92)%N then
        match s' with
        | EmptyString => None
        | String e s'' =>
            match unescape e with
            | Some ch => push ch (scan_string s'')
            | None =>
                if (code e =? 117)%N then
                  match s'' with
                  | String h1 (String h2 (String h3 (String h4 rest))) =>
                      match hex4 h1 h2 h3 h4 with
                      | Some k =>
                          if (k <? 256)%N
                          then push (ascii_of_N k) (scan_string rest)
                          else None
                      | None => None
                      end
                  | _ => None
                  end
                else None
            end
        end
      else if (code c <? 32)%N then None
      else push c (scan_string s')
  end.

(** The float nearest to [mant * 10 ^ scale], with the sign of the literal. *)
Definition decimal_float (negative : bool) (mant scale : Z) : spec_float :=
  let x :=
    match mant with
    | Z0 => S754_zero false
    | _ =>
        if (0 <=? scale)%Z
        then SFdiv Py.prec Py.emax (Py.exact (mant * 10 ^ scale)) (Py.exact 1)
        else SFdiv Py.prec Py.emax (Py.exact mant) (Py.exact (10 ^ (- scale)))
    end in
  if negative then SFopp x else x.

(** A number literal at the head of [s]: an optional minus, then [0] or a
    run of digits not starting with [0]; a fraction and an exponent only when
    each has a digit; an int when it has neither, a float otherwise. *)
Definition scan_number (s : string) : option (json * string) :=
  let (negative, s1) :=
    match s with
    | String c r => if (code c =? 45)%N then (true, r) else (false, s)
    | EmptyString => (false, s)
    end in
  match Py.span is_digit s1 with
  | (EmptyString, _) => None
  | (String d ds, after_digits) =>
      let (ipart, s2) :=
        if (code d =? 48)%N
        then (String d EmptyString, ds ++ after_digits)
        else (String d ds, after_digits) in
      let (frac, s3) :=
        match s2 with
        | String c r =>
            if (code c =? 46)%N then
              match Py.span is_digit r with
              | (EmptyString, _) => (None, s2)
              | (fs, r') => (Some fs, r')
              end
            else (None, s2)
        | EmptyString => (None, s2)
        end in
      let (expo, s4) :=
        match s3 with
        | String c r =>
            if (code c =? 101)%N || (code c =? 69)%N then
              let (eneg, r1) :=
                match r with
                | String g r' =>
                    if (code g =? 45)%N then (true, r')
                    else if (code g =? 43)%N then (false, r')
                    else (false, r)
                | EmptyString => (false, r)
                end in
              match Py.span is_digit r1 with
              | (EmptyString, _) => (None, s3)
              | (es, r2) =>
                  (Some (if eneg then - decimal 0 es else decimal 0 es)%Z, r2)
              end
            else (None, s3)
        | EmptyString => (None, s3)
        end in
      match frac, expo with
      | None, None =>
          let k := decimal 0 ipart in
          Some (JInt (if negative then - k else k)%Z, s4)
      | _, _ =>
          let fs := match frac with Some fs => fs | None => EmptyString end in
          let e := match expo with Some e => e | None => 0%Z end in
          Some (JFloat (decimal_float negative (decimal 0 (ipart ++ fs))
                          (e - Z.of_nat (String.length fs))), s4)
      end
  end.

Definition after_word (word : string) (v : json) (s : string)
  : option (json * string) :=
  if Py.startswith s word
  then Some (v, Py.drop (String.length word) s)
  else None.

(** What is neither a string, an object nor an array. *)
Definition scan_atom (s : string) : option (json * string) :=
  match after_word "null" JNull s with
  | Some r => Some r
  | None =>
  match after_word "true" (JBool true) s with
  | Some r => Some r
  | None =>
  match after_word "false" (JBool false) s with
  | Some r => Some r
  | None =>
  match scan_number s with
  | Some r => Some r
  | None =>
  match after_word "NaN" (JFloat S754_nan) s with
  | Some r => Some r
  | None =>
  match after_word "Infinity" (JFloat (S754_infinity false)) s with
  | Some r => Some r
  | None => after_word "-Infinity" (JFloat (S754_infinity true)) s
  end end end end end end.

(** One value at the head of [s]; [fuel] bounds the calls, and every call is
    made after at least one character was read. *)
Fixpoint scan_value (fuel : nat) (s : string) {struct fuel}
  : option (json * string) :=
  match fuel with
  | O => None
  | S fuel' =>
      match s with
      | EmptyString => None
      | String c r =>
          if (code c =? 34)%N then
            match scan_string r with
            | Some (t, rest) => Some (JStr t, rest)
            | None => None
            end
          else if (code c =? 123)%N then
            match skip_ws r with
            | String d r' =>
                if (code d =? 125)%N then Some (JObj ∅, r')
                else scan_members fuel' (String d r') ∅
            | EmptyString => None
            end
          else if (code c =? 91)%N then
            match skip_ws r with
            | String d r' =>
                if (code d =? 93)%N then Some (JArr [], r')
                else scan_elements fuel' (String d r') []
            | EmptyString => None
            end
          else scan_atom s
      end
  end
with scan_elements (fuel : nat) (s : string) (acc : list json) {struct fuel}
  : option (json * string) :=
  match fuel with
  | O => None
  | S fuel' =>
      match scan_value fuel' s with
      | None => None
      | Some (v, r) =>
          match skip_ws r with
          | String d r' =>
              if (code d =? 93)%N then Some (JArr (acc ++ [v])%list, r')
              else if (code d =? 44)%N
              then scan_elements fuel' (skip_ws r') (acc ++ [v])%list
              else None
          | EmptyString => None
          end
      end
  end
with scan_members (fuel : nat) (s : string) (m : gmap string json) {struct fuel}
  : option (json * string) :=
  match fuel with
  | O => None
  | S fuel' =>
      match s with
      | EmptyString => None
      | String q r =>
          if (code q =? 34)%N then
            match scan_string r with
            | None => None
            | Some (k, r1) =>
                match skip_ws r1 with
                | EmptyString => None
                | String colon r2 =>
                    if (code colon =? 58)%N then
                      match scan_value fuel' (skip_ws r2) with
                      | None => None
                      | Some (v, r3) =>
                          match skip_ws r3 with
                          | String d r4 =>
                              if (code d =? 125)%N
                              then Some (JObj (<[k := v]> m), r4)
                              else if (code d =? 44)%N
                              then scan_members fuel' (skip_ws r4) (<[k := v]> m)
                              else None
                          | EmptyString => None
                          end
                      end
                    else None
                end
            end
          else None
      end
  end.

(** [json.loads(body)] on the text the examples use. *)
Definition json_decode (body : string) : result json :=
  match scan_value (2 * String.length body + 2) (skip_ws body) with
  | Some (v, rest) =>
      match skip_ws rest with
      | EmptyString => Ok v
      | String _ _ => Raise ValueError
      end
  | None => Raise ValueError
  end.

End JsonText.

(** ** A scripted backend for the examples

    The world of the examples: what each URL answers (a body, or the
    transfer fails), the first line of each readable pnfs pseudo-file, and a
    record of the URLs requested and of the files written. *)

Record Mock : Type :=
  { served : gmap string (result string);
    fallback : result string;
    pseudo_files : gmap string string;
    requested : list string;
    written : list (string * list string) }.

Definition mock_perform (c : gmap string curl_option) (w : Mock)
  : result string * Mock :=
  let url := match c !! "URL" with
             | Some (OStr u) => u
             | _ => EmptyString
             end in
  (match served w !! url with
   | Some reply => reply
   | None => fallback w
   end,
   {| served := served w;
      fallback := fallback w;
      pseudo_files := pseudo_files w;
      requested := (requested w ++ [url])%list;
      written := written w |}).

Definition mock_open_readline (path : string) (w : Mock)
  : result string * Mock :=
  (match pseudo_files w !! path with
   | Some line => Ok line
   | None => Raise OSError
   end, w).

Definition mock_write_lines (path : string) (lines : list string) (w : Mock)
  : result unit * Mock :=
  (Ok tt,
   {| served := served w;
      fallback := fallback w;
      pseudo_files := pseudo_files w;
      requested := requested w;
      written := (written w ++ [(path, lines)])%list |}).

(** A JSON object with string members, as text. *)
Fixpoint members_text (members : list (string * string)) : string :=
  match members with
  | [] => EmptyString
  | [(k, v)] => Py.quoted k ++ ":" ++ Py.quoted v
  | (k, v) :: rest => Py.quoted k ++ ":" ++ Py.quoted v ++ "," ++ members_text rest
  end.

Definition object_text (members : list (string * string)) : string :=
  "{" ++ members_text members ++ "}".

Definition mock_state (served : list (string * result string))
  (fallback : result string) (pseudo_files : list (string * string))
  : State Mock :=
  {| world := {| served := list_to_map served;
                 fallback := fallback;
                 pseudo_files := list_to_map pseudo_files;
                 requested := [];
                 written := [] |};
     stdout := [] |}.

Definition example_proxy : string := "/tmp/x509up_u1000".

(** A backend that answers every request with [reply]. *)
Definition answering (reply : result string) : State Mock :=
  mock_state [] reply [].

(** Three files of a batch. *)
Definition file1 : string := "/pnfs/uboone/data/run1.root".
Definition file2 : string := "/pnfs/uboone/data/run2.root".
Definition file3 : string := "/pnfs/uboone/data/run3.root".
Definition three_files : list string := [file1; file2; file3].

(** The first is on disk and tape, the second on tape with a stage to
    disk+tape under way, the third on tape and on its way to tape only. *)
Definition three_answered : State Mock :=
  mock_state
    [(qos_url file1, Ok (object_text [("fileLocality", "ONLINE_AND_NEARLINE")]));
     (qos_url file2, Ok (object_text [("fileLocality", "NEARLINE");
                                      ("targetQos", "disk+tape")]));
     (qos_url file3, Ok (object_text [("fileLocality", "NEARLINE");
                                      ("targetQos", "tape")]))]
    (Raise PycurlError) [].

(** The locality and the target it answers for each. *)
Definition three_answers : list (string * string) :=
  [("ONLINE_AND_NEARLINE", ""); ("NEARLINE", "disk+tape"); ("NEARLINE", "tape")].

(** The same backend with the second file unreachable. *)
Definition second_unreachable : State Mock :=
  mock_state
    [(qos_url file1, Ok (object_text [("fileLocality", "ONLINE_AND_NEARLINE")]));
     (qos_url file3, Ok (object_text [("fileLocality", "NEARLINE")]))]
    (Raise PycurlError) [].

(** A pnfs mount with the pseudo-files of the three files. *)
Definition three_mounted : State Mock :=
  mock_state [] (Raise PycurlError)
    [(stat_file file1, "ONLINE_AND_NEARLINE" ++ Py.line_feed);
     (stat_file file2, "NEARLINE" ++ Py.line_feed);
     (stat_file file3, "NEARLINE" ++ Py.line_feed)].


(** ** The start of the script: the command line and the SAM client

    The script asks the SAM catalogue for file names and locations through
    [samweb_client].  Its calls are taken as given, like the curl transfer;
    what matters of them to the script is whether they return or raise, and
    which exception. *)

(** What reaches an [except] clause of the script: a built-in exception, one
    of the two exceptions of the SAM client that the script names, or any
    other exception of the client. *)
Inductive raised : Type :=
| Builtin (e : exn)
| FileNotFound
| HTTPNotFound
| SAMError.

(** A call that returns or raises. *)
Inductive attempt (A : Type) : Type :=
| Returned (a : A)
| Threw (e : raised).
Arguments Returned {A} a.
Arguments Threw {A} e.

(** The parsed command line, [args]; an option that was not given is
    [None]. *)
Record Args : Type :=
  { files : list string;
    dataset_name : option string;
    dimensions : option string;
    sparse : Z;
    snapshot : option string;
    verbose : bool;
    prestage : bool;
    method : string }.

(** How the part of the script that builds the list of files ends: with the
    locals [filelist] and [cache_count], with a call of [exit] or
    [sys.exit], or with an exception that nothing catches. *)
Inductive built : Type :=
| Filelist (filelist : list string) (cache_count : Z)
| Exit (status : Z)
| Uncaught (e : raised).

(** ** A scripted site for the examples of the start of the script

    The scripted backend, the files of the local file system, what the SAM
    catalogue answers to each of its three calls, and what was written to
    standard error. *)

Record Site : Type :=
  { dcache : Mock;
    on_disk : list string;
    located : gmap string (list json);
    defined : gmap string (list string);
    selected : gmap string (list (string * string));
    stderr : list (list pyval) }.

Definition with_dcache (s : Site) (m : Mock) : Site :=
  {| dcache := m; on_disk := on_disk s; located := located s;
     defined := defined s; selected := selected s; stderr := stderr s |}.

Definition site_perform (c : gmap string curl_option) (s : Site)
  : result string * Site :=
  let (r, m) := mock_perform c (dcache s) in (r, with_dcache s m).

Definition site_open_readline (path : string) (s : Site)
  : result string * Site :=
  let (r, m) := mock_open_readline path (dcache s) in (r, with_dcache s m).

Definition site_write_lines (path : string) (lines : list string) (s : Site)
  : result unit * Site :=
  let (r, m) := mock_write_lines path lines (dcache s) in (r, with_dcache s m).

Definition site_isfile (f : string) (s : Site) : bool * Site :=
  (existsb (String.eqb f) (on_disk s), s).

(** A name the catalogue does not know raises FileNotFound. *)
Definition site_locateFile (f : string) (s : Site)
  : attempt (list json) * Site :=
  (match located s !! f with
   | Some locs => Returned locs
   | None => Threw FileNotFound
   end, s).

Definition site_listFiles (defname : string) (s : Site)
  : attempt (list string) * Site :=
  (match defined s !! defname with
   | Some names => Returned names
   | None => Threw SAMError
   end, s).

Definition site_listFilesAndLocations (dims : string) (s : Site)
  : attempt (list (string * string)) * Site :=
  (match selected s !! dims with
   | Some entries => Returned entries
   | None => Threw SAMError
   end, s).

Definition site_print_stderr (args : list pyval) (s : Site) : Site :=
  {| dcache := dcache s; on_disk := on_disk s; located := located s;
     defined := defined s; selected := selected s;
     stderr := (stderr s ++ [args])%list |}.

Definition site_str (e : raised) : string :=
  match e with
  | Builtin ValueError => "slice step cannot be zero"
  | Builtin _ => "error"
  | FileNotFound => "File not found"
  | HTTPNotFound => "404 Not Found"
  | SAMError => "SAM error"
  end.

(** A location record of the catalogue, with its two members. *)
Definition location_record (location full_path : string) : json :=
  JObj (<["location" := JStr location]> (<["full_path" := JStr full_path]> ∅)).

(** A site: two local files, one of them under /pnfs; two names with two
    copies on tape and one on disk each, the copy on disk first for the
    second name; three datasets, the second with a file the catalogue does
    not know; a query by dimensions and the newest snapshot of the first
    dataset. *)
Definition example_site : State Site :=
  {| world :=
       {| dcache := world (answering (Ok "{}"));
          on_disk := ["/pnfs/uboone/data/run1.root"; "/home/user/notes.txt"];
          located :=
            list_to_map
              [("run7.root",
                [location_record "enstore:/pnfs/uboone/a(vol1)"
                   "enstore:/pnfs/uboone/a";
                 location_record "dcache:/pnfs/uboone/b" "dcache:/pnfs/uboone/b";
                 location_record "enstore:/pnfs/uboone/c(vol2)"
                   "enstore:/pnfs/uboone/c"]);
               ("run8.root",
                [location_record "dcache:/pnfs/uboone/b" "dcache:/pnfs/uboone/b";
                 location_record "enstore:/pnfs/uboone/c(vol2)"
                   "enstore:/pnfs/uboone/c";
                 location_record "enstore:/pnfs/uboone/a(vol1)"
                   "enstore:/pnfs/uboone/a"])];
          defined :=
            list_to_map
              [("mydef", ["run7.root"]);
               ("otherdef", ["run7.root"; "run0.root"; "run7.root"]);
               ("twodef", ["run8.root"; "run7.root"])];
          selected :=
            list_to_map
              [("run_number 7",
                [("enstore:/pnfs/uboone/a(vol1)", "run7.root");
                 ("dcache:/pnfs/uboone/b", "run8.root");
                 ("enstore:/pnfs/uboone/c(vol2)", "run9.root")]);
               ("dataset_def_name_newest_snapshot mydef",
                [("enstore:/pnfs/uboone/a(vol1)", "run7.root")])];
          stderr := [] |};
     stdout := [] |}.

(** The first lines of the pseudo-files of [three_mounted]. *)
Definition three_lines : list string :=
  ["ONLINE_AND_NEARLINE" ++ Py.line_feed; "NEARLINE" ++ Py.line_feed;
   "NEARLINE" ++ Py.line_feed].

(** A backend that answers the prestage request of the first of the three
    files with success and fails the transfer of every other request, and
    one that answers the request of the second with a failure and every
    other with success. *)
Definition first_prestaged : State Mock :=
  mock_state
    [(DCACHE_REST_BASE_URL ++ "/" ++ filename_to_namespace file1,
      Ok (object_text [("status", "success")]))]
    (Raise PycurlError) [].

Definition second_refused : State Mock :=
  mock_state
    [(DCACHE_REST_BASE_URL ++ "/" ++ filename_to_namespace file2,
      Ok (object_text [("status", "failed")]))]
    (Ok (object_text [("status", "success")])) [].

(** Command lines. *)
Definition plain_arguments (names : list string) : Args :=
  {| files := names; dataset_name := None; dimensions := None; sparse := 1;
     snapshot := None; verbose := false; prestage := false; method := "rest" |}.

Definition by_dimensions (dims : string) (step : Z) : Args :=
  {| files := []; dataset_name := None; dimensions := Some dims;
     sparse := step; snapshot := None; verbose := false; prestage := false;
     method := "rest" |}.

Definition by_dataset (name : string) (snap : option string) : Args :=
  {| files := []; dataset_name := Some name; dimensions := None; sparse := 1;
     snapshot := snap; verbose := false; prestage := false; method := "rest" |}.
Section Script.
#[local] Set Default Proof Using "Type".

(** The outside world and the library calls that reach it. *)
Context {World : Type}.

(** [os.getenv("X509_USER_PROXY", "/tmp/x509up_u%d" % os.getuid())], read
    once when the module is loaded. *)
Variable X509_USER_PROXY : string.

(** [c.perform()]: the transfer described by the handle's options; it returns
    the body the server sent (read as iso-8859-1, one character a byte) or
    raises [pycurl.error].  An HTTP error status does not fail the transfer,
    since the handle never sets FAILONERROR: the body of the error reply is
    returned like any other. *)
Variable perform : gmap string curl_option -> World -> result string * World.

(** [json.loads] *)
Variable json_loads : string -> result json.

(** [open(path)], [readline()] and [close()] on a pnfs pseudo-file. *)
Variable open_readline : string -> World -> result string * World.

(** [open(path, "w")] followed by one [write] per line. *)
Variable write_lines : string -> list string -> World -> result unit * World.

Definition make_curl : Curl :=
  let c : Curl := ∅ in
  let c := setopt c "CAINFO" (OStr X509_USER_PROXY) in
  let c := setopt c "SSLCERT" (OStr X509_USER_PROXY) in
  let c := setopt c "SSLKEY" (OStr X509_USER_PROXY) in
  let c := setopt c "SSH_PRIVATE_KEYFILE" (OStr X509_USER_PROXY) in
  let c := setopt c "FOLLOWLOCATION" (OBool true) in
  let c := setopt c "CAPATH" (OStr "/etc/grid-security/certificates") in
  c.

(** [get_file_qos(c, filename)]; the handle is returned with its new URL. *)
Definition get_file_qos (c : Curl) (filename : string)
  : M World (Curl * (json * json)) :=
  let c := setopt c "URL" (OStr (qos_url filename)) in
  let* body := on_world (perform c) in
  let* j := lift (json_loads body) in
  let* fields := lift (qos_fields j) in
  ret (c, fields).

(** [is_file_online(c, filename)] *)
Definition is_file_online (c : Curl) (filename : string)
  : M World (Curl * bool) :=
  let* r := get_file_qos c filename in
  let* online := lift (Py.json_contains "ONLINE" (fst (snd r))) in
  ret (fst r, online).

(** [request_prestage(c, filename)] *)
Definition request_prestage (c : Curl) (filename : string)
  : M World (Curl * bool) :=
  let c := setopt c "POSTFIELDS" (OStr prestage_postfields) in
  let c := setopt c "HTTPHEADER"
             (OList ["Accept: application/json";
                     "Content-Type: application/json"]) in
  let c := setopt c "POST" (OInt 1) in
  let c := setopt c "URL"
             (OStr (DCACHE_REST_BASE_URL ++ "/" ++ filename_to_namespace filename)) in
  let* body := on_world (perform c) in
  let* j := lift (json_loads body) in
  let* success := lift (status_is_success j) in
  ret (c, success).

(** [is_file_online_pnfs(f)] *)
Definition is_file_online_pnfs (f : string) : M World bool :=
  let* state := on_world (open_readline (stat_file f)) in
  ret (Py.contains "ONLINE" state).

(** ** The status batch *)

(** The body of the loop of [FilelistCacheCount] for [METHOD == "rest"]: the
    locals [c], [cached], [cache_list] and [pending] after file [f]. *)
Definition count_rest (verbose_flag : bool) (c : option Curl) (f : string)
  (cached : Z) (cache_list : list string) (pending : Z)
  : M World (option Curl * Z * list string * Z) :=
  match c with
  | None => raise AttributeError
  | Some h =>
      let* r := get_file_qos h f in
      let qos := fst (snd r) in
      let targetQos := snd (snd r) in
      let* online := lift (Py.json_contains "ONLINE" qos) in
      let cached' := if online then (cached + 1)%Z else cached in
      let cache_list' := if online then (cache_list ++ [f])%list else cache_list in
      let* disk := lift (Py.json_contains "disk" targetQos) in
      let pending' := if disk then (pending + 1)%Z else pending in
      (if verbose_flag
       then print [VStr f; VJson qos;
                   VStr (if Py.truthy targetQos then "pending" else "")]
              Py.line_feed
       else ret tt) ;;;
      ret (Some (fst r), cached', cache_list', pending')
  end.

(** The body of the loop for [METHOD == "pnfs"]. *)
Definition count_pnfs (verbose_flag : bool) (f : string)
  (cached : Z) (cache_list : list string) : M World (Z * list string) :=
  let* this_cached := is_file_online_pnfs f in
  let cached' := if this_cached then (cached + 1)%Z else cached in
  let cache_list' := if this_cached then (cache_list ++ [f])%list else cache_list in
  (if verbose_flag
   then print [VStr f; VStr (if this_cached then "ONLINE" else "NEARLINE")]
          Py.line_feed
   else ret tt) ;;;
  ret (cached', cache_list').

(** [if not verbose_flag: progbar.Update(n)] *)
Definition progress (verbose_flag : bool) (progbar : option ProgressBar) (n : Z)
  : M World (option ProgressBar) :=
  if verbose_flag then ret progbar
  else match progbar with
       | None => raise AttributeError
       | Some pb => let* pb' := Update pb n in ret (Some pb')
       end.

(** [for f in files: ...] of [FilelistCacheCount], with its locals. *)
Fixpoint cache_count_loop (verbose_flag : bool) (METHOD : string)
  (files : list string) (c : option Curl) (progbar : option ProgressBar)
  (cached : Z) (cache_list : list string) (pending n : Z)
  : M World (option ProgressBar * (Z * Z * Z * list string)) :=
  match files with
  | [] => ret (progbar, (cached, pending, n, cache_list))
  | f :: files' =>
      let* after :=
        (if String.eqb METHOD "rest" then
           count_rest verbose_flag c f cached cache_list pending
         else if String.eqb METHOD "pnfs" then
           let* r := count_pnfs verbose_flag f cached cache_list in
           ret (c, fst r, snd r, pending)
         else ret (c, cached, cache_list, pending)) in
      let '(c', cached', cache_list', pending') := after in
      let n' := (n + 1)%Z in
      let* progbar' := progress verbose_flag progbar n' in
      cache_count_loop verbose_flag METHOD files' c' progbar'
        cached' cache_list' pending' n'
  end.

(** [FilelistCacheCount(files, verbose_flag, METHOD)], returning
    [(cached, pending, n, cache_list)]. *)
Definition FilelistCacheCount (files : list string) (verbose_flag : bool)
  (METHOD : string) : M World (Z * Z * Z * list string) :=
  (if String.eqb METHOD "rest" || String.eqb METHOD "pnfs"
   then ret tt else raise AssertionError) ;;;
  (if (Z.of_nat (length files) >? 1)%Z
   then print [VFormat "Checking %d files:" [VInt (Z.of_nat (length files))]]
          Py.line_feed
   else ret tt) ;;;
  let* progbar :=
    (if verbose_flag then ret None
     else let* pb := ProgressBar_init (Z.of_nat (length files))
                       default_announce_threshold in
          ret (Some pb)) in
  let c := if String.eqb METHOD "rest" then Some make_curl else None in
  let* r := cache_count_loop verbose_flag METHOD files c progbar 0%Z [] 0%Z 0%Z in
  let '(progbar, (cached, pending, n, cache_list)) := r in
  (if verbose_flag then ret tt
   else match progbar with
        | None => raise AttributeError
        | Some pb => let* _ := Update pb (total pb) in ret tt
        end) ;;;
  let pending := if String.eqb METHOD "pnfs" then (-1)%Z else pending in
  ret (cached, pending, n, cache_list).

(** ** The prestage batch *)

(** [for f in files: ...] of [FilelistPrestageRequest]. *)
Fixpoint prestage_loop (verbose_flag : bool) (files : list string) (c : Curl)
  (n_request_succeeded : Z) : M World Z :=
  match files with
  | [] => ret n_request_succeeded
  | f :: files' =>
      let* r := request_prestage c f in
      let success := snd r in
      let n_request_succeeded' :=
        if success then (n_request_succeeded + 1)%Z else n_request_succeeded in
      (if verbose_flag
       then print [VStr f;
                   VStr (if success then "request succeeded" else "request failed")]
              Py.line_feed
       else ret tt) ;;;
      prestage_loop verbose_flag files' (fst r) n_request_succeeded'
  end.

(** [FilelistPrestageRequest(files, verbose_flag)], returning
    [(n_request_succeeded, n)]. *)
Definition FilelistPrestageRequest (files : list string) (verbose_flag : bool)
  : M World (Z * Z) :=
  let announce := (Z.of_nat (length files) >? 1)%Z in
  (if announce
   then print [VFormat "Prestaging %d files:" [VInt (Z.of_nat (length files))]]
          Py.line_feed
   else ret tt) ;;;
  let c := make_curl in
  let n := Z.of_nat (length files) in
  let* n_request_succeeded := prestage_loop verbose_flag files c 0%Z in
  ret (n_request_succeeded, n).

(** ** Tape locations to pnfs paths *)

(** [for f in samlist[::sparsification]: ...] with [f = (location, name)]. *)
Fixpoint enstore_paths_loop (entries : list (string * string))
  (pnfspaths : list string) : M World (list string) :=
  match entries with
  | [] => ret pnfspaths
  | f :: entries' =>
      match ENSTORE_PATTERN (fst f) with
      | Some m =>
          let directory := group1 m in
          let filename := snd f in
          enstore_paths_loop entries'
            (pnfspaths ++ [Py.path_join directory filename])%list
      | None =>
          print [VStr "enstore_locations_to_paths got a non-enstore location";
                 VStr (fst f)] Py.line_feed ;;;
          enstore_paths_loop entries' pnfspaths
      end
  end.

(** [enstore_locations_to_paths(samlist, sparsification)] *)
Definition enstore_locations_to_paths (samlist : list (string * string))
  (sparsification : Z) : M World (list string) :=
  let* entries := lift (Py.slice_step samlist sparsification) in
  enstore_paths_loop entries [].

(** ** The end of the script: report and exit status *)

(** The status branch of the script once [FilelistCacheCount] has returned
    [(cache_count, pending_count, total, cache_list)]: the value returned is
    the argument of the [sys.exit] it ends with. *)
Definition report (cache_count pending_count total : Z)
  (cache_list : list string) : M World Z :=
  let miss_count := (total - cache_count)%Z in
  on_world (write_lines "cache_list.txt"
              (map (fun item => item ++ Py.line_feed) cache_list)) ;;;
  let* total := lift (Py.float_of_int (cache_count + miss_count)) in
  let* cache_frac_str := lift (frac_str cache_count total) in
  let* miss_frac_str := lift (frac_str miss_count total) in
  (if SFltb (Py.nearest 1) total then
     print [] Py.line_feed ;;;
     let* pending_string :=
       (if (pending_count >=? 0)%Z then
          let* q := lift (rounded_percent pending_count total) in
          ret (VFormat (tab ++ "Pending: %d (%d%%)")
                 [VInt pending_count; VInt q])
        else ret (VStr "")) in
     print [VFormat ("Cached: %d%s" ++ tab ++ "Tape only: %d%s%s")
              [VInt cache_count; cache_frac_str; VInt miss_count;
               miss_frac_str; pending_string]] Py.line_feed
   else if SFeqb total (Py.nearest 1) then
     print [VStr (if (cache_count >? 0)%Z then "CACHED" else "NOT CACHED")] "" ;;;
     print [VStr (if (pending_count >? 0)%Z then " PENDING" else "")]
       Py.line_feed
   else ret tt) ;;;
  ret (if (miss_count =? 0)%Z then 0%Z else 1%Z).

(** The script from [miss_count = 0] onwards, for the file list it has
    built. *)
Definition report_and_exit (prestage verbose : bool) (method : string)
  (filelist : list string) : M World Z :=
  if prestage then
    let* r := FilelistPrestageRequest filelist verbose in
    let (ngood, n) := r in
    ret (if (ngood =? n)%Z then 0%Z else 1%Z)
  else
    let* r := FilelistCacheCount filelist verbose method in
    let '(cache_count, pending_count, total, cache_list) := r in
    report cache_count pending_count total cache_list.

(** ** What a batch observes

    The answers the backend gives to a batch are part of the world; these
    definitions read them off without the bookkeeping of the loops. *)

(** The handle [get_file_qos] performs the query for [f] with. *)
Definition qos_handle (c : Curl) (f : string) : Curl :=
  setopt c "URL" (OStr (qos_url f)).

(** The answer to the status query for [f]: the two fields [get_file_qos]
    returns, or the exception it raises, and the world after the transfer. *)
Definition qos_reply (c : Curl) (f : string) (w : World)
  : result (json * json) * World :=
  let (r, w') := perform (qos_handle c f) w in
  (match r with
   | Raise e => Raise e
   | Ok body =>
       match json_loads body with
       | Raise e => Raise e
       | Ok j => qos_fields j
       end
   end, w').

(** The answers to the status queries for [files], asked in order on one
    handle, and the world after the last of them. *)
Fixpoint qos_replies (c : Curl) (files : list string) (w : World)
  : list (result (json * json)) * World :=
  match files with
  | [] => ([], w)
  | f :: files' =>
      let (r, w') := qos_reply c f w in
      let (rs, w'') := qos_replies (qos_handle c f) files' w' in
      (r :: rs, w'')
  end.

(** The first lines of the pseudo-files of [files], read in order. *)
Fixpoint pnfs_lines (files : list string) (w : World)
  : list (result string) * World :=
  match files with
  | [] => ([], w)
  | f :: files' =>
      let (r, w') := open_readline (stat_file f) w in
      let (rs, w'') := pnfs_lines files' w' in
      (r :: rs, w'')
  end.

(** The handle [request_prestage] performs the request for [f] with. *)
Definition prestage_handle (c : Curl) (f : string) : Curl :=
  setopt
    (setopt
       (setopt
          (setopt c "POSTFIELDS" (OStr prestage_postfields))
          "HTTPHEADER"
          (OList ["Accept: application/json"; "Content-Type: application/json"]))
       "POST" (OInt 1))
    "URL" (OStr (DCACHE_REST_BASE_URL ++ "/" ++ filename_to_namespace f)).

(** The caller's calls [Update(n)] for the [n] of [ns], in order. *)
Fixpoint Update_each (self : ProgressBar) (ns : list Z) : M World ProgressBar :=
  match ns with
  | [] => ret self
  | n :: ns' => let* self' := Update self n in Update_each self' ns'
  end.

(** The same calls, each with what it printed. *)
Fixpoint Update_log (self : ProgressBar) (ns : list Z) (w : World)
  : list (Z * list printed) :=
  match ns with
  | [] => []
  | n :: ns' =>
      match Update self n {| world := w; stdout := [] |} with
      | (Ok self', st') => (n, stdout st') :: Update_log self' ns' (world st')
      | (Raise _, st') => [(n, stdout st')]
      end
  end.

(** The announcement [print(" %d%%" % p, end=" ")]. *)
Definition percent (p : Z) : printed :=
  {| print_args := [VFormat " %d%%" [VInt p]]; print_end := " " |}.

Definition is_percent (p : Z) (line : printed) : bool :=
  match line with
  | {| print_args := [VFormat fmt [VInt k]]; print_end := e |} =>
      String.eqb fmt " %d%%" && (k =? p)%Z && String.eqb e " "
  | _ => false
  end.

(** The two tests of the status loop on the fields of one answer:
    [("ONLINE" in qos, "disk" in targetQos)]. *)
Definition classify (fields : json * json) : result (bool * bool) :=
  match Py.json_contains "ONLINE" (fst fields) with
  | Raise e => Raise e
  | Ok online =>
      match Py.json_contains "disk" (snd fields) with
      | Raise e => Raise e
      | Ok disk => Ok (online, disk)
      end
  end.

(** What the status loop makes of one answer. *)
Definition outcome (r : result (json * json)) : result (bool * bool) :=
  match r with
  | Ok fields => classify fields
  | Raise e => Raise e
  end.

(** The test of the pnfs loop on the line read: ['ONLINE' in state]. *)
Definition online_line (line : string) : bool := Py.contains "ONLINE" line.

(** The files whose flag is set, in the order of the list. *)
Fixpoint select (files : list string) (flags : list bool) : list string :=
  match files, flags with
  | f :: files', b :: flags' =>
      if b then f :: select files' flags' else select files' flags'
  | _, _ => []
  end.

(** The number of flags set. *)
Definition count (flags : list bool) : Z :=
  Z.of_nat (length (List.filter id flags)).

(** The bar [FilelistCacheCount] builds for [T] files, at any point of the
    batch. *)
Definition bar_for (T : Z) (pb : ProgressBar) : Prop :=
  total pb = T
  /\ _total_div10 pb = (T / 10)%Z
  /\ announce pb = (T >=? default_announce_threshold)%Z.

(** Zero or a finite number whose mantissa fits and whose exponent lies in
    a range. *)
Definition finite_in (lo hi : Z) (x : spec_float) : Prop :=
  match x with
  | S754_zero _ => True
  | S754_finite _ m e => (Zpos m < 2 ^ 53 /\ lo <= e <= hi)%Z
  | _ => False
  end.

(** [runs m w r w']: started in the world [w], whatever was printed before,
    [m] ends with [r] in the world [w']. *)
Definition runs {A : Type} (m : M World A) (w : World) (r : result A)
  (w' : World) : Prop :=
  forall out, exists out',
    m {| world := w; stdout := out |} = (r, {| world := w'; stdout := out' |}).


(** ** What a batch prints, and what a prestage batch observes *)

(** [prints m w r w' lines]: started in the world [w], [m] ends with [r] in
    the world [w'], and [lines] is what it has added to standard output. *)
Definition prints {A : Type} (m : M World A) (w : World) (r : result A)
  (w' : World) (lines : list printed) : Prop :=
  forall out,
    m {| world := w; stdout := out |}
    = (r, {| world := w'; stdout := (out ++ lines)%list |}).

(** [silent m]: however [m] ends, it has printed nothing. *)
Definition silent {A : Type} (m : M World A) : Prop :=
  forall st, stdout (snd (m st)) = stdout st.

(** The line [FilelistCacheCount] starts with for more than one file. *)
Definition checking_header (files : list string) : list printed :=
  if (Z.of_nat (length files) >? 1)%Z
  then [{| print_args := [VFormat "Checking %d files:"
                            [VInt (Z.of_nat (length files))]];
           print_end := Py.line_feed |}]
  else [].

(** The line of the verbose REST loop for a file answered with a locality
    and a target that are strings:
    [print(f, qos, "pending" if targetQos else "")]. *)
Definition verbose_rest_line (f : string) (answer : string * string) : printed :=
  {| print_args := [VStr f; VJson (JStr (fst answer));
                    VStr (if Py.truthy (JStr (snd answer)) then "pending" else "")];
     print_end := Py.line_feed |}.

(** The line of the verbose pnfs loop for a file whose pseudo-file reads
    [line]: [print(f, "ONLINE" if this_cached else "NEARLINE")]. *)
Definition verbose_pnfs_line (f : string) (line : string) : printed :=
  {| print_args := [VStr f;
                    VStr (if online_line line then "ONLINE" else "NEARLINE")];
     print_end := Py.line_feed |}.

(** The answer to the prestage request for [f]: what [request_prestage]
    returns, or the exception it raises, and the world after the transfer. *)
Definition prestage_reply (c : Curl) (f : string) (w : World)
  : result bool * World :=
  let (r, w') := perform (prestage_handle c f) w in
  (match r with
   | Raise e => Raise e
   | Ok body =>
       match json_loads body with
       | Raise e => Raise e
       | Ok j => status_is_success j
       end
   end, w').

(** The answers to the prestage requests for [files], made in order on one
    handle, and the world after the last of them. *)
Fixpoint prestage_replies (c : Curl) (files : list string) (w : World)
  : list (result bool) * World :=
  match files with
  | [] => ([], w)
  | f :: files' =>
      let (r, w') := prestage_reply c f w in
      let (rs, w'') := prestage_replies (prestage_handle c f) files' w' in
      (r :: rs, w'')
  end.

(** The line [FilelistPrestageRequest] starts with for more than one file. *)
Definition prestaging_header (files : list string) : list printed :=
  if (Z.of_nat (length files) >? 1)%Z
  then [{| print_args := [VFormat "Prestaging %d files:"
                            [VInt (Z.of_nat (length files))]];
           print_end := Py.line_feed |}]
  else [].

(** The line of the verbose prestage loop:
    [print(f, "request succeeded" if success else "request failed")]. *)
Definition verbose_prestage_line (f : string) (success : bool) : printed :=
  {| print_args := [VStr f;
                    VStr (if success then "request succeeded"
                          else "request failed")];
     print_end := Py.line_feed |}.

(** ** What [enstore_locations_to_paths] makes of one entry *)

(** The pnfs path of an entry [(location, name)] whose location matches
    [ENSTORE_PATTERN]. *)
Definition enstore_path (entry : string * string) : option string :=
  match ENSTORE_PATTERN (fst entry) with
  | Some m => Some (Py.path_join (group1 m) (snd entry))
  | None => None
  end.

Definition not_enstore (entry : string * string) : bool :=
  match ENSTORE_PATTERN (fst entry) with
  | Some _ => false
  | None => true
  end.

(** The line printed for an entry whose location does not match. *)
Definition non_enstore_line (entry : string * string) : printed :=
  {| print_args := [VStr "enstore_locations_to_paths got a non-enstore location";
                    VStr (fst entry)];
     print_end := Py.line_feed |}.

(** ** The start of the script: building the list of files *)

(** [sam.listFilesAndLocations(dimensions=d, filter_path="enstore")], read
    through [list]: pairs of a location and a file name. *)
Variable listFilesAndLocations :
  string -> World -> attempt (list (string * string)) * World.

(** [sam.listFiles(defname=name)]: file names. *)
Variable listFiles : string -> World -> attempt (list string) * World.

(** [sam.locateFile(f)]: the location records of [f], decoded JSON
    objects. *)
Variable locateFile : string -> World -> attempt (list json) * World.

(** [os.path.isfile(f)] *)
Variable isfile : string -> World -> bool * World.

(** [print(..., file=sys.stderr)] *)
Variable print_stderr : list pyval -> World -> World.

(** [str(e)], which [print(e)] shows. *)
Variable str : raised -> string.

(** The truth value of an option of the command line, [None] or a str. *)
Definition given (x : option string) : bool :=
  match x with
  | Some s => negb (String.eqb s EmptyString)
  | None => false
  end.

(** A computation inside a [try] of the start of the script. *)
Definition Try (A : Type) : Type := State World -> attempt A * State World.

Definition returned {A : Type} (a : A) : Try A := fun st => (Returned a, st).

Definition and_then {A B : Type} (m : Try A) (k : A -> Try B) : Try B :=
  fun st =>
    match m st with
    | (Returned a, st') => k a st'
    | (Threw e, st') => (Threw e, st')
    end.

(** A call of the SAM client. *)
Definition sam {A : Type} (call : World -> attempt A * World) : Try A :=
  fun st =>
    let (r, w) := call (world st) in
    (r, {| world := w; stdout := stdout st |}).

(** A computation of the script itself. *)
Definition script {A : Type} (m : M World A) : Try A :=
  fun st =>
    match m st with
    | (Ok a, st') => (Returned a, st')
    | (Raise e, st') => (Threw (Builtin e), st')
    end.

Notation "'let+' x ':=' m 'in' k" := (and_then m (fun x => k))
  (at level 10, x pattern, m at level 100, k at level 200) : py_scope.

Definition carriage_return : string := String (ascii_of_nat 13) EmptyString.

(** The inner loop of the dataset branch: the first record whose
    [full_path] reads [enstore] before its first colon gives the entry and
    ends the loop. *)
Fixpoint first_enstore (f : string) (locs : list json)
  : result (option (string * string)) :=
  match locs with
  | [] => Ok None
  | l :: locs' =>
      match Py.json_getitem l "full_path" with
      | Raise e => Raise e
      | Ok (JStr full_path) =>
          if String.eqb (fst (Py.span (Py.not_char ":") full_path)) "enstore"
          then Ok (Some (full_path, f))
          else first_enstore f locs'
      | Ok _ => Raise AttributeError
      end
  end.

(** [for f in thislist: ...] of the dataset branch, with its locals [a] and
    [samlist]; [n] is [len(thislist)]. *)
Fixpoint locate_each (n : Z) (thislist : list string) (a : Z)
  (samlist : list (string * string)) : Try (list (string * string)) :=
  match thislist with
  | [] => returned samlist
  | f :: thislist' =>
      let+ _ := script
                  (if (a mod 100 =? 0)%Z
                   then print [VFormat "Locating files: %i/%i" [VInt a; VInt n]]
                          carriage_return
                   else ret tt) in
      let+ locs := sam (locateFile f) in
      let+ found := script (lift (first_enstore f locs)) in
      locate_each n thislist' (a + 1)%Z
        (match found with
         | Some entry => (samlist ++ [entry])%list
         | None => samlist
         end)
  end.

(** The local [dimensions] of the dataset branch. *)
Definition snapshot_dimensions (args : Args) (name : string) : option string :=
  match snapshot args with
  | Some s =>
      if String.eqb s "latest"
      then Some ("dataset_def_name_newest_snapshot " ++ name)
      else if given (Some s) then Some ("snapshot_id " ++ s) else None
  | None => None
  end.

(** The body of the [try] of the dataset branch. *)
Definition dataset_filelist (args : Args) (name : string)
  : Try (list string) :=
  let dims := snapshot_dimensions args name in
  let+ samlist :=
    (match (if given dims then dims else None) with
     | Some d => sam (listFilesAndLocations d)
     | None =>
         let+ thislist := sam (listFiles name) in
         let+ _ := script (print [VInt (Z.of_nat (length thislist))]
                             Py.line_feed) in
         let+ samlist :=
           locate_each (Z.of_nat (length thislist)) thislist 0%Z [] in
         let+ _ := script (print [] Py.line_feed) in
         let+ _ := script (print [VInt (Z.of_nat (length samlist))]
                             Py.line_feed) in
         returned samlist
     end) in
  let+ filelist := script (enstore_locations_to_paths samlist (sparse args)) in
  let+ _ := script (print [VStr " done."] Py.line_feed) in
  returned filelist.

(** The body of the [try] of the dimensions branch. *)
Definition dimensions_filelist (args : Args) (dims : string)
  : Try (list string) :=
  let+ samlist := sam (listFilesAndLocations dims) in
  let+ filelist := script (enstore_locations_to_paths samlist (sparse args)) in
  let+ _ := script (print [VStr " done."] Py.line_feed) in
  returned filelist.

(** [print(fmt % name, end="")], the [try] and its [except Exception as e],
    which prints [e], an empty line and [unable % name] and calls
    [exit(-1)]. *)
Definition retrieve (fmt unable name : string) (body : Try (list string))
  (st : State World) : built * State World :=
  let st0 := snd (print [VFormat fmt [VStr name]] "" st) in
  match body st0 with
  | (Returned filelist, st1) => (Filelist filelist 0%Z, st1)
  | (Threw e, st1) =>
      (Exit (-1)%Z,
       snd ((print [VStr (str e)] Py.line_feed ;;;
             print [] Py.line_feed ;;;
             print [VFormat unable [VStr name]] Py.line_feed) st1))
  end.

Definition from_dataset (args : Args) (name : string)
  : State World -> built * State World :=
  retrieve "Retrieving file list for SAM dataset definition name: '%s'..."
    "Unable to retrieve SAM information for dataset: %s" name
    (dataset_filelist args name).

Definition from_dimensions (args : Args) (dims : string)
  : State World -> built * State World :=
  retrieve "Retrieving file list for SAM dimensions: '%s'..."
    "Unable to retrieve SAM information for dimensions: %s" dims
    (dimensions_filelist args dims).

(** The inner loop of the branch of plain arguments: every record whose
    [location] matches [ENSTORE_PATTERN] adds a path to [filelist]. *)
Fixpoint enstore_copies (f : string) (locs : list json)
  (filelist : list string) : result (list string) :=
  match locs with
  | [] => Ok filelist
  | loc :: locs' =>
      match Py.json_getitem loc "location" with
      | Raise e => Raise e
      | Ok (JStr l) =>
          match ENSTORE_PATTERN l with
          | Some m =>
              let directory := group1 m in
              let fullpath := Py.path_join directory f in
              enstore_copies f locs' (filelist ++ [fullpath])%list
          | None => enstore_copies f locs' filelist
          end
      | Ok _ => Raise TypeError
      end
  end.

(** [for f in args.files: ...], with the locals [filelist] and
    [cache_count]. *)
Fixpoint from_arguments (arguments : list string) (filelist : list string)
  (cache_count : Z) (st : State World) : built * State World :=
  match arguments with
  | [] => (Filelist filelist cache_count, st)
  | f :: arguments' =>
      let (is_file, w1) := isfile f (world st) in
      let st1 := {| world := w1; stdout := stdout st |} in
      if is_file then
        if Py.startswith f "/pnfs"
        then from_arguments arguments' (filelist ++ [f])%list cache_count st1
        else from_arguments arguments' filelist (cache_count + 1)%Z st1
      else
        let (r, w2) := locateFile f w1 in
        let st2 := {| world := w2; stdout := stdout st |} in
        match r with
        | Returned locs =>
            match enstore_copies f locs filelist with
            | Ok filelist' => from_arguments arguments' filelist' cache_count st2
            | Raise e => (Uncaught (Builtin e), st2)
            end
        | Threw FileNotFound | Threw HTTPNotFound =>
            (Exit 2%Z,
             {| world :=
                  print_stderr
                    [VStr "File is not known to SAM and is not a full path:";
                     VStr f] w2;
                stdout := stdout st |})
        | Threw e => (Uncaught e, st2)
        end
  end.

(** The script: the status the process exits with, the argument of the
    call of [exit] or [sys.exit] that ends it, or 1 when an exception
    reaches the top.  The [cache_count] of the first part is overwritten by
    what [FilelistCacheCount] returns before anything reads it. *)
Definition main (args : Args) (st : State World) : Z * State World :=
  let (b, st1) :=
    if given (dataset_name args) then
      from_dataset args (default EmptyString (dataset_name args)) st
    else if given (dimensions args) then
      from_dimensions args (default EmptyString (dimensions args)) st
    else from_arguments (files args) [] 0%Z st in
  match b with
  | Exit status => (status, st1)
  | Uncaught _ => (1%Z, st1)
  | Filelist filelist _ =>
      let (r, st2) :=
        report_and_exit (prestage args) (verbose args) (method args)
          filelist st1 in
      (exit_status r, st2)
  end.

(** [tries m w r w' lines]: started in the world [w], the computation [m] of
    a [try] ends with [r] in the world [w'], and [lines] is what it has
    added to standard output. *)
Definition tries {A : Type} (m : Try A) (w : World) (r : attempt A)
  (w' : World) (lines : list printed) : Prop :=
  forall out,
    m {| world := w; stdout := out |}
    = (r, {| world := w'; stdout := (out ++ lines)%list |}).

(** The line of the dataset branch shown before every hundredth file. *)
Definition locating_line (n a : Z) : printed :=
  {| print_args := [VFormat "Locating files: %i/%i" [VInt a; VInt n]];
     print_end := carriage_return |}.

(** The three lines of [except Exception as e] for the exception [e]. *)
Definition unable_lines (unable name : string) (e : raised) : list printed :=
  [{| print_args := [VStr (str e)]; print_end := Py.line_feed |};
   {| print_args := []; print_end := Py.line_feed |};
   {| print_args := [VFormat unable [VStr name]]; print_end := Py.line_feed |}].

(** A location record that gives the text [l] as its [location]. *)
Definition has_location (loc : json) (l : string) : Prop :=
  exists m, loc = JObj m /\ m !! "location" = Some (JStr l).

(** A location record that gives the text [p] as its [full_path]. *)
Definition has_full_path (loc : json) (p : string) : Prop :=
  exists m, loc = JObj m /\ m !! "full_path" = Some (JStr p).

(** [p.split(':')[0] == 'enstore'] *)
Definition on_enstore (p : string) : bool :=
  String.eqb (fst (Py.span (Py.not_char ":") p)) "enstore".

(** The entry that the dataset branch keeps for the file [f] whose records
    have the full paths [ps], in order: the first of them on enstore. *)
Definition first_on_enstore (f : string) (ps : list string)
  : option (string * string) :=
  (fun p => (p, f)) <$> List.find on_enstore ps.

(** The first line of the dataset and dimensions branches:
    [print(fmt % name, end="")]. *)
Definition retrieving_line (fmt name : string) : printed :=
  {| print_args := [VFormat fmt [VStr name]]; print_end := EmptyString |}.

Definition done_line : printed :=
  {| print_args := [VStr " done."]; print_end := Py.line_feed |}.

(** [print(k)] for a number, and [print()]. *)
Definition count_line (k : nat) : printed :=
  {| print_args := [VInt (Z.of_nat k)]; print_end := Py.line_feed |}.

Definition empty_line : printed :=
  {| print_args := []; print_end := Py.line_feed |}.

(** The progress lines of the dataset branch for the first [k] of [n]
    files. *)
Definition locating_lines (n : nat) (k : nat) : list printed :=
  map (locating_line (Z.of_nat n))
    (List.filter (fun a => (a mod 100 =? 0)%Z) (seqZ 0 (Z.of_nat k))).
(** * Properties *)

(** ** Strings *)

Lemma append_cons c s t : String c s ++ t = String c (s ++ t).
Proof. reflexivity. Qed.

Lemma append_nil t : EmptyString ++ t = t.
Proof. reflexivity. Qed.

Lemma append_empty s : s ++ EmptyString = s.
Proof.
  induction s as [|c s IH]; [reflexivity|]. rewrite append_cons. now f_equal.
Qed.

Lemma prefix_append p t : String.prefix p (p ++ t) = true.
Proof.
  induction p as [|a p IH]; [now destruct t|].
  rewrite append_cons. cbn [String.prefix].
  destruct (ascii_dec a a); [exact IH | contradiction].
Qed.

Lemma replace_scan_skip old new k s :
  Py.replace_scan old new k s = Py.replace_scan old new 0 (Py.drop k s).
Proof.
  revert k. induction s as [|c s IH]; intros [|k]; simpl; try reflexivity.
  apply IH.
Qed.

Lemma replace_at_prefix a old new s :
  String.prefix (String a old) s = true ->
  Py.replace s (String a old) new
  = new ++ Py.replace (Py.drop (S (String.length old)) s) (String a old) new.
Proof.
  intros Hp. destruct s as [|c s]; [discriminate|].
  unfold Py.replace. cbn [Py.replace_scan]. rewrite Hp.
  cbn [String.length Py.drop].
  replace (S (String.length old) - 1) with (String.length old) by lia.
  now rewrite replace_scan_skip.
Qed.

Lemma no_paren_cons c d :
  Py.contains "(" (String c d) = false ->
  Py.not_char "(" c = true /\ Py.contains "(" d = false.
Proof.
  cbn [Py.contains String.prefix]. unfold Py.not_char.
  destruct (ascii_dec "(" c) as [->|Hne].
  - destruct d; discriminate.
  - intros H. split; [|exact H].
    destruct (Ascii.eqb_spec "("%char c); [contradiction|reflexivity].
Qed.

Lemma span_to_paren d rest :
  Py.contains "(" d = false ->
  Py.span (Py.not_char "(") (d ++ String "(" rest) = (d, String "(" rest).
Proof.
  induction d as [|c d IH]; intros H; [reflexivity|].
  apply no_paren_cons in H as [Hc Hd].
  rewrite append_cons. cbn [Py.span]. rewrite Hc, (IH Hd). reflexivity.
Qed.

Lemma span_no_paren d :
  Py.contains "(" d = false ->
  Py.span (Py.not_char "(") d = (d, EmptyString).
Proof.
  induction d as [|c d IH]; intros H; [reflexivity|].
  apply no_paren_cons in H as [Hc Hd].
  cbn [Py.span]. rewrite Hc, (IH Hd). reflexivity.
Qed.

(** ** The location rewriting is not idempotent on xrootd URLs *)

Lemma rewritten_is_fixed t :
  filename_to_namespace ("/pnfs/fnal.gov/usr/uboone" ++ t)
  = "/pnfs/fnal.gov/usr/uboone" ++ t.
Proof. reflexivity. Qed.

Lemma replace_scan_removes_length old k s :
  String.length (Py.replace_scan old "" k s) <= String.length s.
Proof.
  revert k. induction s as [|c s IH]; intros k; [reflexivity|].
  cbn [Py.replace_scan String.length]. destruct k as [|k].
  - destruct (String.prefix old (String c s)).
    + rewrite append_nil. specialize (IH (String.length old - 1)). lia.
    + cbn [String.length]. specialize (IH 0). lia.
  - specialize (IH k). lia.
Qed.

Lemma replace_prefix_removed_differs a old s :
  String.prefix (String a old) s = true ->
  Py.replace s (String a old) "" <> s.
Proof.
  intros Hp Heq. apply (f_equal String.length) in Heq.
  destruct s as [|c s]; [discriminate|].
  revert Heq. unfold Py.replace. cbn [Py.replace_scan]. rewrite Hp.
  rewrite append_nil. cbn [String.length].
  pose proof (replace_scan_removes_length (String a old)
                (String.length (String a old) - 1) s) as Hle.
  cbn [String.length] in Hle. lia.
Qed.

(** C3, amended: rewriting a second time changes nothing for every location
    that does not begin with the xrootd door [root://fndca1.fnal.gov:1094].
    For a location that begins with it, the first pass removes every
    occurrence of the door and rewrites nothing else, and a second pass
    changes nothing exactly when what is left begins with none of the door,
    [/pnfs/uboone] and [enstore:/pnfs/uboone]. *)
Theorem filename_to_namespace_idempotent_iff (x : string) :
  (Py.startswith x "root://fndca1.fnal.gov:1094" = false ->
   filename_to_namespace (filename_to_namespace x) = filename_to_namespace x)
  /\ (Py.startswith x "root://fndca1.fnal.gov:1094" = true ->
      filename_to_namespace x = Py.replace x "root://fndca1.fnal.gov:1094" ""
      /\ (filename_to_namespace (filename_to_namespace x)
          = filename_to_namespace x
          <-> Py.startswith (Py.replace x "root://fndca1.fnal.gov:1094" "")
                "root://fndca1.fnal.gov:1094" = false
              /\ Py.startswith (Py.replace x "root://fndca1.fnal.gov:1094" "")
                   "/pnfs/uboone" = false
              /\ Py.startswith (Py.replace x "root://fndca1.fnal.gov:1094" "")
                   "enstore:/pnfs/uboone" = false)).
Proof.
  split.
  - intros Hroot.
    assert (Hx : filename_to_namespace x = x \/
                 exists t, filename_to_namespace x
                           = "/pnfs/fnal.gov/usr/uboone" ++ t).
    { unfold filename_to_namespace. rewrite Hroot.
      destruct (Py.startswith x "/pnfs/uboone") eqn:Hpnfs.
      - right. unfold Py.startswith in Hpnfs.
        rewrite (replace_at_prefix _ _ _ _ Hpnfs). eauto.
      - destruct (Py.startswith x "enstore:/pnfs/uboone") eqn:Hens.
        + right. unfold Py.startswith in Hens.
          rewrite (replace_at_prefix _ _ _ _ Hens). eauto.
        + now left. }
    destruct Hx as [Hx | [t Hx]]; rewrite Hx.
    + exact Hx.
    + apply rewritten_is_fixed.
  - intros Hroot.
    assert (Hfirst : filename_to_namespace x
                     = Py.replace x "root://fndca1.fnal.gov:1094" "").
    { unfold filename_to_namespace. now rewrite Hroot. }
    split; [exact Hfirst|]. rewrite Hfirst.
    set (y := Py.replace x "root://fndca1.fnal.gov:1094" "").
    unfold filename_to_namespace.
    destruct (Py.startswith y "root://fndca1.fnal.gov:1094") eqn:Hdoor.
    { split; [|intros (H & _); discriminate].
      intros Heq. exfalso.
      exact (replace_prefix_removed_differs _ _ _ Hdoor Heq). }
    destruct (Py.startswith y "/pnfs/uboone") eqn:Hpnfs.
    { split; [|intros (_ & H & _); discriminate].
      intros Heq. exfalso. unfold Py.startswith in Hpnfs.
      rewrite (replace_at_prefix _ _ _ _ Hpnfs) in Heq.
      rewrite <- Heq in Hpnfs. discriminate. }
    destruct (Py.startswith y "enstore:/pnfs/uboone") eqn:Hens.
    { split; [|intros (_ & _ & H); discriminate].
      intros Heq. exfalso. unfold Py.startswith in Hens.
      rewrite (replace_at_prefix _ _ _ _ Hens) in Heq.
      rewrite <- Heq in Hens. discriminate. }
    split; [now intros _|reflexivity].
Qed.

(** ** Tape locations *)

Lemma ENSTORE_PATTERN_directory dir rest :
  dir <> EmptyString ->
  Py.contains "(" dir = false ->
  rest = EmptyString \/ (exists r, rest = String "(" r) ->
  exists g2,
    ENSTORE_PATTERN ("enstore:" ++ dir ++ rest)
    = Some {| group1 := dir; group2 := g2 |}.
Proof.
  intros Hne Hdir Hrest. unfold ENSTORE_PATTERN.
  unfold Py.startswith. rewrite prefix_append.
  change (Py.drop 8 ("enstore:" ++ dir ++ rest)) with (dir ++ rest).
  assert (Hspan : Py.span (Py.not_char "(") (dir ++ rest) = (dir, rest)).
  { destruct Hrest as [-> | [r ->]].
    - rewrite append_empty. now apply span_no_paren.
    - now apply span_to_paren. }
  rewrite Hspan. destruct dir; [contradiction|]. eauto.
Qed.

(** C8: the parenthesised tape volume after an enstore location takes no part
    in the path: with or without it, [ENSTORE_PATTERN] yields the same
    directory and [enstore_locations_to_paths] the same pnfs path. *)
Theorem enstore_suffix_discarded (dir volume filename : string) (st : State World) :
  dir <> EmptyString ->
  Py.contains "(" dir = false ->
  group1 <$> ENSTORE_PATTERN ("enstore:" ++ dir ++ "(" ++ volume ++ ")") = Some dir
  /\ group1 <$> ENSTORE_PATTERN ("enstore:" ++ dir) = Some dir
  /\ enstore_locations_to_paths
       [("enstore:" ++ dir ++ "(" ++ volume ++ ")", filename)] 1 st
     = (Ok [Py.path_join dir filename], st)
  /\ enstore_locations_to_paths [("enstore:" ++ dir, filename)] 1 st
     = (Ok [Py.path_join dir filename], st).
Proof.
  intros Hne Hdir.
  destruct (ENSTORE_PATTERN_directory dir ("(" ++ volume ++ ")") Hne Hdir)
    as [g Hwith]; [right; eexists; reflexivity|].
  destruct (ENSTORE_PATTERN_directory dir EmptyString Hne Hdir)
    as [g' Hbare]; [now left|].
  rewrite append_empty in Hbare.
  repeat split.
  - now rewrite Hwith.
  - now rewrite Hbare.
  - unfold enstore_locations_to_paths, bind, lift. cbn [Py.slice_step].
    cbn [Pos.to_nat Pos.iter_op Nat.sub Py.every enstore_paths_loop fst snd].
    rewrite Hwith. reflexivity.
  - unfold enstore_locations_to_paths, bind, lift. cbn [Py.slice_step].
    cbn [Pos.to_nat Pos.iter_op Nat.sub Py.every enstore_paths_loop fst snd].
    rewrite Hbare. reflexivity.
Qed.

(** ** Floats: the percentages never overflow

    Rounding to binary64 ([binary_round_aux]) yields zero or a finite number
    as long as the magnitude of its argument stays well below [2 ^ 1024];
    the quotients and products behind the percentages do. *)

Section Floats.
#[local] Open Scope Z_scope.

Lemma digits2_pos_bounds p :
  2 ^ (Zpos (digits2_pos p) - 1) <= Zpos p < 2 ^ Zpos (digits2_pos p).
Proof.
  induction p as [p IH|p IH|]; cbn [digits2_pos].
  - rewrite Pos2Z.inj_succ. change (Zpos p~1) with (2 * Zpos p + 1).
    replace (Z.succ (Zpos (digits2_pos p)) - 1)
      with (Z.succ (Zpos (digits2_pos p) - 1)) by lia.
    rewrite !Z.pow_succ_r by lia.
    revert IH. generalize (2 ^ (Zpos (digits2_pos p) - 1)).
    generalize (2 ^ Zpos (digits2_pos p)). intros; lia.
  - rewrite Pos2Z.inj_succ. change (Zpos p~0) with (2 * Zpos p).
    replace (Z.succ (Zpos (digits2_pos p)) - 1)
      with (Z.succ (Zpos (digits2_pos p) - 1)) by lia.
    rewrite !Z.pow_succ_r by lia.
    revert IH. generalize (2 ^ (Zpos (digits2_pos p) - 1)).
    generalize (2 ^ Zpos (digits2_pos p)). intros; lia.
  - cbn. lia.
Qed.

Lemma Zdigits2_nonneg m : 0 <= Zdigits2 m.
Proof. destruct m; cbn; lia. Qed.

Lemma Zdigits2_lt m : 0 <= m -> m < 2 ^ Zdigits2 m.
Proof.
  destruct m as [|p|p]; intros H; [cbn; lia| |lia].
  apply digits2_pos_bounds.
Qed.

Lemma Zdigits2_le m D : 0 <= m -> 0 <= D -> m < 2 ^ D -> Zdigits2 m <= D.
Proof.
  destruct m as [|p|p]; intros H HD Hlt; [cbn; lia| |lia].
  cbn [Zdigits2]. pose proof (digits2_pos_bounds p) as [Hlo _].
  assert (Hpow : 2 ^ (Zpos (digits2_pos p) - 1) < 2 ^ D) by lia.
  apply Z.pow_lt_mono_r_iff in Hpow; lia.
Qed.

Lemma shr_1_half r :
  0 <= shr_m r -> 0 <= shr_m (shr_1 r) /\ 2 * shr_m (shr_1 r) <= shr_m r.
Proof.
  destruct r as [m b s]. cbn [shr_m shr_1].
  destruct m as [|[p|p|]|p]; cbn [shr_m]; lia.
Qed.

Lemma iter_shr_1 p r :
  0 <= shr_m r ->
  0 <= shr_m (SpecFloat.iter_pos shr_1 p r)
  /\ shr_m (SpecFloat.iter_pos shr_1 p r) * 2 ^ Zpos p <= shr_m r.
Proof.
  revert r. induction p as [p IH|p IH|]; intros r Hr; cbn [SpecFloat.iter_pos].
  - destruct (shr_1_half r Hr) as [H1 H1'].
    destruct (IH _ H1) as [H2 H2'].
    destruct (IH _ H2) as [H3 H3'].
    split; [exact H3|].
    change (Zpos p~1) with (2 * Zpos p + 1).
    replace (2 * Zpos p + 1) with (Zpos p + Zpos p + 1) by lia.
    rewrite !Z.pow_add_r by lia. change (2 ^ 1) with 2.
    pose proof (Z.pow_pos_nonneg 2 (Zpos p)). nia.
  - destruct (IH _ Hr) as [H2 H2'].
    destruct (IH _ H2) as [H3 H3'].
    split; [exact H3|].
    change (Zpos p~0) with (2 * Zpos p).
    replace (2 * Zpos p) with (Zpos p + Zpos p) by lia.
    rewrite !Z.pow_add_r by lia.
    pose proof (Z.pow_pos_nonneg 2 (Zpos p)). nia.
  - destruct (shr_1_half r Hr) as [H1 H1']. split; [exact H1|].
    change (2 ^ 1) with 2. lia.
Qed.

Lemma shr_m_of_loc m l : shr_m (shr_record_of_loc m l) = m.
Proof. destruct l as [|[]]; reflexivity. Qed.

(** After [shr_fexp] the mantissa fits the precision and the exponent is the
    larger of the old one and the canonical one. *)
Lemma shr_fexp_fits m e l :
  0 <= m ->
  let '(r, e1) := shr_fexp Py.prec Py.emax m e l in
  0 <= shr_m r < 2 ^ 53
  /\ e1 = Z.max e (fexp Py.prec Py.emax (Zdigits2 m + e)).
Proof.
  intros Hm. unfold shr_fexp, shr.
  pose proof (Zdigits2_lt m Hm) as Hlt.
  pose proof (Zdigits2_nonneg m) as Hd.
  set (d := Zdigits2 m) in *.
  assert (Hf : d + e - 53 <= fexp Py.prec Py.emax (d + e)).
  { unfold fexp, Py.prec. lia. }
  destruct (fexp Py.prec Py.emax (d + e) - e) as [|k|k] eqn:Hk.
  - rewrite shr_m_of_loc. split; [|lia].
    split; [lia|]. apply Z.lt_le_trans with (2 ^ d); [lia|].
    apply Z.pow_le_mono_r; lia.
  - destruct (iter_shr_1 k (shr_record_of_loc m l)) as [H0 H1].
    { now rewrite shr_m_of_loc. }
    rewrite shr_m_of_loc in H1. split; [|lia].
    split; [exact H0|].
    assert (Hle : 2 ^ d <= 2 ^ 53 * 2 ^ Zpos k).
    { rewrite <- Z.pow_add_r by lia. apply Z.pow_le_mono_r; lia. }
    pose proof (Z.pow_pos_nonneg 2 (Zpos k)). nia.
  - rewrite shr_m_of_loc. split; [|lia].
    split; [lia|]. apply Z.lt_le_trans with (2 ^ d); [lia|].
    apply Z.pow_le_mono_r; lia.
Qed.

Lemma round_nearest_even_near m l :
  m <= round_nearest_even m l <= m + 1.
Proof.
  unfold round_nearest_even. destruct l as [|[]]; try lia.
  destruct (Z.even m); lia.
Qed.

Lemma binary_round_aux_finite s mx ex lx D :
  0 <= mx < 2 ^ D -> 0 <= D -> ex <= 970 -> D + ex <= 1023 ->
  finite_in ex (Z.max ex (Z.max (D + ex - 53) (-1074)) + 1)
    (binary_round_aux Py.prec Py.emax s mx ex lx).
Proof.
  intros [Hm HmD] HD Hex HDex. unfold binary_round_aux.
  pose proof (shr_fexp_fits mx ex lx Hm) as H1.
  destruct (shr_fexp Py.prec Py.emax mx ex lx) as [r1 e1].
  destruct H1 as [[H1a H1b] He1].
  pose proof (round_nearest_even_near (shr_m r1) (loc_of_shr_record r1)) as Hr.
  set (m1 := round_nearest_even (shr_m r1) (loc_of_shr_record r1)) in *.
  clearbody m1.
  assert (Hm1 : 0 <= m1) by lia.
  pose proof (shr_fexp_fits m1 e1 loc_Exact Hm1) as H2.
  destruct (shr_fexp Py.prec Py.emax m1 e1 loc_Exact) as [r2 e2].
  destruct H2 as [[H2a H2b] He2].
  assert (Hd : Zdigits2 mx <= D) by (apply Zdigits2_le; lia).
  assert (Hd1 : Zdigits2 m1 <= 54).
  { apply Zdigits2_le; lia. }
  pose proof (Zdigits2_nonneg mx). pose proof (Zdigits2_nonneg m1).
  unfold fexp, SpecFloat.emin, Py.prec, Py.emax in *.
  destruct (shr_m r2) as [|m2|m2] eqn:Hm2; cbn [finite_in]; [exact I| |lia].
  assert (He2' : ex <= e2 <= Z.max ex (Z.max (D + ex - 53) (-1074)) + 1) by lia.
  replace (e2 <=? 1024 - 53) with true by lia.
  cbn [finite_in]. split; [lia|exact He2'].
Qed.

Lemma finite_in_weaken lo hi lo' hi' x :
  lo' <= lo -> hi <= hi' -> finite_in lo hi x -> finite_in lo' hi' x.
Proof.
  destruct x as [s|s| |s m e]; cbn [finite_in]; intros Hlo Hhi H;
    [exact H|exact H|exact H|].
  destruct H as [Hm He]. split; [exact Hm|lia].
Qed.

Lemma SFdiv_finite sx mx ex sy my ey B :
  0 <= B -> Zpos mx <= Zpos my * 2 ^ B ->
  ex - ey <= 900 -> B + ex - ey <= 900 ->
  finite_in (Z.min (ex - ey) (-1074))
    (Z.max (-1074) (Z.max (ex - ey) (B + ex - ey)) + 2)
    (SFdiv Py.prec Py.emax (S754_finite sx mx ex) (S754_finite sy my ey)).
Proof.
  intros HB Hle He HBe. unfold SFdiv, SFdiv_core_binary.
  set (e' := Z.min _ (ex - ey)).
  assert (He' : Z.min (ex - ey) (-1074) <= e' <= ex - ey).
  { subst e'. unfold fexp, SpecFloat.emin, Py.prec, Py.emax. lia. }
  set (m' := match ex - ey - e' with
             | Z0 => Zpos mx
             | Zpos _ => Z.shiftl (Zpos mx) (ex - ey - e')
             | Zneg _ => 0
             end).
  assert (Hm' : m' = Zpos mx * 2 ^ (ex - ey - e')).
  { subst m'. destruct (ex - ey - e') as [|s|s] eqn:Hs; [cbn; lia| |lia].
    now rewrite Z.shiftl_mul_pow2 by lia. }
  clearbody m' e'.
  destruct (Z.div_eucl m' (Zpos my)) as [q r] eqn:Hqr.
  assert (Hq : q = m' / Zpos my) by (unfold Z.div; now rewrite Hqr).
  pose proof (Z.pow_pos_nonneg 2 (ex - ey - e') ltac:(lia) ltac:(lia)) as Hs.
  pose proof (Z.pow_pos_nonneg 2 B ltac:(lia) HB) as HpB.
  assert (Hq0 : 0 <= q) by (subst q; apply Z.div_pos; nia).
  assert (Hq1 : q <= 2 ^ (B + (ex - ey - e'))).
  { subst q. apply Z.div_le_upper_bound; [lia|].
    rewrite Z.pow_add_r by lia. nia. }
  assert (Hq2 : q < 2 ^ (B + (ex - ey - e') + 1)).
  { rewrite (Z.pow_add_r _ _ 1) by lia. change (2 ^ 1) with 2.
    pose proof (Z.pow_pos_nonneg 2 (B + (ex - ey - e')) ltac:(lia) ltac:(lia)).
    lia. }
  eapply finite_in_weaken;
    [| |apply (binary_round_aux_finite _ q e' _ (B + (ex - ey - e') + 1))]; lia.
Qed.

Lemma SFmul_finite x sy my ey lo hi :
  finite_in lo hi x -> Zpos my < 2 ^ 53 -> hi + ey <= 900 ->
  finite_in (lo + ey) (Z.max (-1074) (hi + ey + 53) + 1)
    (SFmul Py.prec Py.emax x (S754_finite sy my ey)).
Proof.
  destruct x as [s|s| |s mx ex]; cbn [finite_in SFmul];
    try solve [intros; exact I | intros []].
  intros [Hmx Hex] Hmy Hhi.
  eapply finite_in_weaken;
    [| |apply (binary_round_aux_finite _ _ _ _ 106)]; try lia.
  change (2 ^ 106) with (2 ^ 53 * 2 ^ 53).
  rewrite Pos2Z.inj_mul. nia.
Qed.

Lemma pos_iter_xO p d : Zpos (Pos.iter xO p d) = Zpos p * 2 ^ Zpos d.
Proof.
  induction d as [|d IH] using Pos.peano_ind.
  - cbn. lia.
  - rewrite Pos.iter_succ, Pos2Z.inj_succ, Z.pow_succ_r by lia.
    change (Zpos (Pos.iter xO p d)~0) with (2 * Zpos (Pos.iter xO p d)).
    rewrite IH. lia.
Qed.

Lemma nearest_finite n :
  0 <= n < 2 ^ 63 -> finite_in (-52) 12 (binary_normalize Py.prec Py.emax n 0 false).
Proof.
  intros [Hn Hlt]. destruct n as [|p|p]; [exact I| |lia].
  unfold binary_normalize, binary_round, shl_align.
  pose proof (digits2_pos_bounds p) as [Hlo Hhi].
  set (d := Zpos (digits2_pos p)) in *.
  assert (Hd : 1 <= d) by (subst d; lia).
  assert (Hf : fexp Py.prec Py.emax (d + 0) = Z.max (d - 53) (-1074)).
  { unfold fexp, SpecFloat.emin, Py.prec, Py.emax. f_equal; lia. }
  rewrite Hf.
  destruct (Z.max (d - 53) (-1074) - 0) as [|k|k] eqn:Hk.
  - eapply finite_in_weaken;
      [| |apply (binary_round_aux_finite _ _ _ _ 63)]; lia.
  - eapply finite_in_weaken;
      [| |apply (binary_round_aux_finite _ _ _ _ 63)]; lia.
  - eapply finite_in_weaken;
      [| |apply (binary_round_aux_finite _ _ _ _ 53)]; try lia.
    rewrite pos_iter_xO. split; [lia|].
    assert (Hk' : Zpos k = 53 - d) by lia. rewrite Hk'.
    apply Z.lt_le_trans with (2 ^ d * 2 ^ (53 - d)).
    + pose proof (Z.pow_pos_nonneg 2 (53 - d) ltac:(lia) ltac:(lia)). nia.
    + rewrite <- Z.pow_add_r by lia. apply Z.pow_le_mono_r; lia.
Qed.

Lemma finite_or_overflow_ok lo hi x :
  finite_in lo hi x -> Py.finite_or_overflow x = Ok x.
Proof. destruct x; cbn; solve [intros; reflexivity | intros []]. Qed.

Lemma int_of_float_ok lo hi x :
  finite_in lo hi x -> exists k, Py.int_of_float x = Ok k.
Proof. destruct x; cbn; try solve [intros []]; eauto. Qed.

Lemma round_ok lo hi x : finite_in lo hi x -> exists k, Py.round x = Ok k.
Proof. destruct x; cbn; try solve [intros []]; eauto. Qed.

Lemma mul_int_100_ok lo hi x :
  finite_in lo hi x -> hi <= 900 ->
  exists y, Py.mul_int x 100 = Ok y
            /\ finite_in (lo - 46) (Z.max (-1074) (hi + 7) + 1) y.
Proof.
  intros Hx Hhi. unfold Py.mul_int.
  change (Py.float_of_int 100)
    with (Ok (S754_finite false 7036874417766400 (-46))).
  eexists. split; [reflexivity|].
  eapply finite_in_weaken;
    [| |apply (SFmul_finite x false 7036874417766400 (-46) lo hi Hx)]; lia.
Qed.

(** [n / total] for [0 <= n <= total] is a finite float. *)
Lemma truediv_ok n total :
  0 <= n <= total -> 0 < total ->
  exists q, Py.truediv n total = Ok q /\ finite_in (-1074) 2 q.
Proof.
  intros Hn Ht. unfold Py.truediv.
  replace (total =? 0) with false by lia.
  destruct total as [|t|t]; try lia.
  destruct n as [|p|p]; try lia.
  - eexists. split; [reflexivity|exact I].
  - pose proof (SFdiv_finite false p 0 false t 0 0) as H.
    change (2 ^ 0) with 1 in H.
    specialize (H ltac:(lia) ltac:(lia) ltac:(lia) ltac:(lia)).
    cbn [Py.exact]. eexists.
    split; [eapply finite_or_overflow_ok; exact H|].
    eapply finite_in_weaken; [| |exact H]; lia.
Qed.

(** The percentage of the progress bar is always computed. *)
Lemma curr_perc_ok n total :
  0 <= n <= total -> 0 < total -> exists p, curr_perc n total = Ok p.
Proof.
  intros Hn Ht. unfold curr_perc.
  destruct (truediv_ok n total Hn Ht) as (q & -> & Hq).
  destruct (mul_int_100_ok _ _ q Hq ltac:(lia)) as (y & -> & Hy).
  exact (int_of_float_ok _ _ y Hy).
Qed.

Lemma float_of_int_ok n :
  0 <= n < 2 ^ 63 ->
  Py.float_of_int n = Ok (Py.nearest n) /\ finite_in (-52) 12 (Py.nearest n).
Proof.
  intros Hn. pose proof (nearest_finite n Hn) as H.
  split; [|exact H]. exact (finite_or_overflow_ok _ _ _ H).
Qed.

(** The percentages of the report are always computed, for counts and a
    non-zero total that a list can have. *)
Lemma rounded_percent_ok count total :
  0 <= count < 2 ^ 63 -> 0 < total < 2 ^ 63 ->
  (forall s, Py.nearest total <> S754_zero s) ->
  exists r, rounded_percent count (Py.nearest total) = Ok r.
Proof.
  intros Hc Ht Hnz. unfold rounded_percent.
  destruct (float_of_int_ok count Hc) as [-> Hx].
  destruct (float_of_int_ok total ltac:(lia)) as [_ Hy].
  destruct (Py.nearest total) as [sy|sy| |sy my ey] eqn:Hty;
    cbn [finite_in] in Hy; try contradiction.
  - now destruct (Hnz sy).
  - cbn [Py.fdiv].
    assert (Hq : finite_in (-1074) 119
                   (SFdiv Py.prec Py.emax (Py.nearest count)
                      (S754_finite sy my ey))).
    { destruct (Py.nearest count) as [sx|sx| |sx mx ex];
        cbn [finite_in] in Hx; try contradiction; try exact I.
      pose proof (SFdiv_finite sx mx ex sy my ey 53) as H.
      assert (Hle : Zpos mx <= Zpos my * 2 ^ 53) by nia.
      specialize (H ltac:(lia) Hle ltac:(lia) ltac:(lia)).
      eapply finite_in_weaken; [| |exact H]; lia. }
    destruct (mul_int_100_ok _ _ _ Hq ltac:(lia)) as (y & -> & Hy').
    exact (round_ok _ _ y Hy').
Qed.

End Floats.

(** ** Running the monad *)

Lemma runs_ret {A : Type} (a : A) w : runs (ret a) w (Ok a) w.
Proof. intros out. eexists. reflexivity. Qed.

Lemma runs_raise {A : Type} e w : runs (raise (A := A) e) w (Raise e) w.
Proof. intros out. eexists. reflexivity. Qed.

Lemma runs_lift {A : Type} (r : result A) w : runs (lift r) w r w.
Proof. intros out. eexists. reflexivity. Qed.

Lemma runs_print args end_ w : runs (print args end_) w (Ok tt) w.
Proof. intros out. eexists. reflexivity. Qed.

Lemma runs_on_world {A : Type} (f : World -> result A * World) w :
  runs (on_world f) w (fst (f w)) (snd (f w)).
Proof.
  intros out. unfold on_world. cbn [world stdout].
  destruct (f w). eexists. reflexivity.
Qed.

Lemma runs_bind {A B : Type} (m : M World A) (k : A -> M World B) w a w1 r w2 :
  runs m w (Ok a) w1 -> runs (k a) w1 r w2 -> runs (bind m k) w r w2.
Proof.
  intros Hm Hk out. destruct (Hm out) as [out1 E1].
  destruct (Hk out1) as [out2 E2].
  exists out2. unfold bind. now rewrite E1.
Qed.

Lemma runs_bind_raise {A B : Type} (m : M World A) (k : A -> M World B) w e w1 :
  runs m w (Raise e) w1 -> runs (bind m k) w (Raise e) w1.
Proof.
  intros Hm out. destruct (Hm out) as [out1 E1].
  exists out1. unfold bind. now rewrite E1.
Qed.

Lemma runs_at {A : Type} (m : M World A) (st : State World) r w' :
  runs m (world st) r w' ->
  exists out, m st = (r, {| world := w'; stdout := out |}).
Proof. intros H. destruct st as [w out]. exact (H out). Qed.

Lemma run_bind_Ok {A B : Type} (m : M World A) (k : A -> M World B) st b st' :
  bind m k st = (Ok b, st') ->
  exists a st1, m st = (Ok a, st1) /\ k a st1 = (Ok b, st').
Proof.
  unfold bind. destruct (m st) as [[a|e] st1]; [eauto|discriminate].
Qed.

(** ** The prestage request *)

(** C4, amended: [request_prestage] returns [True] exactly when the transfer
    succeeds and the body decodes to an object whose [status] is the string
    [success], and [False] for any other object, whatever the HTTP status; a
    failed transfer or a body that is not JSON raises instead of returning
    [False]. *)
Theorem request_prestage_outcome (c : Curl) (f : string) (st : State World) :
  match perform (prestage_handle c f) (world st) with
  | (Raise e, w) =>
      request_prestage c f st = (Raise e, {| world := w; stdout := stdout st |})
  | (Ok body, w) =>
      match json_loads body with
      | Raise e =>
          request_prestage c f st
          = (Raise e, {| world := w; stdout := stdout st |})
      | Ok (JObj m) =>
          exists success : bool,
            request_prestage c f st
            = (Ok (prestage_handle c f, success),
               {| world := w; stdout := stdout st |})
            /\ (success = true <-> m !! "status" = Some (JStr "success"))
      | Ok _ =>
          forall h, fst (request_prestage c f st) <> Ok (h, true)
      end
  end.
Proof.
  unfold request_prestage, bind, on_world, lift, ret.
  fold (prestage_handle c f).
  destruct (perform (prestage_handle c f) (world st)) as [[body|e] w];
    [|reflexivity].
  destruct (json_loads body) as [j|e]; [|reflexivity].
  destruct j as [| | | | |xs|m]; cbn [status_is_success Py.json_contains];
    try (intros h; cbn; discriminate).
  - intros h. destruct (Py.contains "status" s); cbn; discriminate.
  - intros h.
    destruct (existsb _ xs); cbn; discriminate.
  - destruct (m !! "status") as [v|] eqn:Hv.
    + rewrite bool_decide_eq_true_2 by eauto.
      cbn [Py.json_getitem]. rewrite Hv.
      eexists. split; [reflexivity|].
      unfold Py.json_eq_str. destruct v; try (split; [discriminate|congruence]).
      destruct (String.eqb_spec s "success") as [->|Hne].
      * split; reflexivity.
      * split; [discriminate|congruence].
    + rewrite bool_decide_eq_false_2 by (intros [? ?]; discriminate).
      eexists. split; [reflexivity|]. split; discriminate.
Qed.

(** ** The progress bar never stops a batch *)

Lemma Update_runs T pb n w :
  bar_for T pb -> (0 <= n <= T)%Z ->
  exists pb', runs (Update pb n) w (Ok pb') w /\ bar_for T pb'.
Proof.
  destruct pb as [t d a l]. unfold bar_for, default_announce_threshold.
  cbn [total _total_div10 announce]. intros (-> & -> & ->) Hn.
  unfold Update. cbn [total _total_div10 announce _last_announce_decile].
  destruct (T >? 10)%Z eqn:HT.
  - assert (Hone : (1 <= T / 10)%Z) by (apply Z.div_le_lower_bound; lia).
    assert (Hdiv : (T / 10 =? 0)%Z = false) by lia.
    assert (Hfloor : Py.floordiv n (T / 10) = Ok (n / (T / 10))%Z).
    { unfold Py.floordiv. now rewrite Hdiv. }
    destruct (T >=? 50)%Z eqn:Hann.
    + destruct ((n / (T / 10) >? l)%Z || (n =? T)%Z) eqn:Hcross.
      * destruct (curr_perc_ok n T Hn ltac:(lia)) as [p Hp].
        eexists. split.
        -- eapply runs_bind.
           { eapply runs_bind; [rewrite Hfloor; apply runs_lift|apply runs_ret]. }
           eapply runs_bind; [apply runs_ret|].
           eapply runs_bind; [apply runs_ret|].
           rewrite Hcross.
           eapply runs_bind; [rewrite Hp; apply runs_lift|].
           eapply runs_bind; [apply runs_print|].
           eapply runs_bind; [rewrite Hfloor; apply runs_lift|apply runs_ret].
        -- unfold set_last_announce_decile. cbn. auto.
      * eexists. split.
        -- eapply runs_bind.
           { eapply runs_bind; [rewrite Hfloor; apply runs_lift|apply runs_ret]. }
           eapply runs_bind; [apply runs_ret|].
           eapply runs_bind; [apply runs_ret|].
           rewrite Hcross. apply runs_ret.
        -- cbn. auto.
    + eexists. split.
      * eapply runs_bind.
        { eapply runs_bind; [rewrite Hfloor; apply runs_lift|apply runs_ret]. }
        apply runs_ret.
      * cbn. auto.
  - assert (Hann : (T >=? 50)%Z = false) by lia. rewrite Hann.
    eexists. split.
    + eapply runs_bind; [apply runs_ret|apply runs_ret].
    + cbn. auto.
Qed.

(** What one call prints when the bar announces: the percentage, when [n]
    enters a bucket beyond the last one announced or is the total, and
    nothing otherwise. *)
Lemma Update_announces pb n (st : State World) :
  announce pb = true -> (10 < total pb)%Z ->
  _total_div10 pb = (total pb / 10)%Z -> (0 <= n <= total pb)%Z ->
  exists p,
    curr_perc n (total pb) = Ok p
    /\ Update pb n st
       = if ((n / _total_div10 pb >? _last_announce_decile pb)
             || (n =? total pb))%Z
         then (Ok (set_last_announce_decile pb (n / _total_div10 pb)),
               {| world := world st;
                  stdout := (stdout st ++ [percent p])%list |})
         else (Ok pb, st).
Proof.
  intros Hann Hbig Hdiv Hn.
  destruct (curr_perc_ok n (total pb) Hn ltac:(lia)) as [p Hp].
  exists p. split; [exact Hp|].
  assert (Hone : (1 <= total pb / 10)%Z) by (apply Z.div_le_lower_bound; lia).
  unfold Update, bind, lift, ret, print, Py.floordiv.
  replace (total pb >? 10)%Z with true by lia.
  rewrite Hann, Hdiv. replace (total pb / 10 =? 0)%Z with false by lia.
  destruct ((n / (total pb / 10) >? _last_announce_decile pb)
            || (n =? total pb))%Z; [|reflexivity].
  rewrite Hp. reflexivity.
Qed.

(** ** The progress bar on 37 files *)

(** C5, amended: a [ProgressBar] for 37 files whose threshold lets it
    announce (at most 37, not the default 50) prints 0% when it is built;
    the calls [Update(0)], ..., [Update(37)] then print once at each [n] that
    enters a new bucket [n // 3], which are 3, 6, ..., 36, and once more at
    37, where the percentage is 100. *)
Theorem ProgressBar_37_announcements (threshold : Z) (w : World) :
  (threshold <= 37)%Z ->
  exists pb,
    ProgressBar_init 37 threshold {| world := w; stdout := [] |}
    = (Ok pb, {| world := w; stdout := [percent 0] |})
    /\ List.filter (fun e => match snd e with [] => false | _ => true end)
         (Update_log pb (seqZ 0 38) w)
       = [(3, [percent 8]); (6, [percent 16]); (9, [percent 24]);
          (12, [percent 32]); (15, [percent 40]); (18, [percent 48]);
          (21, [percent 56]); (24, [percent 64]); (27, [percent 72]);
          (30, [percent 81]); (33, [percent 89]); (36, [percent 97]);
          (37, [percent 100])]%Z
    /\ List.filter (fun n => (n / (37 / 10) >? (n - 1) / (37 / 10))%Z) (seqZ 1 37)
       = [3; 6; 9; 12; 15; 18; 21; 24; 27; 30; 33; 36]%Z.
Proof.
  intros Hth. unfold ProgressBar_init.
  replace (37 >=? threshold)%Z with true by lia.
  eexists. split; [vm_compute; reflexivity|].
  split; vm_compute; reflexivity.
Qed.

(** ** The status loop, file by file *)

Lemma count_cons b flags :
  count (b :: flags) = ((if b then 1 else 0) + count flags)%Z.
Proof. unfold count. destruct b; cbn [List.filter id length]; lia. Qed.

Lemma select_length files flags :
  length files = length flags ->
  Z.of_nat (length (select files flags)) = count flags.
Proof.
  revert flags. induction files as [|f files IH]; intros [|b flags] Hlen;
    try discriminate; [reflexivity|].
  rewrite count_cons. cbn [select]. injection Hlen as Hlen.
  destruct b; cbn [length]; rewrite <- (IH flags Hlen); lia.
Qed.

Lemma progress_runs v T pb n w :
  (v = false -> exists p, pb = Some p /\ bar_for T p) ->
  (0 <= n <= T)%Z ->
  exists pb', runs (progress v pb n) w (Ok pb') w
              /\ (v = false -> exists p, pb' = Some p /\ bar_for T p).
Proof.
  intros Hbar Hn. unfold progress. destruct v.
  - exists pb. split; [apply runs_ret|discriminate].
  - destruct (Hbar eq_refl) as (p & -> & Hp).
    destruct (Update_runs T p n w Hp Hn) as (p' & Hrun & Hp').
    exists (Some p'). split; [|eauto].
    eapply runs_bind; [exact Hrun|apply runs_ret].
Qed.

Lemma get_file_qos_runs c f w :
  runs (get_file_qos c f) w
    (match fst (qos_reply c f w) with
     | Ok fields => Ok (qos_handle c f, fields)
     | Raise e => Raise e
     end)
    (snd (qos_reply c f w)).
Proof.
  intros out. unfold get_file_qos, qos_reply, bind, on_world, lift, ret.
  fold (qos_handle c f). cbn [world stdout].
  destruct (perform (qos_handle c f) w) as [[body|e] w1]; cbn [fst snd];
    [|eexists; reflexivity].
  destruct (json_loads body) as [j|e]; [|eexists; reflexivity].
  destruct (qos_fields j); eexists; reflexivity.
Qed.

Lemma count_rest_runs v c f cached L pending w :
  runs (count_rest v (Some c) f cached L pending) w
    (match outcome (fst (qos_reply c f w)) with
     | Ok flags =>
         Ok (Some (qos_handle c f),
             if fst flags then (cached + 1)%Z else cached,
             if fst flags then (L ++ [f])%list else L,
             if snd flags then (pending + 1)%Z else pending)
     | Raise e => Raise e
     end)
    (snd (qos_reply c f w)).
Proof.
  unfold count_rest. pose proof (get_file_qos_runs c f w) as Hq.
  destruct (qos_reply c f w) as [[fields|e] w1]; cbn [fst snd outcome] in *;
    [|eapply runs_bind_raise; exact Hq].
  eapply runs_bind; [exact Hq|]. cbn [fst snd]. unfold classify.
  destruct (Py.json_contains "ONLINE" (fst fields)) as [online|e];
    [|eapply runs_bind_raise; apply runs_lift].
  eapply runs_bind; [apply runs_lift|].
  destruct (Py.json_contains "disk" (snd fields)) as [disk|e];
    [|eapply runs_bind_raise; apply runs_lift].
  eapply runs_bind; [apply runs_lift|].
  eapply runs_bind; [|apply runs_ret].
  destruct v; [apply runs_print|apply runs_ret].
Qed.

(** Every answer classified: the loop returns the tallies. *)
Lemma rest_loop_runs v T files :
  forall c pb cached L pending n w flags,
    (v = false -> exists p, pb = Some p /\ bar_for T p) ->
    (0 <= n)%Z -> (n + Z.of_nat (length files) <= T)%Z ->
    map outcome (fst (qos_replies c files w)) = map Ok flags ->
    exists pb',
      runs (cache_count_loop v "rest" files (Some c) pb cached L pending n) w
        (Ok (pb', ((cached + count (map fst flags))%Z,
                   (pending + count (map snd flags))%Z,
                   (n + Z.of_nat (length files))%Z,
                   (L ++ select files (map fst flags))%list)))
        (snd (qos_replies c files w))
      /\ (v = false -> exists p, pb' = Some p /\ bar_for T p).
Proof.
  induction files as [|f files IH]; intros c pb cached L pending n w flags
    Hbar Hn HT Hflags.
  - destruct flags; [|discriminate].
    exists pb. split; [|exact Hbar].
    cbn [cache_count_loop qos_replies snd map select length].
    unfold count. cbn [List.filter length].
    rewrite !Z.add_0_r, app_nil_r. apply runs_ret.
  - cbn [qos_replies] in *.
    pose proof (count_rest_runs v c f cached L pending w) as Hstep.
    destruct (qos_reply c f w) as [r w1].
    destruct (qos_replies (qos_handle c f) files w1) as [rs w2] eqn:Hrs.
    cbn [fst snd map] in *.
    destruct flags as [|fl flags]; [discriminate|].
    cbn [map] in Hflags. injection Hflags as Hr Hflags.
    rewrite Hr in Hstep.
    cbn [length] in HT. rewrite Nat2Z.inj_succ in HT.
    destruct (progress_runs v T pb (n + 1)%Z w1 Hbar ltac:(lia))
      as (pb1 & Hprog & Hbar1).
    destruct (IH (qos_handle c f) pb1
                (if fst fl then (cached + 1)%Z else cached)
                (if fst fl then (L ++ [f])%list else L)
                (if snd fl then (pending + 1)%Z else pending)
                (n + 1)%Z w1 flags Hbar1 ltac:(lia) ltac:(lia))
      as (pb' & Hloop & Hbar').
    { now rewrite Hrs. }
    rewrite Hrs in Hloop. cbn [snd] in Hloop.
    exists pb'. split; [|exact Hbar'].
    cbn [cache_count_loop].
    change (String.eqb "rest" "rest") with true. cbv iota.
    eapply runs_bind; [exact Hstep|]. cbv beta iota.
    eapply runs_bind; [exact Hprog|].
    cbn [map length select]. rewrite !count_cons.
    rewrite Nat2Z.inj_succ.
    replace (cached + ((if fst fl then 1 else 0) + count (map fst flags)))%Z
      with ((if fst fl then cached + 1 else cached) + count (map fst flags))%Z
      by (destruct (fst fl); lia).
    replace (pending + ((if snd fl then 1 else 0) + count (map snd flags)))%Z
      with ((if snd fl then pending + 1 else pending) + count (map snd flags))%Z
      by (destruct (snd fl); lia).
    replace (n + Z.succ (Z.of_nat (length files)))%Z
      with (n + 1 + Z.of_nat (length files))%Z by lia.
    replace (L ++ (if fst fl then f :: select files (map fst flags)
                   else select files (map fst flags)))%list
      with ((if fst fl then (L ++ [f])%list else L)
              ++ select files (map fst flags))%list
      by (destruct (fst fl); [now rewrite <- app_assoc|reflexivity]).
    exact Hloop.
Qed.


Lemma bar_for_new T :
  bar_for T {| total := T; _total_div10 := (T / 10)%Z;
               announce := (T >=? default_announce_threshold)%Z;
               _last_announce_decile := (-1)%Z |}.
Proof. repeat split. Qed.

(** The bar before the loop: [None] when verbose, else the bar just built. *)
Lemma progbar_runs (v : bool) (files : list string) (w : World) :
  exists pb,
    runs (if v then ret None
          else let* pb := ProgressBar_init (Z.of_nat (length files))
                            default_announce_threshold in
               ret (Some pb)) w (Ok pb) w
    /\ (v = false ->
        exists p, pb = Some p /\ bar_for (Z.of_nat (length files)) p).
Proof.
  destruct v.
  - exists None. split; [apply runs_ret|discriminate].
  - destruct (Update_runs (Z.of_nat (length files)) _ 0%Z w
                (bar_for_new _) ltac:(lia)) as (p & Hrun & Hp).
    exists (Some p). split; [|eauto].
    eapply runs_bind; [exact Hrun|apply runs_ret].
Qed.

(** [if not verbose_flag: progbar.Update(progbar.total)] after the loop. *)
Lemma last_update_runs (v : bool) T (pb : option ProgressBar) (w : World) :
  (v = false -> exists p, pb = Some p /\ bar_for T p) -> (0 <= T)%Z ->
  runs (if v then ret tt
        else match pb with
             | None => raise AttributeError
             | Some p => let* _ := Update p (total p) in ret tt
             end) w (Ok tt) w.
Proof.
  intros Hbar HT. destruct v; [apply runs_ret|].
  destruct (Hbar eq_refl) as (p & -> & Hp).
  assert (Htot : total p = T) by apply Hp. rewrite Htot.
  destruct (Update_runs T p T w Hp ltac:(lia)) as (p' & Hrun & _).
  eapply runs_bind; [exact Hrun|apply runs_ret].
Qed.

Lemma announce_runs (fmt : string) (files : list string) (w : World) :
  runs (if (Z.of_nat (length files) >? 1)%Z
        then print [VFormat fmt [VInt (Z.of_nat (length files))]] Py.line_feed
        else ret tt) w (Ok tt) w.
Proof. destruct (_ >? _)%Z; [apply runs_print|apply runs_ret]. Qed.

Lemma FilelistCacheCount_rest_runs files v w flags :
  map outcome (fst (qos_replies make_curl files w)) = map Ok flags ->
  runs (FilelistCacheCount files v "rest") w
    (Ok (count (map fst flags), count (map snd flags),
         Z.of_nat (length files), select files (map fst flags)))
    (snd (qos_replies make_curl files w)).
Proof.
  intros Hflags. unfold FilelistCacheCount.
  change (String.eqb "rest" "rest") with true.
  change (String.eqb "rest" "pnfs") with false. cbv iota. cbn [orb].
  eapply runs_bind; [apply runs_ret|].
  eapply runs_bind; [apply announce_runs|].
  destruct (progbar_runs v files w) as (pb & Hpb & Hbar).
  eapply runs_bind; [exact Hpb|].
  destruct (rest_loop_runs v (Z.of_nat (length files)) files make_curl pb
              0%Z [] 0%Z 0%Z w flags Hbar ltac:(lia) ltac:(lia) Hflags)
    as (pb' & Hloop & Hbar').
  eapply runs_bind; [exact Hloop|]. cbv beta iota.
  eapply runs_bind;
    [apply (last_update_runs v _ pb' _ Hbar'); lia|].
  rewrite !Z.add_0_l. cbn [app]. apply runs_ret.
Qed.


(** ** The pnfs loop, file by file *)

Lemma count_pnfs_runs (v : bool) f cached L w :
  runs (count_pnfs v f cached L) w
    (match fst (open_readline (stat_file f) w) with
     | Ok line =>
         Ok (if online_line line then (cached + 1)%Z else cached,
             if online_line line then (L ++ [f])%list else L)
     | Raise e => Raise e
     end)
    (snd (open_readline (stat_file f) w)).
Proof.
  unfold count_pnfs, is_file_online_pnfs, online_line.
  pose proof (runs_on_world (open_readline (stat_file f)) w) as Hopen.
  destruct (open_readline (stat_file f) w) as [[line|e] w1]; cbn [fst snd] in *.
  - eapply runs_bind.
    { eapply runs_bind; [exact Hopen|apply runs_ret]. }
    eapply runs_bind; [|apply runs_ret].
    destruct v; [apply runs_print|apply runs_ret].
  - eapply runs_bind_raise. eapply runs_bind_raise. exact Hopen.
Qed.

Lemma pnfs_loop_runs v T files :
  forall pb cached L pending n w lines,
    (v = false -> exists p, pb = Some p /\ bar_for T p) ->
    (0 <= n)%Z -> (n + Z.of_nat (length files) <= T)%Z ->
    fst (pnfs_lines files w) = map Ok lines ->
    exists pb',
      runs (cache_count_loop v "pnfs" files None pb cached L pending n) w
        (Ok (pb', ((cached + count (map online_line lines))%Z,
                   pending,
                   (n + Z.of_nat (length files))%Z,
                   (L ++ select files (map online_line lines))%list)))
        (snd (pnfs_lines files w))
      /\ (v = false -> exists p, pb' = Some p /\ bar_for T p).
Proof.
  induction files as [|f files IH]; intros pb cached L pending n w lines
    Hbar Hn HT Hlines.
  - destruct lines; [|discriminate].
    exists pb. split; [|exact Hbar].
    cbn [cache_count_loop pnfs_lines snd map select length].
    unfold count. cbn [List.filter length].
    rewrite !Z.add_0_r, app_nil_r. apply runs_ret.
  - cbn [pnfs_lines] in *.
    pose proof (count_pnfs_runs v f cached L w) as Hstep.
    destruct (open_readline (stat_file f) w) as [r w1].
    destruct (pnfs_lines files w1) as [rs w2] eqn:Hrs.
    cbn [fst snd map] in *.
    destruct lines as [|line lines]; [discriminate|].
    cbn [map] in Hlines. injection Hlines as -> Hlines.
    cbn [length] in HT. rewrite Nat2Z.inj_succ in HT.
    destruct (progress_runs v T pb (n + 1)%Z w1 Hbar ltac:(lia))
      as (pb1 & Hprog & Hbar1).
    destruct (IH pb1
                (if online_line line then (cached + 1)%Z else cached)
                (if online_line line then (L ++ [f])%list else L)
                pending (n + 1)%Z w1 lines Hbar1 ltac:(lia) ltac:(lia))
      as (pb' & Hloop & Hbar').
    { now rewrite Hrs. }
    rewrite Hrs in Hloop. cbn [snd] in Hloop.
    exists pb'. split; [|exact Hbar'].
    cbn [cache_count_loop].
    change (String.eqb "pnfs" "rest") with false.
    change (String.eqb "pnfs" "pnfs") with true. cbv iota.
    eapply runs_bind.
    { eapply runs_bind; [exact Hstep|apply runs_ret]. }
    cbv beta iota. cbn [fst snd].
    eapply runs_bind; [exact Hprog|].
    cbn [map length select]. rewrite !count_cons.
    rewrite Nat2Z.inj_succ.
    replace (cached + ((if online_line line then 1 else 0)
                       + count (map online_line lines)))%Z
      with ((if online_line line then cached + 1 else cached)
            + count (map online_line lines))%Z
      by (destruct (online_line line); lia).
    replace (n + Z.succ (Z.of_nat (length files)))%Z
      with (n + 1 + Z.of_nat (length files))%Z by lia.
    replace (L ++ (if online_line line
                   then f :: select files (map online_line lines)
                   else select files (map online_line lines)))%list
      with ((if online_line line then (L ++ [f])%list else L)
              ++ select files (map online_line lines))%list
      by (destruct (online_line line); [now rewrite <- app_assoc|reflexivity]).
    exact Hloop.
Qed.


Lemma FilelistCacheCount_pnfs_runs files v w lines :
  fst (pnfs_lines files w) = map Ok lines ->
  runs (FilelistCacheCount files v "pnfs") w
    (Ok (count (map online_line lines), (-1)%Z,
         Z.of_nat (length files), select files (map online_line lines)))
    (snd (pnfs_lines files w)).
Proof.
  intros Hlines. unfold FilelistCacheCount.
  change (String.eqb "pnfs" "rest") with false.
  change (String.eqb "pnfs" "pnfs") with true. cbv iota. cbn [orb].
  eapply runs_bind; [apply runs_ret|].
  eapply runs_bind; [apply announce_runs|].
  destruct (progbar_runs v files w) as (pb & Hpb & Hbar).
  eapply runs_bind; [exact Hpb|].
  destruct (pnfs_loop_runs v (Z.of_nat (length files)) files pb
              0%Z [] 0%Z 0%Z w lines Hbar ltac:(lia) ltac:(lia) Hlines)
    as (pb' & Hloop & Hbar').
  eapply runs_bind; [exact Hloop|]. cbv beta iota.
  eapply runs_bind;
    [apply (last_update_runs v _ pb' _ Hbar'); lia|].
  rewrite !Z.add_0_l. cbn [app]. apply runs_ret.
Qed.


(** ** The status batch as a whole *)

Lemma qos_replies_length files : forall c w,
  length (fst (qos_replies c files w)) = length files.
Proof.
  induction files as [|f files IH]; intros c w; [reflexivity|].
  cbn [qos_replies]. destruct (qos_reply c f w) as [r w1].
  specialize (IH (qos_handle c f) w1).
  destruct (qos_replies (qos_handle c f) files w1). cbn [fst length] in *.
  now rewrite IH.
Qed.

Lemma select_partition files flags :
  length files = length flags ->
  (length (select files flags) + length (select files (map negb flags)))%nat
  = length files.
Proof.
  revert flags. induction files as [|f files IH]; intros [|b flags] Hlen;
    try discriminate; [reflexivity|].
  injection Hlen as Hlen. specialize (IH flags Hlen).
  cbn [select map negb length]. destruct b; cbn [negb length]; lia.
Qed.

(** The flags of answers that are strings. *)
Lemma outcome_of_strings (answers : list (string * string)) :
  map outcome (map (fun a => Ok (JStr (fst a), JStr (snd a))) answers)
  = map Ok (map (fun a => (Py.contains "ONLINE" (fst a),
                           Py.contains "disk" (snd a))) answers).
Proof. rewrite !map_map. apply map_ext. intros [l t]. reflexivity. Qed.

(** C7: on the REST method, when every file is answered with a locality and
    a target that are strings (empty when the field is absent), the batch
    returns; its list is the files whose locality contains [ONLINE], in the
    order of the input; [cached] is the length of that list; the total is the
    number of files, which is [cached] plus the number of the other files. *)
Theorem FilelistCacheCount_rest_tallies (files : list string)
  (verbose_flag : bool) (st : State World) (answers : list (string * string)) :
  fst (qos_replies make_curl files (world st))
  = map (fun a => Ok (JStr (fst a), JStr (snd a))) answers ->
  let online := map (fun a => Py.contains "ONLINE" (fst a)) answers in
  exists pending out,
    FilelistCacheCount files verbose_flag "rest" st
    = (Ok (Z.of_nat (length (select files online)), pending,
           Z.of_nat (length files), select files online),
       {| world := snd (qos_replies make_curl files (world st));
          stdout := out |})
    /\ Z.of_nat (length files)
       = (Z.of_nat (length (select files online))
          + Z.of_nat (length (select files (map negb online))))%Z.
Proof.
  intros Hans online.
  assert (Hlen : length files = length online).
  { unfold online. rewrite length_map.
    rewrite <- (qos_replies_length files make_curl (world st)), Hans.
    now rewrite length_map. }
  pose proof (FilelistCacheCount_rest_runs files verbose_flag (world st) _
                (eq_trans (f_equal (map outcome) Hans)
                   (outcome_of_strings answers))) as Hrun.
  rewrite !map_map in Hrun. cbn [fst snd] in Hrun. fold online in Hrun.
  rewrite <- (select_length files online Hlen) in Hrun.
  destruct (runs_at _ st _ _ Hrun) as [out Hout].
  eexists _, out. split; [exact Hout|].
  pose proof (select_partition files online Hlen). lia.
Qed.

(** C2, amended: on the REST method a file is counted as pending exactly
    when its [targetQos] contains [disk], whatever its locality. *)
Theorem FilelistCacheCount_pending_counts_disk (files : list string)
  (verbose_flag : bool) (st : State World) (answers : list (string * string)) :
  fst (qos_replies make_curl files (world st))
  = map (fun a => Ok (JStr (fst a), JStr (snd a))) answers ->
  let disk := map (fun a => Py.contains "disk" (snd a)) answers in
  exists cached cache_list out,
    FilelistCacheCount files verbose_flag "rest" st
    = (Ok (cached, Z.of_nat (length (select files disk)),
           Z.of_nat (length files), cache_list),
       {| world := snd (qos_replies make_curl files (world st));
          stdout := out |}).
Proof.
  intros Hans disk.
  assert (Hlen : length files = length disk).
  { unfold disk. rewrite length_map.
    rewrite <- (qos_replies_length files make_curl (world st)), Hans.
    now rewrite length_map. }
  pose proof (FilelistCacheCount_rest_runs files verbose_flag (world st) _
                (eq_trans (f_equal (map outcome) Hans)
                   (outcome_of_strings answers))) as Hrun.
  rewrite !map_map in Hrun. cbn [fst snd] in Hrun. fold disk in Hrun.
  rewrite <- (select_length files disk Hlen) in Hrun.
  destruct (runs_at _ st _ _ Hrun) as [out Hout].
  eexists _, _, out. exact Hout.
Qed.

(** C10: on the pnfs method, when every pseudo-file is read, the batch
    returns the pending count -1, for any list of files; the other three
    values are the tallies of the lines read. *)
Theorem FilelistCacheCount_pnfs_pending_sentinel (files : list string)
  (verbose_flag : bool) (st : State World) (lines : list string) :
  fst (pnfs_lines files (world st)) = map Ok lines ->
  exists out,
    FilelistCacheCount files verbose_flag "pnfs" st
    = (Ok (count (map online_line lines), (-1)%Z, Z.of_nat (length files),
           select files (map online_line lines)),
       {| world := snd (pnfs_lines files (world st)); stdout := out |}).
Proof.
  intros Hlines.
  exact (runs_at _ st _ _
           (FilelistCacheCount_pnfs_runs files verbose_flag (world st) lines
              Hlines)).
Qed.


(** ** What a returned tally can be *)

Ltac invert_run H :=
  repeat
    (let a := fresh "a" in
     let st := fresh "st" in
     let E := fresh "E" in
     apply run_bind_Ok in H as (a & st & E & H)).

Lemma count_rest_bounds v c f cached L pending (st : State World)
  c' cached' L' pending' st' :
  count_rest v c f cached L pending st = (Ok (c', cached', L', pending'), st') ->
  (cached <= cached' <= cached + 1)%Z /\ (pending <= pending' <= pending + 1)%Z.
Proof.
  unfold count_rest. destruct c as [h|]; [|discriminate].
  intros H. invert_run H. unfold ret in H. injection H as _ <- _ <- _.
  destruct a0, a1; lia.
Qed.

Lemma count_pnfs_bounds v f cached L (st : State World) cached' L' st' :
  count_pnfs v f cached L st = (Ok (cached', L'), st') ->
  (cached <= cached' <= cached + 1)%Z.
Proof.
  unfold count_pnfs. intros H. invert_run H.
  unfold ret in H. injection H as <- _ _. destruct a; lia.
Qed.

Lemma cache_count_loop_bounds v METHOD files :
  forall c pb cached L pending n (st : State World) pb' cached' pending' n' L' st',
    cache_count_loop v METHOD files c pb cached L pending n st
    = (Ok (pb', (cached', pending', n', L')), st') ->
    (cached <= cached' <= cached + Z.of_nat (length files))%Z
    /\ (pending <= pending' <= pending + Z.of_nat (length files))%Z
    /\ n' = (n + Z.of_nat (length files))%Z.
Proof.
  induction files as [|f files IH]; intros c pb cached L pending n st
    pb' cached' pending' n' L' st' H.
  - cbn in H. injection H as _ <- <- <- _ _. cbn [length]. lia.
  - cbn [cache_count_loop] in H.
    apply run_bind_Ok in H as ([[[c1 cached1] L1] pending1] & st1 & Hstep & H).
    apply run_bind_Ok in H as (pb1 & st2 & _ & H).
    apply IH in H as (Hc & Hp & ->).
    cbn [length]. rewrite Nat2Z.inj_succ.
    assert ((cached <= cached1 <= cached + 1)%Z
            /\ (pending <= pending1 <= pending + 1)%Z) as [Hc1 Hp1].
    { destruct (String.eqb METHOD "rest").
      - exact (count_rest_bounds _ _ _ _ _ _ _ _ _ _ _ _ Hstep).
      - destruct (String.eqb METHOD "pnfs").
        + apply run_bind_Ok in Hstep as ([cached2 L2] & st3 & Hpnfs & Hret).
          unfold ret in Hret. cbn [fst snd] in Hret.
          injection Hret as _ <- _ <- _.
          pose proof (count_pnfs_bounds _ _ _ _ _ _ _ _ Hpnfs). lia.
        + unfold ret in Hstep. injection Hstep as _ <- _ <- _. lia. }
    lia.
Qed.


(** ** The report and the exit status *)





(** * Further properties of the script *)

(** ** Strings, once more *)

Lemma contains_cons needle c hay :
  Py.contains needle (String c hay) = false ->
  String.prefix needle (String c hay) = false /\ Py.contains needle hay = false.
Proof. cbn [Py.contains]. intros H. now apply orb_false_elim in H. Qed.

Lemma prefix_contains needle hay :
  String.prefix needle hay = true -> Py.contains needle hay = true.
Proof. intros H. destruct hay; cbn [Py.contains]; now rewrite H. Qed.

Lemma contains_drop needle k : forall hay,
  Py.contains needle (Py.drop k hay) = true -> Py.contains needle hay = true.
Proof.
  induction k as [|k IH]; intros [|c hay] H; try exact H.
  cbn [Py.drop] in H. cbn [Py.contains]. rewrite (IH hay H). apply orb_true_r.
Qed.

Lemma prefix_app_drop p q : forall s,
  String.prefix (p ++ q) s = true ->
  String.prefix q (Py.drop (String.length p) s) = true.
Proof.
  induction p as [|a p IH]; intros s H; [exact H|].
  rewrite append_cons in H. destruct s as [|c s]; [discriminate|].
  cbn [String.prefix] in H. cbn [String.length Py.drop].
  destruct (ascii_dec a c); [now apply IH|discriminate].
Qed.

(** A text without [q] has no occurrence of a text that ends in [q]. *)
Lemma contains_app_r p q s :
  Py.contains q s = false -> Py.contains (p ++ q) s = false.
Proof.
  intros H. destruct (Py.contains (p ++ q) s) eqn:Hc; [|reflexivity].
  exfalso. revert H Hc. induction s as [|c s IH]; intros H Hc.
  - cbn [Py.contains] in Hc. rewrite orb_false_r in Hc.
    apply prefix_app_drop, prefix_contains, contains_drop in Hc. congruence.
  - cbn [Py.contains] in Hc. apply orb_true_iff in Hc as [Hc|Hc].
    + apply prefix_app_drop, prefix_contains, contains_drop in Hc. congruence.
    + apply contains_cons in H as [_ H]. now apply IH.
Qed.

(** [str.replace] leaves a text without [old] as it is. *)
Lemma replace_absent a old new s :
  Py.contains (String a old) s = false ->
  Py.replace s (String a old) new = s.
Proof.
  unfold Py.replace. induction s as [|c s IH]; intros H; [reflexivity|].
  apply contains_cons in H as [Hp Hc].
  cbn [Py.replace_scan]. rewrite Hp. now rewrite (IH Hc).
Qed.

Lemma prefix_cut p : forall s,
  String.prefix p s = true -> s = p ++ Py.drop (String.length p) s.
Proof.
  induction p as [|a p IH]; intros s H; [reflexivity|].
  destruct s as [|c s]; [discriminate|].
  cbn [String.prefix] in H. rewrite append_cons. cbn [String.length Py.drop].
  destruct (ascii_dec a c) as [->|]; [|discriminate].
  f_equal. now apply IH.
Qed.

(** ** The three prefixes of [filename_to_namespace] *)

(** X1: a location under the legacy mount [/pnfs/uboone], written as a plain
    path or as an enstore location, is rewritten to the same path under
    [/pnfs/fnal.gov/usr/uboone], its remainder untouched as long as the
    remainder does not name the legacy mount again; an xrootd URL of the door
    loses the door and is not rewritten any further. *)
Theorem filename_to_namespace_rewrites_prefix (t : string) :
  (Py.contains "/pnfs/uboone" t = false ->
   filename_to_namespace ("/pnfs/uboone" ++ t) = "/pnfs/fnal.gov/usr/uboone" ++ t
   /\ filename_to_namespace ("enstore:/pnfs/uboone" ++ t)
      = "/pnfs/fnal.gov/usr/uboone" ++ t)
  /\ (Py.contains "root://fndca1.fnal.gov:1094" t = false ->
      filename_to_namespace ("root://fndca1.fnal.gov:1094" ++ t) = t).
Proof.
  split.
  - intros Hfree. split.
    + unfold filename_to_namespace.
      change (Py.startswith ("/pnfs/uboone" ++ t) "root://fndca1.fnal.gov:1094")
        with false.
      unfold Py.startswith at 1. rewrite prefix_append.
      rewrite replace_at_prefix by apply prefix_append.
      change (Py.drop _ ("/pnfs/uboone" ++ t)) with t.
      now rewrite replace_absent.
    + unfold filename_to_namespace.
      change (Py.startswith ("enstore:/pnfs/uboone" ++ t)
                "root://fndca1.fnal.gov:1094") with false.
      change (Py.startswith ("enstore:/pnfs/uboone" ++ t) "/pnfs/uboone")
        with false.
      unfold Py.startswith at 1. rewrite prefix_append.
      rewrite replace_at_prefix by apply prefix_append.
      change (Py.drop _ ("enstore:/pnfs/uboone" ++ t)) with t.
      rewrite replace_absent; [reflexivity|].
      exact (contains_app_r "enstore:" "/pnfs/uboone" t Hfree).
  - intros Hfree. unfold filename_to_namespace.
    unfold Py.startswith at 1. rewrite prefix_append.
    rewrite replace_at_prefix by apply prefix_append.
    change (Py.drop _ ("root://fndca1.fnal.gov:1094" ++ t)) with t.
    now rewrite replace_absent.
Qed.

(** ** What [ENSTORE_PATTERN] matches *)

Lemma prefix_paren c s :
  String.prefix "(" (String c s) = Ascii.eqb "(" c.
Proof.
  cbn [String.prefix]. destruct (ascii_dec "(" c) as [<-|Hne].
  - now destruct s.
  - symmetry. now apply Ascii.eqb_neq.
Qed.

(** The run [span] cuts off has no opening parenthesis, and what is left is
    empty or begins with one. *)
Lemma span_paren s : forall run rest,
  Py.span (Py.not_char "(") s = (run, rest) ->
  s = run ++ rest
  /\ Py.contains "(" run = false
  /\ (rest = EmptyString \/ exists r, rest = String "(" r).
Proof.
  induction s as [|c s IH]; intros run rest H.
  - injection H as <- <-. auto.
  - cbn [Py.span] in H. unfold Py.not_char at 1 in H.
    destruct (Ascii.eqb_spec "("%char c) as [<-|Hne]; cbn [negb] in H.
    + injection H as <- <-. repeat split; eauto.
    + destruct (Py.span (Py.not_char "(") s) as [run' rest'].
      injection H as <- <-.
      destruct (IH run' rest' eq_refl) as (-> & Hrun & Hrest).
      repeat split; [|exact Hrest].
      cbn [Py.contains]. rewrite prefix_paren, Hrun.
      apply orb_false_intro; [now apply Ascii.eqb_neq|reflexivity].
Qed.

(** X2: [ENSTORE_PATTERN] matches exactly the texts that begin with
    [enstore:] followed by a character other than an opening parenthesis;
    group 1 is then the longest run after [enstore:] without an opening
    parenthesis: it is not empty, and what follows it in the text is nothing
    or begins with an opening parenthesis. *)
Theorem ENSTORE_PATTERN_matches (s : string) :
  (is_Some (ENSTORE_PATTERN s)
   <-> exists c t, s = "enstore:" ++ String c t /\ c <> "("%char)
  /\ (forall m, ENSTORE_PATTERN s = Some m ->
        exists rest,
          s = "enstore:" ++ group1 m ++ rest
          /\ group1 m <> EmptyString
          /\ Py.contains "(" (group1 m) = false
          /\ (rest = EmptyString \/ exists r, rest = String "(" r)
          /\ group2 m = tape_suffix rest).
Proof.
  unfold ENSTORE_PATTERN, Py.startswith. split.
  - split.
    + intros [m Hm].
      destruct (String.prefix "enstore:" s) eqn:Hp; [|discriminate].
      apply prefix_cut in Hp. cbn [String.length] in Hp.
      destruct (Py.drop 8 s) as [|c t] eqn:Hd; [discriminate|].
      exists c, t. split; [exact Hp|].
      intros ->. cbn [Py.span] in Hm. unfold Py.not_char at 1 in Hm.
      rewrite Ascii.eqb_refl in Hm. discriminate.
    + intros (c & t & -> & Hc). rewrite prefix_append.
      change (Py.drop 8 ("enstore:" ++ String c t)) with (String c t).
      cbn [Py.span]. unfold Py.not_char at 1.
      destruct (Ascii.eqb_spec "("%char c) as [Heq|_]; [now destruct Hc|].
      cbn [negb]. destruct (Py.span (Py.not_char "(") t). eauto.
  - intros m Hm.
    destruct (String.prefix "enstore:" s) eqn:Hp; [|discriminate].
    apply prefix_cut in Hp. cbn [String.length] in Hp.
    destruct (Py.span (Py.not_char "(") (Py.drop 8 s)) as [run rest] eqn:Hs.
    apply span_paren in Hs as (Hd & Hrun & Hrest).
    destruct run as [|a run]; [discriminate|].
    injection Hm as <-. cbn [group1 group2].
    exists rest. rewrite <- Hd. repeat split; auto; discriminate.
Qed.

(** ** The pseudo-file of a pnfs path *)

Lemma cut_no_sep name :
  Py.contains "/" name = false -> Py.cut_after_last_sep name = None.
Proof.
  induction name as [|c name IH]; intros H; [reflexivity|].
  apply contains_cons in H as [Hp Hc].
  cbn [Py.cut_after_last_sep]. rewrite (IH Hc).
  unfold Py.is_char. cbn [String.prefix] in Hp.
  destruct (ascii_dec "/" c) as [<-|Hne].
  - now destruct name.
  - now apply Ascii.eqb_neq in Hne as ->.
Qed.

Lemma cut_at_last_sep dir name :
  Py.contains "/" name = false ->
  Py.cut_after_last_sep (dir ++ "/" ++ name) = Some (dir ++ "/", name).
Proof.
  intros H. induction dir as [|c dir IH].
  - change (EmptyString ++ "/" ++ name) with (String "/" name).
    cbn [Py.cut_after_last_sep]. now rewrite (cut_no_sep name H).
  - change (String c dir ++ "/" ++ name) with (String c (dir ++ "/" ++ name)).
    change (String c dir ++ "/") with (String c (dir ++ "/")).
    cbn [Py.cut_after_last_sep]. now rewrite IH.
Qed.

Lemma endswith_cons c s :
  Py.endswith (String c s) "/" = false ->
  (s = EmptyString -> c <> "/"%char) /\ Py.endswith s "/" = false.
Proof.
  cbn [Py.endswith]. intros H. apply orb_false_elim in H as [He Hs].
  split; [|exact Hs]. intros -> ->. discriminate.
Qed.

(** A directory that does not end in a slash is what [rstrip] makes of the
    directory followed by one. *)
Lemma rstrip_dir dir :
  dir <> EmptyString -> Py.endswith dir "/" = false ->
  Py.rstrip_sep (dir ++ "/") = dir /\ Py.all_sep (dir ++ "/") = false.
Proof.
  induction dir as [|c dir IH]; intros Hne Hend; [contradiction|].
  apply endswith_cons in Hend as [Hc Hend].
  rewrite append_cons. cbn [Py.rstrip_sep Py.all_sep].
  destruct dir as [|d dir].
  - assert (Hcs : Py.is_char "/" c = false).
    { unfold Py.is_char. apply Ascii.eqb_neq. intros <-. now apply Hc. }
    change (Py.rstrip_sep (EmptyString ++ "/")) with EmptyString.
    now rewrite Hcs.
  - destruct (IH ltac:(discriminate) Hend) as [-> ->].
    now rewrite andb_false_r.
Qed.

Lemma path_split_joined dir name :
  dir <> EmptyString -> Py.endswith dir "/" = false ->
  Py.contains "/" name = false ->
  Py.path_join dir name = dir ++ "/" ++ name
  /\ Py.path_split (dir ++ "/" ++ name) = (dir, name).
Proof.
  intros Hne Hend Hname. split.
  - unfold Py.path_join.
    assert (Hs : Py.startswith name "/" = false).
    { unfold Py.startswith. destruct (String.prefix "/" name) eqn:Hp; [|reflexivity].
      apply prefix_contains in Hp. congruence. }
    rewrite Hs, Hend.
    destruct (String.eqb_spec dir EmptyString); [contradiction|reflexivity].
  - unfold Py.path_split. rewrite (cut_at_last_sep dir name Hname).
    destruct (rstrip_dir dir Hne Hend) as [-> ->].
    destruct (String.eqb_spec (dir ++ "/") EmptyString) as [He|_];
      [|reflexivity].
    destruct dir; discriminate.
Qed.

(** X3: for a file [name] in a directory [dir], [is_file_online_pnfs] on the
    joined path reads the first line of [dir/.(get)(name)(locality)] and
    answers whether it contains [ONLINE]; it prints nothing, and what
    [open] raises it raises.  For a bare name, without any slash, the
    pseudo-file it reads lies in the root directory. *)
Theorem is_file_online_pnfs_reads_pseudo_file (dir name : string)
  (st : State World) :
  Py.contains "/" name = false ->
  (dir <> EmptyString -> Py.endswith dir "/" = false ->
   let pseudo := dir ++ "/.(get)(" ++ name ++ ")(locality)" in
   stat_file (Py.path_join dir name) = pseudo
   /\ is_file_online_pnfs (Py.path_join dir name) st
      = (match fst (open_readline pseudo (world st)) with
         | Ok line => Ok (Py.contains "ONLINE" line)
         | Raise e => Raise e
         end,
         {| world := snd (open_readline pseudo (world st));
            stdout := stdout st |}))
  /\ stat_file name = "/.(get)(" ++ name ++ ")(locality)".
Proof.
  intros Hname. split.
  - intros Hne Hend pseudo.
    destruct (path_split_joined dir name Hne Hend Hname) as [Hjoin Hsplit].
    assert (Hstat : stat_file (Py.path_join dir name) = pseudo).
    { unfold stat_file. now rewrite Hjoin, Hsplit. }
    split; [exact Hstat|].
    unfold is_file_online_pnfs, bind, on_world, ret. rewrite Hstat.
    destruct (open_readline pseudo (world st)) as [[line|e] w]; reflexivity.
  - unfold stat_file, Py.path_split. rewrite (cut_no_sep name Hname).
    reflexivity.
Qed.

(** ** Running the monad, with what is printed *)

Lemma prints_ret {A : Type} (a : A) w : prints (ret a) w (Ok a) w [].
Proof. intros out. unfold ret. now rewrite app_nil_r. Qed.

Lemma prints_raise {A : Type} e w : prints (raise (A := A) e) w (Raise e) w [].
Proof. intros out. unfold raise. now rewrite app_nil_r. Qed.

Lemma prints_lift {A : Type} (r : result A) w : prints (lift r) w r w [].
Proof. intros out. unfold lift. now rewrite app_nil_r. Qed.

Lemma prints_print args end_ w :
  prints (print args end_) w (Ok tt) w
    [{| print_args := args; print_end := end_ |}].
Proof. intros out. reflexivity. Qed.

Lemma prints_on_world {A : Type} (f : World -> result A * World) w :
  prints (on_world f) w (fst (f w)) (snd (f w)) [].
Proof.
  intros out. unfold on_world. cbn [world stdout].
  destruct (f w). now rewrite app_nil_r.
Qed.

Lemma prints_bind {A B : Type} (m : M World A) (k : A -> M World B)
  w a w1 l1 r w2 l2 :
  prints m w (Ok a) w1 l1 -> prints (k a) w1 r w2 l2 ->
  prints (bind m k) w r w2 (l1 ++ l2)%list.
Proof.
  intros Hm Hk out. unfold bind. rewrite (Hm out), (Hk (out ++ l1)%list).
  now rewrite app_assoc.
Qed.

Lemma prints_bind_raise {A B : Type} (m : M World A) (k : A -> M World B)
  w e w1 l1 :
  prints m w (Raise e) w1 l1 -> prints (bind m k) w (Raise e) w1 l1.
Proof. intros Hm out. unfold bind. now rewrite (Hm out). Qed.

Lemma prints_at {A : Type} (m : M World A) (st : State World) r w' lines :
  prints m (world st) r w' lines ->
  m st = (r, {| world := w'; stdout := (stdout st ++ lines)%list |}).
Proof. intros H. destruct st as [w out]. exact (H out). Qed.

Lemma prints_eq {A : Type} (m : M World A) w r w' l l' :
  prints m w r w' l -> l = l' -> prints m w r w' l'.
Proof. now intros H <-. Qed.

Lemma silent_ret {A : Type} (a : A) : silent (ret (W := World) a).
Proof. intros st. reflexivity. Qed.

Lemma silent_raise {A : Type} e : silent (raise (W := World) (A := A) e).
Proof. intros st. reflexivity. Qed.

Lemma silent_lift {A : Type} (r : result A) : silent (lift (W := World) r).
Proof. intros st. reflexivity. Qed.

Lemma silent_on_world {A : Type} (f : World -> result A * World) :
  silent (on_world f).
Proof. intros st. unfold on_world. now destruct (f (world st)). Qed.

Lemma silent_bind {A B : Type} (m : M World A) (k : A -> M World B) :
  silent m -> (forall a, silent (k a)) -> silent (bind m k).
Proof.
  intros Hm Hk st. unfold bind. specialize (Hm st).
  destruct (m st) as [[a|e] st1]; cbn [snd] in *; [|exact Hm].
  now rewrite (Hk a st1).
Qed.

(** ** The progress bar: when it is silent, when it raises, what it repeats *)

(** A quotient of a number by itself is the float 1.0, whatever the size of
    the number, and [int(1.0 * 100)] is 100. *)
Lemma curr_perc_full n : (0 < n)%Z -> curr_perc n n = Ok 100%Z.
Proof.
  intros Hn. unfold curr_perc, Py.truediv.
  replace (n =? 0)%Z with false by lia.
  destruct n as [|p|p]; try lia. cbn [Py.exact].
  assert (Hdiv : SFdiv Py.prec Py.emax (S754_finite false p 0)
                   (S754_finite false p 0)
                 = S754_finite false 4503599627370496 (-52)).
  { unfold SFdiv, SFdiv_core_binary.
    replace (Zdigits2 (Zpos p) + 0 - (Zdigits2 (Zpos p) + 0))%Z with 0%Z by lia.
    change (Z.min (fexp Py.prec Py.emax 0) (0 - 0))%Z with (-53)%Z.
    change (0 - 0 - -53)%Z with 53%Z. cbv iota.
    rewrite Z.shiftl_mul_pow2 by lia.
    pose proof (Z.div_eucl_eq (Zpos p * 2 ^ 53) (Zpos p) ltac:(lia)) as Heq.
    pose proof (Z_div_mult_full (2 ^ 53) (Zpos p) ltac:(lia)) as Hq.
    pose proof (Z_mod_mult (2 ^ 53) (Zpos p)) as Hr.
    rewrite (Z.mul_comm (2 ^ 53)) in Hq, Hr.
    unfold Z.div in Hq. unfold Z.modulo in Hr.
    destruct (Z.div_eucl (Zpos p * 2 ^ 53) (Zpos p)) as [q r].
    cbn [fst snd] in *. subst q r.
    unfold new_location, new_location_even, new_location_odd.
    change (0 =? 0)%Z with true.
    destruct (Z.even (Zpos p)); vm_compute; reflexivity. }
  rewrite Hdiv. vm_compute. reflexivity.
Qed.

Lemma curr_perc_none total : (0 < total)%Z -> curr_perc 0 total = Ok 0%Z.
Proof.
  intros Ht. unfold curr_perc, Py.truediv.
  replace (total =? 0)%Z with false by lia.
  destruct total as [|t|t]; try lia. reflexivity.
Qed.

(** A bar that does not announce leaves everything as it is. *)
Lemma Update_off pb n (st : State World) :
  announce pb = false ->
  ((10 < total pb)%Z -> _total_div10 pb <> 0%Z) ->
  Update pb n st = (Ok pb, st).
Proof.
  intros Hoff Hdiv. unfold Update, bind, lift, ret, Py.floordiv.
  rewrite Hoff. destruct (total pb >? 10)%Z eqn:Hbig; [|reflexivity].
  destruct (Z.eqb_spec (_total_div10 pb) 0) as [H0|_]; [|reflexivity].
  exfalso. apply Hdiv; [lia|exact H0].
Qed.

Lemma Update_each_off pb ns (st : State World) :
  announce pb = false ->
  ((10 < total pb)%Z -> _total_div10 pb <> 0%Z) ->
  Update_each pb ns st = (Ok pb, st).
Proof.
  intros Hoff Hdiv. induction ns as [|n ns IH]; [reflexivity|].
  cbn [Update_each]. unfold bind. now rewrite Update_off.
Qed.

Lemma tenth_nonzero T : (10 < T)%Z -> (T / 10)%Z <> 0%Z.
Proof.
  intros H. assert (1 <= T / 10)%Z by (apply Z.div_le_lower_bound; lia). lia.
Qed.

(** X4: a [ProgressBar] whose total is below its threshold never prints:
    neither its constructor nor any sequence of calls of [Update], whatever
    their arguments, prints or raises, and the bar stays as it was built. *)
Theorem ProgressBar_below_threshold_is_silent (total threshold : Z)
  (ns : list Z) (st : State World) :
  (total < threshold)%Z ->
  (let* pb := ProgressBar_init total threshold in Update_each pb ns) st
  = (Ok {| total := total; _total_div10 := (total / 10)%Z; announce := false;
           _last_announce_decile := (-1)%Z |}, st).
Proof.
  intros Hlt. unfold ProgressBar_init, bind.
  replace (total >=? threshold)%Z with false by lia.
  rewrite Update_off; [|reflexivity|exact (tenth_nonzero total)].
  apply Update_each_off; [reflexivity|exact (tenth_nonzero total)].
Qed.

(** X5: a [ProgressBar] that announces and whose total is at most 10 cannot
    be built: [current_decile] stays [None], the constructor's [Update(0)]
    prints the count [0] and then raises TypeError on comparing [None] with
    the last announced decile. *)
Theorem ProgressBar_small_total_raises (T threshold : Z)
  (st : State World) :
  (T <= 10)%Z -> (threshold <= T)%Z ->
  ProgressBar_init T threshold st
  = (Raise TypeError,
     {| world := world st;
        stdout := (stdout st ++ [{| print_args := [VFormat " %d" [VInt 0]];
                                    print_end := " " |}])%list |}).
Proof.
  intros Hsmall Hth. unfold ProgressBar_init, Update, bind, ret, print, raise.
  cbn [total _total_div10 announce _last_announce_decile].
  replace (T >? 10)%Z with false by lia.
  replace (T >=? threshold)%Z with true by lia.
  reflexivity.
Qed.

(** X6: on a bar that announces, calling [Update] again with the same [n]
    below the total prints nothing and changes nothing, whereas every call
    of [Update(total)] prints the announcement of 100% anew. *)
Theorem Update_repeated (pb : ProgressBar) (n : Z) (st : State World) :
  announce pb = true -> (10 < total pb)%Z ->
  _total_div10 pb = (total pb / 10)%Z -> (0 <= n <= total pb)%Z ->
  exists pb1 st1,
    Update pb n st = (Ok pb1, st1)
    /\ ((n < total pb)%Z -> Update pb1 n st1 = (Ok pb1, st1))
    /\ (n = total pb ->
        stdout st1 = (stdout st ++ [percent 100])%list
        /\ stdout (snd (Update pb1 n st1))
           = (stdout st1 ++ [percent 100])%list).
Proof.
  intros Hann Hbig Hdiv Hn.
  destruct (Update_announces pb n st Hann Hbig Hdiv Hn) as (p & Hp & Hrun).
  destruct ((n / _total_div10 pb >? _last_announce_decile pb)
            || (n =? total pb))%Z eqn:Hcross.
  - set (pb1 := set_last_announce_decile pb (n / _total_div10 pb)) in *.
    eexists pb1, _. split; [exact Hrun|].
    destruct (Update_announces pb1 n
                {| world := world st; stdout := (stdout st ++ [percent p])%list |}
                Hann Hbig Hdiv Hn) as (p' & Hp' & Hrun').
    split.
    + intros Hlt. rewrite Hrun'.
      change (_total_div10 pb1) with (_total_div10 pb).
      change (_last_announce_decile pb1) with (n / _total_div10 pb)%Z.
      change (total pb1) with (total pb).
      replace (n / _total_div10 pb >? n / _total_div10 pb)%Z with false by lia.
      replace (n =? total pb)%Z with false by lia. reflexivity.
    + intros ->. change (total pb1) with (total pb) in Hp'.
      rewrite (curr_perc_full (total pb)) in Hp, Hp' by lia.
      injection Hp as <-. injection Hp' as <-.
      split; [reflexivity|]. rewrite Hrun'.
      change (total pb1) with (total pb). rewrite Z.eqb_refl, orb_true_r.
      reflexivity.
  - exists pb, st. split; [exact Hrun|]. split.
    + intros _.
      destruct (Update_announces pb n st Hann Hbig Hdiv Hn) as (p' & _ & ->).
      now rewrite Hcross.
    + intros ->. rewrite Z.eqb_refl, orb_true_r in Hcross. discriminate.
Qed.

(** ** What a status batch returns, whatever it is answered *)

Lemma count_rest_list v c f cached L pending (st : State World)
  c' cached' L' pending' st' :
  count_rest v c f cached L pending st = (Ok (c', cached', L', pending'), st') ->
  (cached' = (cached + 1)%Z /\ L' = (L ++ [f])%list)
  \/ (cached' = cached /\ L' = L).
Proof.
  unfold count_rest. destruct c as [h|]; [|discriminate].
  intros H. invert_run H. unfold ret in H. injection H as _ <- <- _ _.
  destruct a0; auto.
Qed.

Lemma count_pnfs_list v f cached L (st : State World) cached' L' st' :
  count_pnfs v f cached L st = (Ok (cached', L'), st') ->
  (cached' = (cached + 1)%Z /\ L' = (L ++ [f])%list)
  \/ (cached' = cached /\ L' = L).
Proof.
  unfold count_pnfs. intros H. invert_run H.
  unfold ret in H. injection H as <- <- _. destruct a; auto.
Qed.

Lemma cache_count_loop_list v METHOD files :
  forall c pb cached L pending n (st : State World)
         pb' cached' pending' n' L' st',
    cache_count_loop v METHOD files c pb cached L pending n st
    = (Ok (pb', (cached', pending', n', L')), st') ->
    exists K, L' = (L ++ K)%list /\ sublist K files
              /\ cached' = (cached + Z.of_nat (length K))%Z.
Proof.
  induction files as [|f files IH]; intros c pb cached L pending n st
    pb' cached' pending' n' L' st' H.
  - cbn in H. injection H as _ <- _ _ <- _. exists [].
    rewrite app_nil_r. repeat split; [constructor|cbn; lia].
  - cbn [cache_count_loop] in H.
    apply run_bind_Ok in H as ([[[c1 cached1] L1] pending1] & st1 & Hstep & H).
    apply run_bind_Ok in H as (pb1 & st2 & _ & H).
    apply IH in H as (K & -> & Hsub & ->).
    assert ((cached1 = (cached + 1)%Z /\ L1 = (L ++ [f])%list)
            \/ (cached1 = cached /\ L1 = L)) as [[-> ->]|[-> ->]].
    { destruct (String.eqb METHOD "rest").
      - exact (count_rest_list _ _ _ _ _ _ _ _ _ _ _ _ Hstep).
      - destruct (String.eqb METHOD "pnfs").
        + apply run_bind_Ok in Hstep as ([cached2 L2] & st3 & Hpnfs & Hret).
          unfold ret in Hret. cbn [fst snd] in Hret.
          injection Hret as _ <- <- _ _.
          exact (count_pnfs_list _ _ _ _ _ _ _ _ Hpnfs).
        + unfold ret in Hstep. injection Hstep as _ <- <- _ _. auto. }
    + exists (f :: K). rewrite <- app_assoc. cbn [app length].
      repeat split; [now constructor|lia].
    + exists K. repeat split. now constructor.
Qed.

(** X7: whatever the backend answers, a tally that [FilelistCacheCount]
    returns is consistent: the list of cached files is a sub-list of the
    input, in the order of the input; [cached] is its length; the total is
    the number of files; and the pending count lies between 0 and the total
    on the REST method and is -1 on the pnfs method. *)
Theorem FilelistCacheCount_returns_sublist (files : list string) (v : bool)
  (METHOD : string) (st st' : State World) (cached pending n : Z)
  (L : list string) :
  FilelistCacheCount files v METHOD st = (Ok (cached, pending, n, L), st') ->
  sublist L files
  /\ cached = Z.of_nat (length L)
  /\ n = Z.of_nat (length files)
  /\ ((METHOD = "rest" /\ (0 <= pending <= n)%Z)
      \/ (METHOD = "pnfs" /\ pending = (-1)%Z)).
Proof.
  unfold FilelistCacheCount. intros H.
  apply run_bind_Ok in H as (? & st1 & Hassert & H).
  apply run_bind_Ok in H as (? & st2 & _ & H).
  apply run_bind_Ok in H as (pb & st3 & _ & H).
  apply run_bind_Ok in H as ([pb' [[[cached1 pending1] n1] L1]] & st4 & Hloop & H).
  apply run_bind_Ok in H as (? & st5 & _ & H).
  unfold ret in H. injection H as <- <- <- <- _.
  pose proof Hloop as Hb.
  apply cache_count_loop_bounds in Hb as (_ & Hp & ->).
  apply cache_count_loop_list in Hloop as (K & -> & Hsub & ->).
  change ([] ++ K)%list with K.
  split; [exact Hsub|]. split; [lia|]. split; [lia|].
  destruct (String.eqb_spec METHOD "pnfs") as [->|Hpnfs]; [now right|].
  left. split; [|lia].
  destruct (String.eqb_spec METHOD "rest") as [->|Hrest]; [reflexivity|].
  discriminate Hassert.
Qed.

(** ** A batch below the threshold of the bar prints its first line only *)

Lemma get_file_qos_silent c f : silent (get_file_qos c f).
Proof.
  unfold get_file_qos.
  apply silent_bind; [apply silent_on_world|]. intros body.
  apply silent_bind; [apply silent_lift|]. intros j.
  apply silent_bind; [apply silent_lift|]. intros fields. apply silent_ret.
Qed.

Lemma count_rest_silent c f cached L pending :
  silent (count_rest false c f cached L pending).
Proof.
  unfold count_rest. destruct c as [h|]; [|apply silent_raise].
  apply silent_bind; [apply get_file_qos_silent|]. intros r.
  apply silent_bind; [apply silent_lift|]. intros online.
  apply silent_bind; [apply silent_lift|]. intros disk.
  apply silent_bind; [apply silent_ret|]. intros _. apply silent_ret.
Qed.

Lemma count_pnfs_silent f cached L : silent (count_pnfs false f cached L).
Proof.
  unfold count_pnfs, is_file_online_pnfs.
  apply silent_bind.
  { apply silent_bind; [apply silent_on_world|]. intros s. apply silent_ret. }
  intros b. apply silent_bind; [apply silent_ret|]. intros _. apply silent_ret.
Qed.

Lemma cache_count_loop_off METHOD files :
  forall c p cached L pending n (st : State World),
    announce p = false ->
    ((10 < total p)%Z -> _total_div10 p <> 0%Z) ->
    let run := cache_count_loop false METHOD files c (Some p)
                 cached L pending n st in
    stdout (snd run) = stdout st
    /\ forall pb' r, fst run = Ok (pb', r) -> pb' = Some p.
Proof.
  induction files as [|f files IH]; intros c p cached L pending n st Hoff Hdiv.
  - split; [reflexivity|]. cbn. intros pb' r H. now injection H as <- _.
  - cbn [cache_count_loop]. cbv zeta.
    match goal with
    | |- context [bind ?m _] => set (step := m)
    end.
    assert (Hstep : silent step).
    { unfold step.
      destruct (String.eqb METHOD "rest"); [apply count_rest_silent|].
      destruct (String.eqb METHOD "pnfs"); [|apply silent_ret].
      apply silent_bind; [apply count_pnfs_silent|]. intros r. apply silent_ret. }
    specialize (Hstep st). unfold bind at 1. unfold bind at 2.
    destruct (step st) as [[[[[c1 cached1] L1] pending1]|e] st1];
      cbn [snd] in Hstep.
    + unfold progress, bind. rewrite (Update_off p _ _ Hoff Hdiv).
      unfold ret. rewrite <- Hstep. apply IH; assumption.
    + cbn [fst snd]. split; [exact Hstep|discriminate].
Qed.

(** X8: without [-v], a batch of fewer than 50 files prints nothing but its
    first line, [Checking n files:] (and not even that for one file or
    none), whatever the backend answers and whether the batch returns or
    raises. *)
Theorem FilelistCacheCount_quiet_below_threshold (files : list string)
  (METHOD : string) (st : State World) :
  (length files < 50)%nat ->
  METHOD = "rest" \/ METHOD = "pnfs" ->
  stdout (snd (FilelistCacheCount files false METHOD st))
  = (stdout st ++ checking_header files)%list.
Proof.
  intros Hlen HM. unfold FilelistCacheCount.
  replace (String.eqb METHOD "rest" || String.eqb METHOD "pnfs") with true
    by (destruct HM as [->| ->]; reflexivity).
  set (T := Z.of_nat (length files)).
  set (p := {| total := T; _total_div10 := (T / 10)%Z;
               announce := (T >=? default_announce_threshold)%Z;
               _last_announce_decile := (-1)%Z |}).
  assert (Hoff : announce p = false).
  { unfold p, default_announce_threshold. cbn [announce]. lia. }
  assert (Hdiv : (10 < total p)%Z -> _total_div10 p <> 0%Z)
    by exact (tenth_nonzero T).
  set (after := {| world := world st;
                   stdout := (stdout st ++ checking_header files)%list |}).
  assert (Hhead :
    (if (T >? 1)%Z
     then print [VFormat "Checking %d files:" [VInt T]] Py.line_feed
     else ret tt) st = (Ok tt, after)).
  { unfold after, checking_header. fold T. destruct (T >? 1)%Z.
    - reflexivity.
    - unfold ret. rewrite app_nil_r. now destruct st. }
  unfold bind at 1. unfold ret at 1. unfold bind at 1. rewrite Hhead.
  unfold bind at 1. unfold bind at 1. unfold ProgressBar_init. fold p.
  rewrite (Update_off p _ _ Hoff Hdiv). unfold ret at 1. unfold bind at 1.
  destruct (cache_count_loop_off METHOD files
              (if String.eqb METHOD "rest" then Some make_curl else None)
              p 0%Z [] 0%Z 0%Z after Hoff Hdiv) as [Hout Hbar].
  destruct (cache_count_loop false METHOD files _ (Some p) 0%Z [] 0%Z 0%Z after)
    as [[[pb' [[[cached pending] n] L]]|e] st1]; cbn [fst snd] in Hout, Hbar |- *;
    [|exact Hout].
  rewrite (Hbar pb' _ eq_refl). unfold bind.
  rewrite (Update_off p _ _ Hoff Hdiv). exact Hout.
Qed.

(** ** The lines of a verbose batch *)

Lemma runs_silent_prints {A : Type} (m : M World A) w r w' :
  runs m w r w' -> silent m -> prints m w r w' [].
Proof.
  intros Hr Hs out. destruct (Hr out) as [out' E].
  specialize (Hs {| world := w; stdout := out |}). rewrite E in Hs.
  cbn [snd stdout] in Hs. subst out'. now rewrite app_nil_r.
Qed.

Lemma get_file_qos_prints c f w :
  prints (get_file_qos c f) w
    (match fst (qos_reply c f w) with
     | Ok fields => Ok (qos_handle c f, fields)
     | Raise e => Raise e
     end)
    (snd (qos_reply c f w)) [].
Proof.
  apply runs_silent_prints;
    [apply get_file_qos_runs|apply get_file_qos_silent].
Qed.

Lemma count_rest_verbose c f cached L pending w a b :
  fst (qos_reply c f w) = Ok (JStr a, JStr b) ->
  prints (count_rest true (Some c) f cached L pending) w
    (Ok (Some (qos_handle c f),
         if Py.contains "ONLINE" a then (cached + 1)%Z else cached,
         if Py.contains "ONLINE" a then (L ++ [f])%list else L,
         if Py.contains "disk" b then (pending + 1)%Z else pending))
    (snd (qos_reply c f w)) [verbose_rest_line f (a, b)].
Proof.
  intros Hr. unfold count_rest.
  pose proof (get_file_qos_prints c f w) as Hq. rewrite Hr in Hq.
  eapply prints_eq.
  - eapply prints_bind; [exact Hq|]. cbn [fst snd Py.json_contains].
    eapply prints_bind; [apply prints_lift|].
    eapply prints_bind; [apply prints_lift|].
    eapply prints_bind; [apply prints_print|apply prints_ret].
  - reflexivity.
Qed.

Lemma rest_loop_verbose files :
  forall c pb cached L pending n w (answers : list (string * string)),
    fst (qos_replies c files w)
    = map (fun a => Ok (JStr (fst a), JStr (snd a))) answers ->
    exists r,
      prints (cache_count_loop true "rest" files (Some c) pb cached L pending n)
        w (Ok r) (snd (qos_replies c files w))
        (zip_with verbose_rest_line files answers).
Proof.
  induction files as [|f files IH]; intros c pb cached L pending n w answers Hans.
  - eexists. destruct answers; apply prints_ret.
  - cbn [qos_replies] in *.
    pose proof (count_rest_verbose c f cached L pending w) as Hstep.
    destruct (qos_reply c f w) as [r w1].
    destruct (qos_replies (qos_handle c f) files w1) as [rs w2] eqn:Hrs.
    cbn [fst snd] in *.
    destruct answers as [|[a b] answers]; [discriminate|].
    cbn [map fst snd] in Hans. injection Hans as -> Hans.
    specialize (Hstep a b eq_refl).
    edestruct (IH (qos_handle c f) pb) as [r Hloop].
    { rewrite Hrs. exact Hans. }
    rewrite Hrs in Hloop. cbn [snd] in Hloop.
    exists r. cbn [cache_count_loop zip_with].
    change (String.eqb "rest" "rest") with true. cbv iota.
    eapply prints_eq.
    + eapply prints_bind; [exact Hstep|]. cbv beta iota.
      eapply prints_bind; [apply prints_ret|]. exact Hloop.
    + reflexivity.
Qed.

Lemma count_pnfs_verbose f cached L w line :
  fst (open_readline (stat_file f) w) = Ok line ->
  prints (count_pnfs true f cached L) w
    (Ok (if online_line line then (cached + 1)%Z else cached,
         if online_line line then (L ++ [f])%list else L))
    (snd (open_readline (stat_file f) w)) [verbose_pnfs_line f line].
Proof.
  intros Hr. unfold count_pnfs, is_file_online_pnfs.
  pose proof (prints_on_world (open_readline (stat_file f)) w) as Hopen.
  rewrite Hr in Hopen.
  eapply prints_eq.
  - eapply prints_bind.
    { eapply prints_bind; [exact Hopen|apply prints_ret]. }
    eapply prints_bind; [apply prints_print|apply prints_ret].
  - reflexivity.
Qed.

Lemma pnfs_loop_verbose files :
  forall pb cached L pending n w (lines : list string),
    fst (pnfs_lines files w) = map Ok lines ->
    exists r,
      prints (cache_count_loop true "pnfs" files None pb cached L pending n)
        w (Ok r) (snd (pnfs_lines files w))
        (zip_with verbose_pnfs_line files lines).
Proof.
  induction files as [|f files IH]; intros pb cached L pending n w lines Hl.
  - eexists. destruct lines; apply prints_ret.
  - cbn [pnfs_lines] in *.
    pose proof (count_pnfs_verbose f cached L w) as Hstep.
    destruct (open_readline (stat_file f) w) as [r w1].
    destruct (pnfs_lines files w1) as [rs w2] eqn:Hrs.
    cbn [fst snd] in *.
    destruct lines as [|line lines]; [discriminate|].
    cbn [map] in Hl. injection Hl as -> Hl.
    specialize (Hstep line eq_refl).
    edestruct (IH pb) as [r Hloop].
    { rewrite Hrs. exact Hl. }
    rewrite Hrs in Hloop. cbn [snd] in Hloop.
    exists r. cbn [cache_count_loop zip_with].
    change (String.eqb "pnfs" "rest") with false.
    change (String.eqb "pnfs" "pnfs") with true. cbv iota.
    eapply prints_eq.
    + eapply prints_bind.
      { eapply prints_bind; [exact Hstep|apply prints_ret]. }
      cbv beta iota.
      eapply prints_bind; [apply prints_ret|]. exact Hloop.
    + reflexivity.
Qed.

Lemma checking_header_prints (files : list string) w :
  prints (if (Z.of_nat (length files) >? 1)%Z
          then print [VFormat "Checking %d files:"
                        [VInt (Z.of_nat (length files))]] Py.line_feed
          else ret tt) w (Ok tt) w (checking_header files).
Proof.
  unfold checking_header.
  destruct (_ >? _)%Z; [apply prints_print|apply prints_ret].
Qed.

(** X9: with [-v], a batch whose files are all answered prints its first
    line (for more than one file) and then exactly one line for each file,
    in the order of the input and with no progress bar in between: on the
    REST method the file, its locality and [pending] when its target is not
    empty; on the pnfs method the file and [ONLINE] or [NEARLINE]. *)
Theorem FilelistCacheCount_verbose_lines (files : list string)
  (st : State World) :
  (forall answers : list (string * string),
      fst (qos_replies make_curl files (world st))
      = map (fun a => Ok (JStr (fst a), JStr (snd a))) answers ->
      exists r,
        FilelistCacheCount files true "rest" st
        = (Ok r,
           {| world := snd (qos_replies make_curl files (world st));
              stdout := (stdout st ++ checking_header files
                           ++ zip_with verbose_rest_line files answers)%list |}))
  /\ (forall lines : list string,
         fst (pnfs_lines files (world st)) = map Ok lines ->
         exists r,
           FilelistCacheCount files true "pnfs" st
           = (Ok r,
              {| world := snd (pnfs_lines files (world st));
                 stdout := (stdout st ++ checking_header files
                              ++ zip_with verbose_pnfs_line files lines)%list |})).
Proof.
  split.
  - intros answers Hans.
    destruct (rest_loop_verbose files make_curl None 0%Z [] 0%Z 0%Z (world st)
                answers Hans) as [[pb [[[cached pending] n] L]] Hloop].
    eexists. apply prints_at. unfold FilelistCacheCount.
    change (String.eqb "rest" "rest") with true.
    change (String.eqb "rest" "pnfs") with false. cbv iota. cbn [orb].
    eapply prints_eq.
    + eapply prints_bind; [apply prints_ret|].
      eapply prints_bind; [apply checking_header_prints|].
      eapply prints_bind; [apply prints_ret|].
      eapply prints_bind; [exact Hloop|]. cbv beta iota.
      eapply prints_bind; [apply prints_ret|apply prints_ret].
    + cbn [app]. now rewrite !app_nil_r.
  - intros lines Hl.
    destruct (pnfs_loop_verbose files None 0%Z [] 0%Z 0%Z (world st)
                lines Hl) as [[pb [[[cached pending] n] L]] Hloop].
    eexists. apply prints_at. unfold FilelistCacheCount.
    change (String.eqb "pnfs" "rest") with false.
    change (String.eqb "pnfs" "pnfs") with true. cbv iota. cbn [orb].
    eapply prints_eq.
    + eapply prints_bind; [apply prints_ret|].
      eapply prints_bind; [apply checking_header_prints|].
      eapply prints_bind; [apply prints_ret|].
      eapply prints_bind; [exact Hloop|]. cbv beta iota.
      eapply prints_bind; [apply prints_ret|apply prints_ret].
    + cbn [app]. now rewrite !app_nil_r.
Qed.

(** ** A batch that shows the bar ends with 100% twice *)

Lemma Update_prints T pb n w :
  bar_for T pb -> (50 <= T)%Z -> (0 <= n <= T)%Z ->
  exists pb' lines,
    prints (Update pb n) w (Ok pb') w lines
    /\ bar_for T pb'
    /\ (n = T -> lines = [percent 100]).
Proof.
  intros Hbar HT Hn. pose proof Hbar as (Htot & Hdiv & Hann).
  unfold default_announce_threshold in Hann.
  assert (Hon : announce pb = true) by (rewrite Hann; lia).
  rewrite <- Htot in Hn, Hdiv.
  destruct (curr_perc_ok n (total pb) Hn ltac:(lia)) as [p Hp].
  destruct ((n / _total_div10 pb >? _last_announce_decile pb)
            || (n =? total pb))%Z eqn:Hcross.
  - exists (set_last_announce_decile pb (n / _total_div10 pb)), [percent p].
    repeat split; try apply Hbar.
    + intros out.
      destruct (Update_announces pb n {| world := w; stdout := out |}
                  Hon ltac:(lia) Hdiv Hn) as (p' & Hp' & ->).
      rewrite Hcross. cbn [world stdout].
      replace p' with p by congruence. reflexivity.
    + intros ->. rewrite Htot, curr_perc_full in Hp by lia. congruence.
  - exists pb, []. repeat split; try apply Hbar.
    + intros out.
      destruct (Update_announces pb n {| world := w; stdout := out |}
                  Hon ltac:(lia) Hdiv Hn) as (p' & Hp' & ->).
      rewrite Hcross, app_nil_r. reflexivity.
    + intros ->. rewrite <- Htot, Z.eqb_refl, orb_true_r in Hcross.
      discriminate.
Qed.

Lemma ProgressBar_init_prints T w :
  (50 <= T)%Z ->
  exists pb,
    prints (ProgressBar_init T default_announce_threshold) w (Ok pb) w
      [percent 0]
    /\ bar_for T pb.
Proof.
  intros HT. unfold ProgressBar_init.
  set (pb := {| total := T; _total_div10 := (T / 10)%Z;
                announce := (T >=? default_announce_threshold)%Z;
                _last_announce_decile := (-1)%Z |}).
  assert (Hon : announce pb = true).
  { unfold pb, default_announce_threshold. cbn [announce]. lia. }
  exists (set_last_announce_decile pb (0 / _total_div10 pb)).
  split; [|repeat split].
  intros out.
  destruct (Update_announces pb 0 {| world := w; stdout := out |}
              Hon ltac:(cbn; lia) eq_refl ltac:(cbn; lia)) as (p & Hp & ->).
  change (total pb) with T in Hp. rewrite curr_perc_none in Hp by lia.
  injection Hp as <-. reflexivity.
Qed.

Lemma count_rest_quiet c f cached L pending w :
  prints (count_rest false (Some c) f cached L pending) w
    (match outcome (fst (qos_reply c f w)) with
     | Ok flags =>
         Ok (Some (qos_handle c f),
             if fst flags then (cached + 1)%Z else cached,
             if fst flags then (L ++ [f])%list else L,
             if snd flags then (pending + 1)%Z else pending)
     | Raise e => Raise e
     end)
    (snd (qos_reply c f w)) [].
Proof.
  apply runs_silent_prints; [apply count_rest_runs|apply count_rest_silent].
Qed.

Lemma rest_loop_ends_full T files :
  forall c pb cached L pending n w flags,
    bar_for T pb -> (50 <= T)%Z -> (0 <= n)%Z ->
    (n + Z.of_nat (length files))%Z = T -> files <> [] ->
    map outcome (fst (qos_replies c files w)) = map Ok flags ->
    exists pb' r lines,
      prints (cache_count_loop false "rest" files (Some c) (Some pb)
                cached L pending n)
        w (Ok (Some pb', r)) (snd (qos_replies c files w))
        (lines ++ [percent 100])%list
      /\ bar_for T pb'.
Proof.
  induction files as [|f files IH]; intros c pb cached L pending n w flags
    Hbar HT Hn Hlen Hne Hflags; [contradiction|].
  cbn [qos_replies] in *.
  pose proof (count_rest_quiet c f cached L pending w) as Hstep.
  destruct (qos_reply c f w) as [r w1].
  destruct (qos_replies (qos_handle c f) files w1) as [rs w2] eqn:Hrs.
  cbn [fst snd map] in *.
  destruct flags as [|fl flags]; [discriminate|].
  cbn [map] in Hflags. injection Hflags as Hr Hflags.
  rewrite Hr in Hstep.
  cbn [length] in Hlen. rewrite Nat2Z.inj_succ in Hlen.
  destruct (Update_prints T pb (n + 1)%Z w1 Hbar HT ltac:(lia))
    as (pb1 & lines1 & Hprog & Hbar1 & Hfull).
  cbn [cache_count_loop].
  change (String.eqb "rest" "rest") with true. cbv iota.
  destruct files as [|f2 files].
  - cbn [qos_replies] in Hrs. injection Hrs as <- <-.
    rewrite Hfull in Hprog by (cbn [length] in Hlen; lia).
    eexists pb1, _, []. split; [|exact Hbar1].
    eapply prints_eq.
    + eapply prints_bind; [exact Hstep|]. cbv beta iota.
      eapply prints_bind.
      { unfold progress. eapply prints_bind; [exact Hprog|apply prints_ret]. }
      apply prints_ret.
    + reflexivity.
  - edestruct (IH (qos_handle c f) pb1) as (pb' & r' & lines & Hloop & Hbar');
      [exact Hbar1|exact HT| |
       |discriminate|rewrite Hrs; exact Hflags|].
    { instantiate (1 := (n + 1)%Z). lia. }
    { lia. }
    rewrite Hrs in Hloop. cbn [snd] in Hloop.
    eexists pb', _, (lines1 ++ lines)%list. split; [|exact Hbar'].
    eapply prints_eq.
    + eapply prints_bind; [exact Hstep|]. cbv beta iota.
      eapply prints_bind.
      { unfold progress. eapply prints_bind; [exact Hprog|apply prints_ret]. }
      exact Hloop.
    + cbn [app]. now rewrite app_nil_r, app_assoc.
Qed.

(** X10: without [-v], on the REST method, every batch of 50 files or more
    whose answers can all be classified returns, and what it prints is its
    first line, the announcement of 0%, the announcements of the loop, and
    at the end the announcement of 100% twice in a row: once for the last
    file and once more after the loop. *)
Theorem FilelistCacheCount_large_batch_ends_with_100_twice
  (files : list string) (st : State World) (flags : list (bool * bool)) :
  (50 <= length files)%nat ->
  map outcome (fst (qos_replies make_curl files (world st))) = map Ok flags ->
  exists r lines,
    FilelistCacheCount files false "rest" st
    = (Ok r,
       {| world := snd (qos_replies make_curl files (world st));
          stdout := (stdout st ++ checking_header files
                       ++ percent 0 :: lines
                       ++ [percent 100; percent 100])%list |}).
Proof.
  intros Hlen Hflags.
  set (T := Z.of_nat (length files)).
  assert (HT : (50 <= T)%Z) by (unfold T; lia).
  destruct (ProgressBar_init_prints T (world st) HT) as (pb & Hinit & Hbar).
  destruct (rest_loop_ends_full T files make_curl pb 0%Z [] 0%Z 0%Z (world st)
              flags Hbar HT ltac:(lia) ltac:(unfold T; lia))
    as (pb' & [[[cached pending] n] L] & lines & Hloop & Hbar');
    [intros ->; cbn in Hlen; lia|exact Hflags|].
  destruct (Update_prints T pb' T
              (snd (qos_replies make_curl files (world st))) Hbar' HT
              ltac:(lia)) as (pb2 & last & Hlast & _ & Hfull).
  rewrite (Hfull eq_refl) in Hlast.
  assert (Htot : total pb' = T) by apply Hbar'.
  eexists _, lines. apply prints_at. unfold FilelistCacheCount.
  change (String.eqb "rest" "rest") with true.
  change (String.eqb "rest" "pnfs") with false. cbv iota. cbn [orb].
  eapply prints_eq.
  - eapply prints_bind; [apply prints_ret|].
    eapply prints_bind; [apply checking_header_prints|].
    eapply prints_bind.
    { eapply prints_bind; [exact Hinit|apply prints_ret]. }
    eapply prints_bind; [exact Hloop|]. cbv beta iota.
    eapply prints_bind.
    { rewrite Htot. eapply prints_bind; [exact Hlast|apply prints_ret]. }
    apply prints_ret.
  - cbn [app]. rewrite ?app_nil_r, <- ?app_assoc. reflexivity.
Qed.

(** ** The prestage batch *)

Lemma request_prestage_prints c f w :
  prints (request_prestage c f) w
    (match fst (prestage_reply c f w) with
     | Ok success => Ok (prestage_handle c f, success)
     | Raise e => Raise e
     end)
    (snd (prestage_reply c f w)) [].
Proof.
  intros out. unfold request_prestage, prestage_reply, bind, on_world, lift, ret.
  fold (prestage_handle c f). cbn [world stdout]. rewrite app_nil_r.
  destruct (perform (prestage_handle c f) w) as [[body|e] w1]; cbn [fst snd];
    [|reflexivity].
  destruct (json_loads body) as [j|e]; [|reflexivity].
  destruct (status_is_success j); reflexivity.
Qed.

Lemma prestage_loop_prints v files :
  forall c n w flags,
    fst (prestage_replies c files w) = map Ok flags ->
    prints (prestage_loop v files c n) w (Ok (n + count flags)%Z)
      (snd (prestage_replies c files w))
      (if v then zip_with verbose_prestage_line files flags else []).
Proof.
  induction files as [|f files IH]; intros c n w flags Hflags.
  - destruct flags; [|discriminate]. cbn [prestage_loop prestage_replies snd].
    unfold count. cbn [List.filter length]. rewrite Z.add_0_r.
    eapply prints_eq; [apply prints_ret|now destruct v].
  - cbn [prestage_replies] in *.
    pose proof (request_prestage_prints c f w) as Hstep.
    destruct (prestage_reply c f w) as [r w1].
    destruct (prestage_replies (prestage_handle c f) files w1) as [rs w2] eqn:Hrs.
    cbn [fst snd] in *.
    destruct flags as [|b flags]; [discriminate|].
    cbn [map] in Hflags. injection Hflags as -> Hflags.
    pose proof (IH (prestage_handle c f)
                  (if b then (n + 1)%Z else n) w1 flags) as Hloop.
    rewrite Hrs in Hloop. cbn [fst snd] in Hloop. specialize (Hloop Hflags).
    cbn [prestage_loop]. rewrite count_cons.
    replace (n + ((if b then 1 else 0) + count flags))%Z
      with ((if b then n + 1 else n) + count flags)%Z by (destruct b; lia).
    eapply prints_eq.
    + eapply prints_bind; [exact Hstep|]. cbn [fst snd].
      eapply prints_bind; [|exact Hloop].
      instantiate (1 := if v then [verbose_prestage_line f b] else []).
      destruct v; [apply prints_print|apply prints_ret].
    + destruct v; reflexivity.
Qed.

Lemma prestage_loop_raises v flags :
  forall files c n w e later,
    fst (prestage_replies c files w) = (map Ok flags ++ Raise e :: later)%list ->
    prints (prestage_loop v files c n) w (Raise e)
      (snd (prestage_replies c (take (S (length flags)) files) w))
      (if v then zip_with verbose_prestage_line files flags else []).
Proof.
  induction flags as [|b flags IH]; intros [|f files] c n w e later Hflags;
    try discriminate.
  - cbn [prestage_replies length take] in *.
    pose proof (request_prestage_prints c f w) as Hstep.
    destruct (prestage_reply c f w) as [r w1].
    destruct (prestage_replies (prestage_handle c f) files w1) as [rs w2].
    cbn [fst snd map app] in *. injection Hflags as -> _.
    cbn [prestage_loop].
    eapply prints_eq; [eapply prints_bind_raise; exact Hstep|now destruct v].
  - cbn [prestage_replies length take] in *.
    pose proof (request_prestage_prints c f w) as Hstep.
    destruct (prestage_reply c f w) as [r w1].
    destruct (prestage_replies (prestage_handle c f) files w1) as [rs w2] eqn:Hrs.
    cbn [fst snd map app] in *. injection Hflags as -> Hflags.
    pose proof (IH files (prestage_handle c f)
                  (if b then (n + 1)%Z else n) w1 e later) as Hloop.
    rewrite Hrs in Hloop. cbn [fst] in Hloop. specialize (Hloop Hflags).
    destruct (prestage_replies (prestage_handle c f)
                (take (S (length flags)) files) w1) as [rs' w3].
    cbn [snd] in *. cbn [prestage_loop].
    eapply prints_eq.
    + eapply prints_bind; [exact Hstep|]. cbn [fst snd].
      eapply prints_bind; [|exact Hloop].
      instantiate (1 := if v then [verbose_prestage_line f b] else []).
      destruct v; [apply prints_print|apply prints_ret].
    + destruct v; reflexivity.
Qed.

Lemma prestaging_header_prints (files : list string) w :
  prints (if (Z.of_nat (length files) >? 1)%Z
          then print [VFormat "Prestaging %d files:"
                        [VInt (Z.of_nat (length files))]] Py.line_feed
          else ret tt) w (Ok tt) w (prestaging_header files).
Proof.
  unfold prestaging_header.
  destruct (_ >? _)%Z; [apply prints_print|apply prints_ret].
Qed.

Lemma FilelistPrestageRequest_prints files v w flags :
  fst (prestage_replies make_curl files w) = map Ok flags ->
  prints (FilelistPrestageRequest files v) w
    (Ok (count flags, Z.of_nat (length files)))
    (snd (prestage_replies make_curl files w))
    (prestaging_header files
       ++ if v then zip_with verbose_prestage_line files flags else [])%list.
Proof.
  intros Hflags. unfold FilelistPrestageRequest.
  eapply prints_eq.
  - eapply prints_bind; [apply prestaging_header_prints|].
    eapply prints_bind; [|apply prints_ret].
    exact (prestage_loop_prints v files make_curl 0%Z w flags Hflags).
  - now rewrite app_nil_r.
Qed.

Lemma prestage_replies_length files : forall c w,
  length (fst (prestage_replies c files w)) = length files.
Proof.
  induction files as [|f files IH]; intros c w; [reflexivity|].
  cbn [prestage_replies]. destruct (prestage_reply c f w) as [r w1].
  specialize (IH (prestage_handle c f) w1).
  destruct (prestage_replies (prestage_handle c f) files w1).
  cbn [fst length] in *. now rewrite IH.
Qed.

Lemma count_le flags : (0 <= count flags <= Z.of_nat (length flags))%Z.
Proof.
  induction flags as [|b flags IH]; [unfold count; cbn; lia|].
  rewrite count_cons. cbn [length]. destruct b; lia.
Qed.

Lemma count_all flags :
  (count flags =? Z.of_nat (length flags))%Z = forallb id flags.
Proof.
  induction flags as [|b flags IH]; [reflexivity|].
  rewrite count_cons. cbn [length forallb]. rewrite Nat2Z.inj_succ.
  pose proof (count_le flags) as Hle. rewrite <- IH.
  destruct b; unfold id; cbn [andb].
  - destruct (Z.eqb_spec (count flags) (Z.of_nat (length flags))) as [->|Hne].
    + apply Z.eqb_eq. lia.
    + apply Z.eqb_neq. lia.
  - apply Z.eqb_neq. lia.
Qed.

(** X11: when every prestage request is answered with a JSON value that
    [request_prestage] can judge, [FilelistPrestageRequest] returns the
    number of requests answered with success and the number of files; it
    has made one request for each file, in order, and printed its first line
    (for more than one file) and, with [-v], one line for each file saying
    whether its request succeeded. *)
Theorem FilelistPrestageRequest_tallies (files : list string) (v : bool)
  (st : State World) (flags : list bool) :
  fst (prestage_replies make_curl files (world st)) = map Ok flags ->
  FilelistPrestageRequest files v st
  = (Ok (Z.of_nat (length (List.filter id flags)), Z.of_nat (length files)),
     {| world := snd (prestage_replies make_curl files (world st));
        stdout := (stdout st ++ prestaging_header files
                     ++ if v then zip_with verbose_prestage_line files flags
                        else [])%list |})
  /\ (length (List.filter id flags) <= length files)%nat.
Proof.
  intros Hflags. split.
  - exact (prints_at _ st _ _ _
             (FilelistPrestageRequest_prints files v (world st) flags Hflags)).
  - rewrite <- (prestage_replies_length files make_curl (world st)), Hflags.
    rewrite length_map. pose proof (count_le flags). unfold count in *. lia.
Qed.

(** X12: a prestage request whose transfer fails, or whose body is not JSON,
    ends the prestage batch: [FilelistPrestageRequest] raises the exception
    of the first such request and makes no request for the files after it;
    with [-v] the lines of the files before it have been printed. *)
Theorem FilelistPrestageRequest_raises (files : list string) (v : bool)
  (st : State World) (flags : list bool) (e : exn)
  (later : list (result bool)) :
  fst (prestage_replies make_curl files (world st))
  = (map Ok flags ++ Raise e :: later)%list ->
  FilelistPrestageRequest files v st
  = (Raise e,
     {| world := snd (prestage_replies make_curl
                        (take (S (length flags)) files) (world st));
        stdout := (stdout st ++ prestaging_header files
                     ++ if v then zip_with verbose_prestage_line files flags
                        else [])%list |}).
Proof.
  intros Hflags. apply prints_at. unfold FilelistPrestageRequest.
  eapply prints_bind; [apply prestaging_header_prints|].
  eapply prints_bind_raise.
  exact (prestage_loop_raises v flags files make_curl 0%Z (world st) e later
           Hflags).
Qed.

(** X13: in prestage mode the script exits with status 0 exactly when every
    request was answered with success, and with status 1 when at least one
    was answered otherwise; for an empty list of files it makes no request
    and exits with 0. *)
Theorem prestage_exit_status (files : list string) (v : bool)
  (method : string) (st : State World) (flags : list bool) :
  fst (prestage_replies make_curl files (world st)) = map Ok flags ->
  fst (report_and_exit true v method files st)
  = Ok (if forallb id flags then 0%Z else 1%Z)
  /\ (files = [] -> report_and_exit true v method files st = (Ok 0%Z, st)).
Proof.
  intros Hflags.
  pose proof (prints_at _ st _ _ _
                (FilelistPrestageRequest_prints files v (world st) flags Hflags))
    as Hrun.
  assert (Hlen : length files = length flags).
  { rewrite <- (prestage_replies_length files make_curl (world st)), Hflags.
    now rewrite length_map. }
  split.
  - unfold report_and_exit, bind. rewrite Hrun. cbn [fst].
    now rewrite Hlen, count_all.
  - intros ->. unfold report_and_exit, bind, FilelistPrestageRequest, bind, ret.
    cbn. now destruct st.
Qed.

(** ** The report *)

Section Report_floats.
#[local] Open Scope Z_scope.

Lemma digits2_pos_iter p k :
  digits2_pos (Pos.iter xO p k) = (digits2_pos p + k)%positive.
Proof.
  induction k as [|k IH] using Pos.peano_ind.
  - cbn. now rewrite Pos.add_1_r.
  - rewrite Pos.iter_succ. cbn [digits2_pos]. rewrite IH.
    now rewrite Pos.add_succ_r.
Qed.

(** A mantissa of exactly 53 digits is not rounded. *)
Lemma binary_round_aux_exact s m e :
  digits2_pos m = 53%positive -> -1074 <= e <= 971 ->
  binary_round_aux Py.prec Py.emax s (Zpos m) e loc_Exact = S754_finite s m e.
Proof.
  intros Hd He. unfold binary_round_aux, shr_fexp. cbn [Zdigits2].
  rewrite Hd.
  assert (Hf : fexp Py.prec Py.emax (53 + e) - e = 0).
  { unfold fexp, SpecFloat.emin, Py.prec, Py.emax. lia. }
  rewrite Hf. cbn [shr shr_record_of_loc shr_m loc_of_shr_record
                   round_nearest_even Zdigits2].
  rewrite Hd, Hf. cbn [shr shr_record_of_loc shr_m].
  unfold Py.prec, Py.emax. now replace (e <=? 1024 - 53) with true by lia.
Qed.

(** An integer below [2 ^ 53] is a float: its mantissa is the integer
    shifted to 53 digits. *)
Lemma nearest_small p :
  Zpos p < 2 ^ 53 ->
  exists m,
    Py.nearest (Zpos p) = S754_finite false m (Zpos (digits2_pos p) - 53).
Proof.
  intros Hp. unfold Py.nearest, binary_normalize, binary_round, shl_align.
  pose proof (digits2_pos_bounds p) as [Hlo Hhi].
  set (d := Zpos (digits2_pos p)) in *.
  assert (Hd : 1 <= d <= 53).
  { split; [subst d; lia|].
    assert (Hpow : 2 ^ (d - 1) < 2 ^ 53) by lia.
    apply Z.pow_lt_mono_r_iff in Hpow; lia. }
  assert (Hf : fexp Py.prec Py.emax (d + 0) = d - 53).
  { unfold fexp, SpecFloat.emin, Py.prec, Py.emax. lia. }
  rewrite Hf.
  destruct (d - 53 - 0) as [|k|k] eqn:Hk; try lia.
  - exists p. replace (d - 53) with 0 by lia.
    apply binary_round_aux_exact; [|lia].
    apply Pos2Z.inj. fold d. lia.
  - exists (Pos.iter xO p k).
    apply binary_round_aux_exact; [|lia].
    rewrite digits2_pos_iter. apply Pos2Z.inj.
    rewrite Pos2Z.inj_add. fold d. lia.
Qed.

Lemma SFdiv_same s m e :
  SFdiv Py.prec Py.emax (S754_finite s m e) (S754_finite s m e)
  = S754_finite false 4503599627370496 (-52).
Proof.
  unfold SFdiv, SFdiv_core_binary.
  replace (Zdigits2 (Zpos m) + e - (Zdigits2 (Zpos m) + e)) with 0 by lia.
  replace (e - e) with 0 by lia.
  change (Z.min (fexp Py.prec Py.emax 0) 0) with (-53).
  change (0 - -53) with 53. cbv iota.
  rewrite Z.shiftl_mul_pow2 by lia.
  pose proof (Z_div_mult_full (2 ^ 53) (Zpos m) ltac:(lia)) as Hq.
  pose proof (Z_mod_mult (2 ^ 53) (Zpos m)) as Hr.
  rewrite (Z.mul_comm (2 ^ 53)) in Hq, Hr.
  unfold Z.div in Hq. unfold Z.modulo in Hr.
  destruct (Z.div_eucl (Zpos m * 2 ^ 53) (Zpos m)) as [q r].
  cbn [fst snd] in *. subst q r.
  unfold new_location, new_location_even, new_location_odd.
  change (0 =? 0) with true.
  destruct (Z.even (Zpos m)), s; vm_compute; reflexivity.
Qed.

(** Everything counted out of itself is 100 per cent, nothing out of
    anything is 0 per cent. *)
Lemma rounded_percent_all total :
  0 < total < 2 ^ 53 ->
  rounded_percent total (Py.nearest total) = Ok 100
  /\ rounded_percent 0 (Py.nearest total) = Ok 0.
Proof.
  intros Ht. destruct total as [|p|p]; try lia.
  destruct (nearest_small p ltac:(lia)) as [m Hm].
  unfold rounded_percent.
  destruct (float_of_int_ok (Zpos p) ltac:(lia)) as [-> _].
  rewrite Hm. cbn [Py.fdiv]. rewrite SFdiv_same. split; reflexivity.
Qed.

Lemma nearest_compare total :
  0 < total < 2 ^ 53 ->
  SFltb (S754_zero false) (Py.nearest total) = true
  /\ (forall s, Py.nearest total <> S754_zero s)
  /\ SFltb (Py.nearest 1) (Py.nearest total) = (1 <? total).
Proof.
  intros Ht. destruct total as [|p|p]; try lia.
  destruct (nearest_small p ltac:(lia)) as [m Hm]. rewrite Hm.
  split; [reflexivity|]. split; [discriminate|].
  change (Py.nearest 1) with (S754_finite false 4503599627370496 (-52)).
  unfold SFltb, SFcompare.
  pose proof (digits2_pos_bounds p) as [Hlo Hhi].
  destruct (Z.ltb_spec 1 (Zpos p)) as [Hgt|Hle].
  - assert (Hd : 2 <= Zpos (digits2_pos p)).
    { destruct (digits2_pos p); lia. }
    replace (-52 ?= Zpos (digits2_pos p) - 53) with Lt; [reflexivity|].
    symmetry. apply Z.compare_lt_iff. lia.
  - assert (Hp : p = 1%positive) by lia. subst p.
    vm_compute in Hm. injection Hm as <-. reflexivity.
Qed.

End Report_floats.

Lemma frac_str_value count total :
  (0 <= count < 2 ^ 63)%Z -> (0 < total < 2 ^ 53)%Z ->
  exists r,
    rounded_percent count (Py.nearest total) = Ok r
    /\ frac_str count (Py.nearest total) = Ok (VFormat " (%d%%)" [VInt r]).
Proof.
  intros Hc Ht. destruct (nearest_compare total Ht) as (Hpos & Hnz & _).
  destruct (rounded_percent_ok count total Hc ltac:(lia) Hnz) as [r Hr].
  exists r. split; [exact Hr|]. unfold frac_str. now rewrite Hpos, Hr.
Qed.

(** X14: the report for two files or more, once [cache_list.txt] is
    written: an empty line, then one line with the number of cached files
    and of the others, each with its rounded percentage, followed on the
    REST method by the number of pending files with its percentage, and by
    nothing on the pnfs method, whose pending count is -1.  When every file
    is cached the two percentages are 100 and 0.  The exit status is 0
    exactly when no file is missing. *)
Theorem report_summary_line (cached pending n : Z) (L : list string)
  (st : State World) (w2 : World) :
  (0 <= cached <= n)%Z -> (-1 <= pending <= n)%Z -> (2 <= n < 2 ^ 53)%Z ->
  write_lines "cache_list.txt" (map (fun item => item ++ Py.line_feed) L)
    (world st) = (Ok tt, w2) ->
  exists pc pm pending_string,
    rounded_percent cached (Py.nearest n) = Ok pc
    /\ rounded_percent (n - cached) (Py.nearest n) = Ok pm
    /\ (cached = n -> pc = 100%Z /\ pm = 0%Z)
    /\ (pending = (-1)%Z -> pending_string = VStr "")
    /\ ((0 <= pending)%Z ->
        exists pp,
          rounded_percent pending (Py.nearest n) = Ok pp
          /\ pending_string
             = VFormat (tab ++ "Pending: %d (%d%%)") [VInt pending; VInt pp])
    /\ report cached pending n L st
       = (Ok (if (n - cached =? 0)%Z then 0%Z else 1%Z),
          {| world := w2;
             stdout :=
               (stdout st ++
                [{| print_args := []; print_end := Py.line_feed |};
                 {| print_args :=
                      [VFormat ("Cached: %d%s" ++ tab ++ "Tape only: %d%s%s")
                         [VInt cached; VFormat " (%d%%)" [VInt pc];
                          VInt (n - cached); VFormat " (%d%%)" [VInt pm];
                          pending_string]];
                    print_end := Py.line_feed |}])%list |}).
Proof.
  intros Hc Hp Hn Hwrite.
  destruct (frac_str_value cached n ltac:(lia) ltac:(lia)) as (pc & Hpc & Hfc).
  destruct (frac_str_value (n - cached) n ltac:(lia) ltac:(lia))
    as (pm & Hpm & Hfm).
  destruct (nearest_compare n ltac:(lia)) as (_ & Hnz & Hgt).
  replace (1 <? n)%Z with true in Hgt by lia.
  assert (Hpend : exists pending_string,
    (pending = (-1)%Z -> pending_string = VStr "")
    /\ ((0 <= pending)%Z ->
        exists pp,
          rounded_percent pending (Py.nearest n) = Ok pp
          /\ pending_string
             = VFormat (tab ++ "Pending: %d (%d%%)") [VInt pending; VInt pp])
    /\ prints
         (if (pending >=? 0)%Z then
            let* q := lift (rounded_percent pending (Py.nearest n)) in
            ret (VFormat (tab ++ "Pending: %d (%d%%)")
                   [VInt pending; VInt q])
          else ret (VStr "")) w2 (Ok pending_string) w2 []).
  { destruct (pending >=? 0)%Z eqn:Hge.
    - destruct (rounded_percent_ok pending n ltac:(lia) ltac:(lia) Hnz)
        as [pp Hpp].
      eexists. split; [lia|]. split; [intros _; eauto|].
      rewrite Hpp. eapply prints_eq.
      + eapply prints_bind; [apply prints_lift|apply prints_ret].
      + reflexivity.
    - eexists. split; [reflexivity|]. split; [lia|apply prints_ret]. }
  destruct Hpend as (pending_string & Hnone & Hsome & Hrun).
  exists pc, pm, pending_string.
  split; [exact Hpc|]. split; [exact Hpm|].
  split.
  { intros ->. destruct (rounded_percent_all n ltac:(lia)) as [H100 H0].
    replace (n - n)%Z with 0%Z in Hpm by lia. split; congruence. }
  split; [exact Hnone|]. split; [exact Hsome|].
  apply prints_at. unfold report.
  pose proof (prints_on_world
                (write_lines "cache_list.txt"
                   (map (fun item => item ++ Py.line_feed) L)) (world st)) as Hw.
  rewrite Hwrite in Hw. cbn [fst snd] in Hw.
  replace (cached + (n - cached))%Z with n by lia.
  destruct (float_of_int_ok n ltac:(lia)) as [Hfloat _].
  eapply prints_eq.
  - eapply prints_bind; [exact Hw|].
    eapply prints_bind; [rewrite Hfloat; apply prints_lift|].
    eapply prints_bind; [rewrite Hfc; apply prints_lift|].
    eapply prints_bind; [rewrite Hfm; apply prints_lift|].
    eapply prints_bind; [|apply prints_ret].
    rewrite Hgt.
    eapply prints_bind; [apply prints_print|].
    eapply prints_bind; [exact Hrun|apply prints_print].
  - reflexivity.
Qed.

(** X15: the report for a single file, once [cache_list.txt] is written:
    one line, [CACHED] or [NOT CACHED], followed by [PENDING] when the
    pending count is positive (so never on the pnfs method); the exit status
    is 0 when the file is cached and 1 when it is not. *)
Theorem report_single_file (cached pending : Z) (L : list string)
  (st : State World) (w2 : World) :
  (0 <= cached <= 1)%Z ->
  write_lines "cache_list.txt" (map (fun item => item ++ Py.line_feed) L)
    (world st) = (Ok tt, w2) ->
  report cached pending 1 L st
  = (Ok (1 - cached)%Z,
     {| world := w2;
        stdout :=
          (stdout st ++
           [{| print_args := [VStr (if (cached =? 1)%Z then "CACHED"
                                    else "NOT CACHED")];
               print_end := "" |};
            {| print_args := [VStr (if (pending >? 0)%Z then " PENDING"
                                    else "")];
               print_end := Py.line_feed |}])%list |}).
Proof.
  intros Hc Hwrite. apply prints_at. unfold report.
  pose proof (prints_on_world
                (write_lines "cache_list.txt"
                   (map (fun item => item ++ Py.line_feed) L)) (world st)) as Hw.
  rewrite Hwrite in Hw. cbn [fst snd] in Hw.
  replace (cached + (1 - cached))%Z with 1%Z by lia.
  assert (Hcases : cached = 0%Z \/ cached = 1%Z) by lia.
  destruct Hcases as [-> | ->].
  - eapply prints_eq.
    + eapply prints_bind; [exact Hw|].
      eapply prints_bind; [apply prints_lift|].
      eapply prints_bind; [apply prints_lift|].
      eapply prints_bind; [apply prints_lift|].
      eapply prints_bind; [|apply prints_ret].
      eapply prints_bind; apply prints_print.
    + reflexivity.
  - eapply prints_eq.
    + eapply prints_bind; [exact Hw|].
      eapply prints_bind; [apply prints_lift|].
      eapply prints_bind; [apply prints_lift|].
      eapply prints_bind; [apply prints_lift|].
      eapply prints_bind; [|apply prints_ret].
      eapply prints_bind; apply prints_print.
    + reflexivity.
Qed.

(** ** An empty list of files *)

Lemma status_of_nothing (v : bool) (method : string) (st : State World)
  (w2 : World) :
  method = "rest" \/ method = "pnfs" ->
  write_lines "cache_list.txt" [] (world st) = (Ok tt, w2) ->
  FilelistCacheCount [] v method st
  = (Ok (0%Z, if String.eqb method "pnfs" then (-1)%Z else 0%Z, 0%Z, []), st)
  /\ report_and_exit false v method [] st
     = (Ok 0%Z, {| world := w2; stdout := stdout st |}).
Proof.
  intros HM Hwrite.
  assert (Hbatch : FilelistCacheCount [] v method st
                   = (Ok (0%Z, if String.eqb method "pnfs" then (-1)%Z else 0%Z,
                          0%Z, []), st)).
  { destruct st as [w out].
    destruct HM as [-> | ->], v; reflexivity. }
  split; [exact Hbatch|].
  unfold report_and_exit, bind at 1. rewrite Hbatch.
  unfold report, bind, on_world, lift, ret. cbn [map world stdout].
  rewrite Hwrite. destruct HM as [-> | ->]; reflexivity.
Qed.

(** X16: with no file to check, [FilelistCacheCount] asks nothing, prints
    nothing and returns the tally of nothing, and the script then writes an
    empty [cache_list.txt], prints no report and exits with status 0. *)
Theorem status_of_no_file (v : bool) (method : string) (st : State World)
  (w2 : World) :
  method = "rest" \/ method = "pnfs" ->
  write_lines "cache_list.txt" [] (world st) = (Ok tt, w2) ->
  FilelistCacheCount [] v method st
  = (Ok (0%Z, if String.eqb method "pnfs" then (-1)%Z else 0%Z, 0%Z, []), st)
  /\ report_and_exit false v method [] st
     = (Ok 0%Z, {| world := w2; stdout := stdout st |}).
Proof. exact (status_of_nothing v method st w2). Qed.

(** ** The handle *)

(** X18: [get_file_qos] sets nothing but the URL: on a handle that has
    served a prestage request, its transfer still carries [POST], the body
    and the headers of that request. *)
Theorem status_query_after_prestage_is_a_POST (c : Curl) (f g : string)
  (st st1 : State World) (c1 : Curl) (success : bool) :
  request_prestage c f st = (Ok (c1, success), st1) ->
  let h := qos_handle c1 g in
  h !! "POST" = Some (OInt 1)
  /\ h !! "POSTFIELDS" = Some (OStr prestage_postfields)
  /\ h !! "HTTPHEADER"
     = Some (OList ["Accept: application/json"; "Content-Type: application/json"])
  /\ h !! "URL" = Some (OStr (qos_url g))
  /\ get_file_qos c1 g st1
     = (let (r, w) := perform h (world st1) in
        (match r with
         | Raise e => Raise e
         | Ok body =>
             match json_loads body with
             | Raise e => Raise e
             | Ok j =>
                 match qos_fields j with
                 | Ok fields => Ok (h, fields)
                 | Raise e => Raise e
                 end
             end
         end, {| world := w; stdout := stdout st1 |})).
Proof.
  intros Hreq h.
  assert (Hc1 : c1 = prestage_handle c f).
  { pose proof (prints_at _ st _ _ _ (request_prestage_prints c f (world st)))
      as Hrun.
    rewrite Hreq in Hrun.
    destruct (fst (prestage_reply c f (world st))); [|discriminate].
    now injection Hrun as -> _ _. }
  subst h c1. unfold qos_handle, prestage_handle, setopt.
  repeat split; try by simplify_map_eq.
  unfold get_file_qos, bind, on_world, lift, ret, setopt.
  destruct (perform _ (world st1)) as [[body|e] w]; [|reflexivity].
  destruct (json_loads body) as [j|e]; [|reflexivity].
  destruct (qos_fields j); reflexivity.
Qed.

(** ** Missing keys *)

(** X19: the key tests guard the lookups: whatever JSON value the body
    decodes to, neither the reading of the two fields by [get_file_qos] nor
    the test of the status by [request_prestage] raises KeyError, and for a
    JSON object, whatever its members, both return. *)
Theorem guarded_lookups_never_raise_KeyError (j : json)
  (m : gmap string json) :
  qos_fields j <> Raise KeyError
  /\ status_is_success j <> Raise KeyError
  /\ qos_fields (JObj m)
     = Ok (default (JStr "") (m !! "fileLocality"),
           default (JStr "") (m !! "targetQos"))
  /\ exists success, status_is_success (JObj m) = Ok success.
Proof.
  repeat split.
  - unfold qos_fields. destruct j as [| | | |s|xs|m'];
      cbn [Py.json_contains Py.json_getitem]; try discriminate.
    + destruct (Py.contains "fileLocality" s); [discriminate|].
      destruct (Py.contains "targetQos" s); discriminate.
    + destruct (existsb _ xs); [discriminate|].
      destruct (existsb _ xs); discriminate.
    + destruct (m' !! "fileLocality") as [x|] eqn:Hx.
      * rewrite bool_decide_eq_true_2 by eauto.
        destruct (m' !! "targetQos") as [y|] eqn:Hy.
        -- rewrite bool_decide_eq_true_2 by eauto. discriminate.
        -- rewrite bool_decide_eq_false_2 by (intros [? ?]; discriminate).
           discriminate.
      * rewrite bool_decide_eq_false_2 by (intros [? ?]; discriminate).
        destruct (m' !! "targetQos") as [y|] eqn:Hy.
        -- rewrite bool_decide_eq_true_2 by eauto. discriminate.
        -- rewrite bool_decide_eq_false_2 by (intros [? ?]; discriminate).
           discriminate.
  - unfold status_is_success. destruct j as [| | | |s|xs|m'];
      cbn [Py.json_contains Py.json_getitem]; try discriminate.
    + destruct (Py.contains "status" s); discriminate.
    + destruct (existsb _ xs); discriminate.
    + destruct (m' !! "status") as [x|] eqn:Hx.
      * rewrite bool_decide_eq_true_2 by eauto. discriminate.
      * rewrite bool_decide_eq_false_2 by (intros [? ?]; discriminate).
        discriminate.
  - unfold qos_fields. cbn [Py.json_contains Py.json_getitem].
    destruct (m !! "fileLocality") as [x|] eqn:Hx;
      destruct (m !! "targetQos") as [y|] eqn:Hy;
      rewrite ?bool_decide_eq_true_2 by eauto;
      rewrite ?bool_decide_eq_false_2 by (intros [? ?]; discriminate);
      reflexivity.
  - unfold status_is_success. cbn [Py.json_contains Py.json_getitem].
    destruct (m !! "status") as [x|] eqn:Hx.
    + rewrite bool_decide_eq_true_2 by eauto. eauto.
    + rewrite bool_decide_eq_false_2 by (intros [? ?]; discriminate). eauto.
Qed.

(** ** One file, asked directly and in a batch *)

(** X20: [is_file_online] and the status batch agree on a single file: when
    the answer for the file can be classified, [is_file_online] returns
    whether its locality contains [ONLINE], and the batch of that one file
    counts it as cached, and lists it, exactly in that case. *)
Theorem is_file_online_agrees_with_batch (f : string) (v : bool)
  (st : State World) (online disk : bool) :
  outcome (fst (qos_reply make_curl f (world st))) = Ok (online, disk) ->
  is_file_online make_curl f st
  = (Ok (qos_handle make_curl f, online),
     {| world := snd (qos_reply make_curl f (world st)); stdout := stdout st |})
  /\ exists out,
       FilelistCacheCount [f] v "rest" st
       = (Ok ((if online then 1 else 0)%Z, (if disk then 1 else 0)%Z, 1%Z,
              if online then [f] else []),
          {| world := snd (qos_reply make_curl f (world st)); stdout := out |}).
Proof.
  intros Hout. split.
  - pose proof (prints_at _ st _ _ _ (get_file_qos_prints make_curl f (world st)))
      as Hq.
    rewrite app_nil_r in Hq.
    unfold is_file_online, bind. rewrite Hq.
    destruct (fst (qos_reply make_curl f (world st))) as [fields|e];
      [|discriminate].
    cbn [outcome] in Hout. unfold classify in Hout. cbn [fst snd].
    unfold lift, ret.
    destruct (Py.json_contains "ONLINE" (fst fields)) as [b|e]; [|discriminate].
    destruct (Py.json_contains "disk" (snd fields)); [|discriminate].
    now injection Hout as -> _.
  - pose proof (FilelistCacheCount_rest_runs [f] v (world st) [(online, disk)])
      as Hrun.
    cbn [qos_replies] in Hrun.
    destruct (qos_reply make_curl f (world st)) as [r w1].
    cbn [fst snd map] in *. rewrite Hout in Hrun. specialize (Hrun eq_refl).
    destruct (runs_at _ st _ _ Hrun) as [out Hbatch].
    exists out. rewrite Hbatch. unfold count. cbn [List.filter length select id].
    destruct online, disk; reflexivity.
Qed.

(** ** Tape locations to pnfs paths, for any list *)

Lemma every_lookup {A : Type} (k : nat) (l : list A) :
  forall skip i, Py.every k skip l !! i = l !! (skip + i * S k)%nat.
Proof.
  induction l as [|x l IH]; intros skip i; [reflexivity|].
  destruct skip as [|j]; cbn [Py.every].
  - destruct i as [|i]; [reflexivity|].
    cbn [lookup list_lookup]. rewrite IH.
    replace (0 + S i * S k)%nat with (S (k + i * S k)) by lia. reflexivity.
  - rewrite IH. reflexivity.
Qed.

(** X21: [samlist[::k]] for a positive [k] keeps the entries at the
    positions 0, k, 2k, ... of the list, in order: the sample has the
    rounded-up [k]-th part of the entries, and with [k = 1] it is the whole
    list. *)
Theorem sparsification_samples {A : Type} (l : list A) (k : positive) :
  (exists sample,
      Py.slice_step l (Zpos k) = Ok sample
      /\ (forall i, sample !! i = l !! (i * Pos.to_nat k)%nat)
      /\ length sample = ((length l + Pos.to_nat k - 1) / Pos.to_nat k)%nat)
  /\ Py.slice_step l 1 = Ok l.
Proof.
  assert (Hlookup : forall j i,
            Py.every (Pos.to_nat j - 1) 0 l !! i = l !! (i * Pos.to_nat j)%nat).
  { intros j i. rewrite every_lookup. pose proof (Pos2Nat.is_pos j).
    now replace (S (Pos.to_nat j - 1)) with (Pos.to_nat j) by lia. }
  split.
  - cbn [Py.slice_step]. eexists. split; [reflexivity|].
    set (sample := Py.every (Pos.to_nat k - 1) 0 l) in *.
    pose proof (Pos2Nat.is_pos k) as Hk.
    split; [exact (Hlookup k)|].
    assert (Hiff : forall i, (i < length sample)%nat
                             <-> (i * Pos.to_nat k < length l)%nat).
    { intros i. unfold sample. rewrite <- !lookup_lt_is_Some, Hlookup.
      reflexivity. }
    destruct (length sample) as [|n] eqn:Hn.
    + assert (Hl : length l = 0%nat).
      { destruct (length l) as [|m]; [reflexivity|].
        exfalso. apply (Nat.lt_irrefl 0). apply Hiff. lia. }
      rewrite Hl. symmetry. apply Nat.div_small. lia.
    + assert (H1 : (n * Pos.to_nat k < length l)%nat) by (apply Hiff; lia).
      assert (H2 : ~ (S n * Pos.to_nat k < length l)%nat).
      { intros H. apply Hiff in H. lia. }
      apply (Nat.div_unique _ _ _ (length l + Pos.to_nat k - 1
                                   - Pos.to_nat k * S n)); nia.
  - cbn [Py.slice_step]. f_equal. apply list_eq. intros i.
    rewrite (Hlookup 1%positive). now rewrite Nat.mul_1_r.
Qed.

Lemma enstore_paths_loop_prints entries : forall pnfspaths w,
  prints (enstore_paths_loop entries pnfspaths) w
    (Ok (pnfspaths ++ omap enstore_path entries)%list) w
    (map non_enstore_line (List.filter not_enstore entries)).
Proof.
  induction entries as [|f entries IH]; intros pnfspaths w.
  - cbn [enstore_paths_loop omap list_omap List.filter map].
    rewrite app_nil_r. apply prints_ret.
  - cbn [enstore_paths_loop omap list_omap List.filter].
    unfold enstore_path at 1, not_enstore at 1.
    destruct (ENSTORE_PATTERN (fst f)) as [m|].
    + replace (pnfspaths ++ Py.path_join (group1 m) (snd f)
                 :: omap enstore_path entries)%list
        with ((pnfspaths ++ [Py.path_join (group1 m) (snd f)])
                ++ omap enstore_path entries)%list
        by (now rewrite <- app_assoc).
      apply IH.
    + cbn [map]. eapply prints_eq.
      * eapply prints_bind; [apply prints_print|apply IH].
      * reflexivity.
Qed.

(** X22: for any list of entries and any sparsification other than 0,
    [enstore_locations_to_paths] returns: its result holds, in the order of
    the sampled entries, the directory of each entry whose location matches
    [ENSTORE_PATTERN] joined with the entry's file name; every other sampled
    entry is left out and reported by one printed line.  With the
    sparsification 0 it raises ValueError and prints nothing. *)
Theorem enstore_locations_to_paths_result (samlist : list (string * string))
  (sparsification : Z) (st : State World) :
  match Py.slice_step samlist sparsification with
  | Ok entries =>
      sparsification <> 0%Z
      /\ enstore_locations_to_paths samlist sparsification st
         = (Ok (omap enstore_path entries),
            {| world := world st;
               stdout := (stdout st
                            ++ map non_enstore_line
                                 (List.filter not_enstore entries))%list |})
  | Raise e =>
      sparsification = 0%Z
      /\ enstore_locations_to_paths samlist sparsification st
         = (Raise ValueError, st)
  end.
Proof.
  unfold enstore_locations_to_paths, bind at 1, lift.
  destruct sparsification as [|k|k]; cbn [Py.slice_step].
  - split; reflexivity.
  - split; [discriminate|]. apply prints_at.
    apply (enstore_paths_loop_prints _ []).
  - split; [discriminate|]. apply prints_at.
    apply (enstore_paths_loop_prints _ []).
Qed.

(** ** The start of the script: plain arguments *)

Lemma from_arguments_local arguments :
  forall filelist cache_count (st : State World),
    (forall f, In f arguments -> isfile f (world st) = (true, world st)) ->
    let on_pnfs := List.filter (fun f => Py.startswith f "/pnfs") arguments in
    from_arguments arguments filelist cache_count st
    = (Filelist (filelist ++ on_pnfs)%list
         (cache_count + (Z.of_nat (length arguments)
                         - Z.of_nat (length on_pnfs)))%Z, st).
Proof.
  induction arguments as [|f arguments IH]; intros filelist cache_count st Hfile.
  - cbn. rewrite app_nil_r, Z.add_0_r. reflexivity.
  - cbn [from_arguments List.filter]. rewrite (Hfile f) by now left.
    replace {| world := world st; stdout := stdout st |} with st
      by now destruct st.
    assert (Hrest : forall g, In g arguments ->
                      isfile g (world st) = (true, world st))
      by (intros g Hg; apply Hfile; now right).
    destruct (Py.startswith f "/pnfs"); rewrite (IH _ _ _ Hrest);
      cbn [length]; rewrite ?Nat2Z.inj_succ.
    + rewrite <- app_assoc. cbn [app]. f_equal. f_equal. lia.
    + f_equal. f_equal. lia.
Qed.

(** X23: an argument that is an existing file outside [/pnfs] never reaches
    the batch: when all arguments are existing files, the list that is
    checked or prestaged holds those under [/pnfs], in order, and the count
    kept of the others is not read again, so they appear neither in the
    total nor among the cached files.  With nothing but such files the
    status run asks nothing, prints nothing and exits with status 0. *)
Theorem main_leaves_out_local_files (args : Args) (st : State World) :
  given (dataset_name args) = false -> given (dimensions args) = false ->
  (forall f, In f (files args) -> isfile f (world st) = (true, world st)) ->
  let on_pnfs := List.filter (fun f => Py.startswith f "/pnfs") (files args) in
  from_arguments (files args) [] 0%Z st
  = (Filelist on_pnfs
       (Z.of_nat (length (files args)) - Z.of_nat (length on_pnfs))%Z, st)
  /\ main args st
     = (let (r, st2) := report_and_exit (prestage args) (verbose args)
                          (method args) on_pnfs st in
        (exit_status r, st2))
  /\ (on_pnfs = [] -> prestage args = false ->
      method args = "rest" \/ method args = "pnfs" ->
      forall w2,
        write_lines "cache_list.txt" [] (world st) = (Ok tt, w2) ->
        main args st = (0%Z, {| world := w2; stdout := stdout st |})).
Proof.
  intros Hd Hq Hfile on_pnfs.
  pose proof (from_arguments_local (files args) [] 0%Z st Hfile) as Hbuilt.
  cbv zeta in Hbuilt. fold on_pnfs in Hbuilt. cbn [app] in Hbuilt.
  rewrite Z.add_0_l in Hbuilt.
  assert (Hmain : main args st
                  = (let (r, st2) := report_and_exit (prestage args)
                                       (verbose args) (method args) on_pnfs st in
                     (exit_status r, st2))).
  { unfold main. rewrite Hd, Hq, Hbuilt. reflexivity. }
  split; [exact Hbuilt|]. split; [exact Hmain|].
  intros Hnone Hstatus HM w2 Hwrite. rewrite Hmain, Hnone, Hstatus.
  destruct (status_of_nothing (verbose args) (method args) st w2 HM Hwrite)
    as [_ ->].
  reflexivity.
Qed.

(** X24: a name that is neither an existing file nor known to SAM ends the
    script with status 2: the arguments before it are looked at, the
    message goes to standard error, nothing is printed on standard output,
    and no file is checked or prestaged. *)
Theorem main_unknown_name_exits_2 (args : Args) (st : State World)
  (known : list string) (f : string) (rest : list string) (w1 w2 : World)
  (e : raised) :
  given (dataset_name args) = false -> given (dimensions args) = false ->
  files args = (known ++ f :: rest)%list ->
  (forall g, In g known -> isfile g (world st) = (true, world st)) ->
  isfile f (world st) = (false, w1) ->
  locateFile f w1 = (Threw e, w2) ->
  e = FileNotFound \/ e = HTTPNotFound ->
  main args st
  = (2%Z,
     {| world :=
          print_stderr
            [VStr "File is not known to SAM and is not a full path:"; VStr f]
            w2;
        stdout := stdout st |}).
Proof.
  intros Hd Hq Hfiles Hknown Hf Hloc He.
  assert (Hloop : forall filelist cache_count,
    from_arguments (known ++ f :: rest) filelist cache_count st
    = (Exit 2%Z,
       {| world :=
            print_stderr
              [VStr "File is not known to SAM and is not a full path:"; VStr f]
              w2;
          stdout := stdout st |})).
  { clear Hfiles. induction known as [|g known IH]; intros filelist cache_count.
    - cbn [app from_arguments]. rewrite Hf, Hloc.
      destruct He as [-> | ->]; reflexivity.
    - cbn [app from_arguments]. rewrite (Hknown g) by now left.
      replace {| world := world st; stdout := stdout st |} with st
        by now destruct st.
      assert (Hrest : forall h, In h known ->
                        isfile h (world st) = (true, world st))
        by (intros h Hh; apply Hknown; now right).
      destruct (Py.startswith g "/pnfs"); apply IH; exact Hrest. }
  unfold main. rewrite Hd, Hq, Hfiles, Hloop. reflexivity.
Qed.

Lemma enstore_copies_all f locs : forall ls filelist,
  Forall2 has_location locs ls ->
  enstore_copies f locs filelist
  = Ok (filelist ++ omap (fun l => enstore_path (l, f)) ls)%list.
Proof.
  induction locs as [|loc locs IH]; intros ls filelist Hall.
  - apply Forall2_nil_inv_l in Hall as ->. cbn. now rewrite app_nil_r.
  - apply Forall2_cons_inv_l in Hall as (l & ls' & (m & -> & Hm) & Hall & ->).
    cbn [enstore_copies Py.json_getitem omap list_omap]. rewrite Hm.
    unfold enstore_path at 1. cbn [fst snd].
    destruct (ENSTORE_PATTERN l) as [em|].
    + rewrite (IH ls' _ Hall), <- app_assoc. reflexivity.
    + exact (IH ls' _ Hall).
Qed.

(** X25: for a name that is not an existing file, every location that SAM
    gives and that matches [ENSTORE_PATTERN] adds one path to the list, in
    the order of the locations: a name with two copies on tape is listed,
    and later counted, twice; locations that do not match are passed over
    without a word, so a name with none on tape adds nothing. *)
Theorem from_arguments_lists_every_enstore_copy (f : string)
  (st : State World) (w1 w2 : World) (locs : list json) (ls : list string) :
  isfile f (world st) = (false, w1) ->
  locateFile f w1 = (Returned locs, w2) ->
  Forall2 has_location locs ls ->
  from_arguments [f] [] 0%Z st
  = (Filelist (omap (fun l => enstore_path (l, f)) ls) 0%Z,
     {| world := w2; stdout := stdout st |}).
Proof.
  intros Hf Hloc Hall. cbn [from_arguments]. rewrite Hf, Hloc.
  rewrite (enstore_copies_all f locs ls [] Hall). reflexivity.
Qed.

(** ** The start of the script: a query, a dataset *)

Lemma tries_returned {A : Type} (a : A) w : tries (returned a) w (Returned a) w [].
Proof. intros out. unfold returned. now rewrite app_nil_r. Qed.

Lemma tries_and_then {A B : Type} (m : Try A) (k : A -> Try B)
  w a w1 l1 r w2 l2 :
  tries m w (Returned a) w1 l1 -> tries (k a) w1 r w2 l2 ->
  tries (and_then m k) w r w2 (l1 ++ l2)%list.
Proof.
  intros Hm Hk out. unfold and_then. rewrite (Hm out), (Hk (out ++ l1)%list).
  now rewrite app_assoc.
Qed.

Lemma tries_and_then_threw {A B : Type} (m : Try A) (k : A -> Try B)
  w e w1 l1 :
  tries m w (Threw e) w1 l1 -> tries (and_then m k) w (Threw e) w1 l1.
Proof. intros Hm out. unfold and_then. now rewrite (Hm out). Qed.

Lemma tries_sam {A : Type} (call : World -> attempt A * World) w :
  tries (sam call) w (fst (call w)) (snd (call w)) [].
Proof.
  intros out. unfold sam. cbn [world stdout].
  destruct (call w). now rewrite app_nil_r.
Qed.

Lemma tries_script {A : Type} (m : M World A) w r w' lines :
  prints m w r w' lines ->
  tries (script m) w
    (match r with
     | Ok a => Returned a
     | Raise e => Threw (Builtin e)
     end) w' lines.
Proof. intros Hm out. unfold script. rewrite (Hm out). now destruct r. Qed.

Lemma tries_eq {A : Type} (m : Try A) w r w' l l' :
  tries m w r w' l -> l = l' -> tries m w r w' l'.
Proof. now intros H <-. Qed.

Lemma retrieve_tries fmt unable name (body : Try (list string))
  (st : State World) r w' lines :
  tries body (world st) r w' lines ->
  retrieve fmt unable name body st
  = match r with
    | Returned filelist =>
        (Filelist filelist 0%Z,
         {| world := w';
            stdout := (stdout st ++ retrieving_line fmt name :: lines)%list |})
    | Threw e =>
        (Exit (-1)%Z,
         {| world := w';
            stdout := (stdout st ++ retrieving_line fmt name :: lines
                         ++ unable_lines unable name e)%list |})
    end.
Proof.
  intros Hbody. unfold retrieve, print at 1. cbn [snd world stdout].
  rewrite (Hbody _). destruct r as [filelist|e].
  - now rewrite <- app_assoc.
  - unfold bind, print, unable_lines. cbn [snd world stdout].
    rewrite <- !app_assoc. reflexivity.
Qed.

Lemma enstore_locations_to_paths_prints samlist k w :
  prints (enstore_locations_to_paths samlist k) w
    (match Py.slice_step samlist k with
     | Ok entries => Ok (omap enstore_path entries)
     | Raise e => Raise e
     end) w
    (match Py.slice_step samlist k with
     | Ok entries => map non_enstore_line (List.filter not_enstore entries)
     | Raise _ => []
     end).
Proof.
  unfold enstore_locations_to_paths.
  destruct (Py.slice_step samlist k) as [entries|e].
  - eapply prints_eq.
    + eapply prints_bind; [apply prints_lift|].
      apply (enstore_paths_loop_prints entries []).
    + reflexivity.
  - eapply prints_bind_raise. apply prints_lift.
Qed.

(** The end of both [try] bodies: the paths, and the line [ done.]. *)
Lemma paths_and_done_tries samlist k w :
  tries
    (let+ filelist := script (enstore_locations_to_paths samlist k) in
     let+ _ := script (print [VStr " done."] Py.line_feed) in
     returned filelist) w
    (match Py.slice_step samlist k with
     | Ok entries => Returned (omap enstore_path entries)
     | Raise e => Threw (Builtin e)
     end) w
    (match Py.slice_step samlist k with
     | Ok entries =>
         map non_enstore_line (List.filter not_enstore entries) ++ [done_line]
     | Raise _ => []
     end)%list.
Proof.
  pose proof (tries_script _ _ _ _ _
                (enstore_locations_to_paths_prints samlist k w)) as Hpaths.
  destruct (Py.slice_step samlist k) as [entries|e].
  - eapply tries_eq.
    + eapply tries_and_then; [exact Hpaths|].
      eapply tries_and_then;
        [exact (tries_script _ _ _ _ _ (prints_print _ _ w))|].
      apply tries_returned.
    + now rewrite app_nil_r.
  - eapply tries_and_then_threw. exact Hpaths.
Qed.

(** X26: with [--dim], the script prints that it retrieves the list, asks
    SAM once, and either goes on with the pnfs paths of the sampled entries
    that lie on enstore, after the line [ done.], or prints the exception,
    an empty line and that it is unable to retrieve, and exits with the
    status -1: when the query raises, whatever it raises, and when the
    sparsification is 0.  No exception of this branch reaches the top of
    the script. *)
Theorem main_from_dimensions (args : Args) (dims : string)
  (st : State World) :
  given (dataset_name args) = false ->
  dimensions args = Some dims -> dims <> EmptyString ->
  let first := retrieving_line
                 "Retrieving file list for SAM dimensions: '%s'..." dims in
  let unable := unable_lines
                  "Unable to retrieve SAM information for dimensions: %s" dims in
  match listFilesAndLocations dims (world st) with
  | (Threw e, w1) =>
      main args st
      = ((-1)%Z,
         {| world := w1; stdout := (stdout st ++ first :: unable e)%list |})
  | (Returned samlist, w1) =>
      match Py.slice_step samlist (sparse args) with
      | Raise e =>
          main args st
          = ((-1)%Z,
             {| world := w1;
                stdout := (stdout st ++ first :: unable (Builtin e))%list |})
      | Ok entries =>
          main args st
          = (let (r, st2) :=
               report_and_exit (prestage args) (verbose args) (method args)
                 (omap enstore_path entries)
                 {| world := w1;
                    stdout :=
                      (stdout st
                         ++ first
                         :: map non_enstore_line
                              (List.filter not_enstore entries)
                         ++ [done_line])%list |} in
             (exit_status r, st2))
      end
  end.
Proof.
  intros Hd Hq Hne first unable.
  assert (Hgiven : given (dimensions args) = true).
  { rewrite Hq. cbn [given].
    destruct (String.eqb_spec dims EmptyString); [contradiction|reflexivity]. }
  unfold main. rewrite Hd, Hgiven, Hq. cbn [default].
  unfold from_dimensions, dimensions_filelist.
  pose proof (tries_sam (listFilesAndLocations dims) (world st)) as Hsam.
  destruct (listFilesAndLocations dims (world st)) as [[samlist|e] w1];
    cbn [fst snd] in Hsam.
  - pose proof (paths_and_done_tries samlist (sparse args) w1) as Hrest.
    destruct (Py.slice_step samlist (sparse args)) as [entries|e].
    + rewrite (retrieve_tries _ _ _ _ st _ _ _
                 (tries_and_then _ _ _ _ _ _ _ _ _ Hsam Hrest)).
      reflexivity.
    + rewrite (retrieve_tries _ _ _ _ st _ _ _
                 (tries_and_then _ _ _ _ _ _ _ _ _ Hsam Hrest)).
      reflexivity.
  - rewrite (retrieve_tries _ _ _ _ st _ _ _
               (tries_and_then_threw _ _ _ _ _ _ Hsam)).
    reflexivity.
Qed.

Lemma locating_tries n a w :
  tries (script (if (a mod 100 =? 0)%Z
                 then print [VFormat "Locating files: %i/%i" [VInt a; VInt n]]
                        carriage_return
                 else ret tt)) w (Returned tt) w
    (if (a mod 100 =? 0)%Z then [locating_line n a] else []).
Proof.
  destruct (a mod 100 =? 0)%Z.
  - exact (tries_script _ _ _ _ _ (prints_print _ _ w)).
  - exact (tries_script _ _ _ _ _ (prints_ret tt w)).
Qed.

Lemma seqZ_next a (k : nat) :
  seqZ a (Z.of_nat (S k)) = a :: seqZ (a + 1) (Z.of_nat k).
Proof.
  rewrite seqZ_cons by lia. f_equal. f_equal; lia.
Qed.

(** Every file located: one entry for each file that has a location on
    enstore, and the progress line before every hundredth file. *)
Lemma locate_each_tries n pick thislist :
  forall a samlist w,
    (forall f, In f thislist ->
       exists locs, locateFile f w = (Returned locs, w)
                    /\ first_enstore f locs = Ok (pick f)) ->
    tries (locate_each n thislist a samlist) w
      (Returned (samlist ++ omap pick thislist)%list) w
      (map (locating_line n)
         (List.filter (fun a => (a mod 100 =? 0)%Z)
            (seqZ a (Z.of_nat (length thislist))))).
Proof.
  induction thislist as [|f thislist IH]; intros a samlist w Hall.
  - cbn [locate_each omap list_omap length]. rewrite app_nil_r.
    apply tries_returned.
  - destruct (Hall f ltac:(now left)) as (locs & Hloc & Hpick).
    assert (Hrest : forall g, In g thislist ->
              exists locs, locateFile g w = (Returned locs, w)
                           /\ first_enstore g locs = Ok (pick g))
      by (intros g Hg; apply Hall; now right).
    cbn [locate_each omap list_omap length]. rewrite seqZ_next.
    cbn [List.filter].
    pose proof (tries_sam (locateFile f) w) as Hsam. rewrite Hloc in Hsam.
    cbn [fst snd] in Hsam.
    assert (Hfirst : tries (script (lift (first_enstore f locs))) w
                       (Returned (pick f)) w []).
    { rewrite Hpick.
      exact (tries_script _ _ _ _ _ (prints_lift (Ok (pick f)) w)). }
    destruct (pick f) as [entry|].
    + replace (samlist ++ entry :: omap pick thislist)%list
        with ((samlist ++ [entry]) ++ omap pick thislist)%list
        by (now rewrite <- app_assoc).
      eapply tries_eq.
      * eapply tries_and_then; [apply locating_tries|].
        eapply tries_and_then; [exact Hsam|].
        eapply tries_and_then; [exact Hfirst|].
        apply (IH (a + 1)%Z (samlist ++ [entry])%list w Hrest).
      * cbn [app]. destruct (a mod 100 =? 0)%Z; reflexivity.
    + eapply tries_eq.
      * eapply tries_and_then; [apply locating_tries|].
        eapply tries_and_then; [exact Hsam|].
        eapply tries_and_then; [exact Hfirst|].
        apply (IH (a + 1)%Z samlist w Hrest).
      * cbn [app]. destruct (a mod 100 =? 0)%Z; reflexivity.
Qed.

(** The first file that cannot be located ends the loop. *)
Lemma locate_each_threw n pick located f rest e w2 :
  forall a samlist w,
    (forall g, In g located ->
       exists locs, locateFile g w = (Returned locs, w)
                    /\ first_enstore g locs = Ok (pick g)) ->
    locateFile f w = (Threw e, w2) ->
    tries (locate_each n (located ++ f :: rest) a samlist) w (Threw e) w2
      (map (locating_line n)
         (List.filter (fun a => (a mod 100 =? 0)%Z)
            (seqZ a (Z.of_nat (S (length located)))))).
Proof.
  induction located as [|g located IH]; intros a samlist w Hall Hf.
  - cbn [app locate_each length]. rewrite seqZ_next. cbn [List.filter seqZ].
    pose proof (tries_sam (locateFile f) w) as Hsam. rewrite Hf in Hsam.
    cbn [fst snd] in Hsam.
    eapply tries_eq.
    + eapply tries_and_then; [apply locating_tries|].
      eapply tries_and_then_threw. exact Hsam.
    + rewrite app_nil_r. change (seqZ (a + 1) (Z.of_nat 0)) with (@nil Z).
      destruct (a mod 100 =? 0)%Z; reflexivity.
  - destruct (Hall g ltac:(now left)) as (locs & Hloc & Hpick).
    assert (Hrest : forall h, In h located ->
              exists locs, locateFile h w = (Returned locs, w)
                           /\ first_enstore h locs = Ok (pick h))
      by (intros h Hh; apply Hall; now right).
    cbn [app locate_each length]. rewrite seqZ_next. cbn [List.filter].
    pose proof (tries_sam (locateFile g) w) as Hsam. rewrite Hloc in Hsam.
    cbn [fst snd] in Hsam.
    assert (Hfirst : tries (script (lift (first_enstore g locs))) w
                       (Returned (pick g)) w []).
    { rewrite Hpick.
      exact (tries_script _ _ _ _ _ (prints_lift (Ok (pick g)) w)). }
    eapply tries_eq.
    + eapply tries_and_then; [apply locating_tries|].
      eapply tries_and_then; [exact Hsam|].
      eapply tries_and_then; [exact Hfirst|].
      apply (IH (a + 1)%Z _ w Hrest Hf).
    + cbn [app]. destruct (a mod 100 =? 0)%Z; reflexivity.
Qed.

Lemma dataset_branch (args : Args) (name : string) (st : State World) :
  dataset_name args = Some name -> name <> EmptyString ->
  main args st
  = (let (b, st1) := from_dataset args name st in
     match b with
     | Exit status => (status, st1)
     | Uncaught _ => (1%Z, st1)
     | Filelist filelist _ =>
         let (r, st2) := report_and_exit (prestage args) (verbose args)
                           (method args) filelist st1 in
         (exit_status r, st2)
     end).
Proof.
  intros Hd Hne. unfold main. rewrite Hd. cbn [given default].
  destruct (String.eqb_spec name EmptyString); [contradiction|reflexivity].
Qed.

Lemma no_snapshot_dimensions (args : Args) (name : string) :
  snapshot args = None \/ snapshot args = Some EmptyString ->
  (if given (snapshot_dimensions args name)
   then snapshot_dimensions args name else None) = None.
Proof.
  unfold snapshot_dimensions. intros [-> | ->]; reflexivity.
Qed.

(** What [split(':')[0]] is: the text before the first colon. *)
Lemma span_colon (p : string) :
  exists rest,
    p = fst (Py.span (Py.not_char ":") p) ++ rest
    /\ (rest = EmptyString \/ exists t, rest = String ":" t).
Proof.
  induction p as [|c p (rest & Hp & Hrest)].
  - exists EmptyString. split; [reflexivity|now left].
  - cbn [Py.span]. unfold Py.not_char at 1.
    destruct (Ascii.eqb_spec ":"%char c) as [<-|Hne]; cbn [negb].
    + exists (String ":" p). split; [reflexivity|]. right. eauto.
    + destruct (Py.span (Py.not_char ":") p) as [run rest'] eqn:Hspan.
      cbn [fst] in *. exists rest. split; [|exact Hrest].
      rewrite append_cons. now f_equal.
Qed.

(** A full path is on enstore when it is [enstore] or begins with
    [enstore:]. *)
Lemma on_enstore_spec (p : string) :
  on_enstore p = true <-> p = "enstore" \/ exists t, p = "enstore:" ++ t.
Proof.
  split.
  - unfold on_enstore. intros H. apply String.eqb_eq in H.
    destruct (span_colon p) as (rest & Hp & [->|(t & ->)]); rewrite H in Hp.
    + left. exact Hp.
    + right. exists t. exact Hp.
  - intros [->|(t & ->)]; reflexivity.
Qed.

(** The inner loop of the dataset branch keeps the first record on enstore,
    whatever follows it. *)
Lemma first_enstore_find (f : string) (locs : list json) (ps : list string) :
  Forall2 has_full_path locs ps ->
  first_enstore f locs = Ok (first_on_enstore f ps).
Proof.
  unfold first_on_enstore.
  induction 1 as [|loc p locs ps (m & -> & Hm) _ IH]; [reflexivity|].
  cbn [first_enstore Py.json_getitem List.find]. rewrite Hm.
  fold (on_enstore p). destruct (on_enstore p); [reflexivity|exact IH].
Qed.

(** X27: with [-d] and no snapshot, when SAM lists the files of the dataset
    and gives for every one of them location records with a [full_path],
    the script keeps for each file the first record whose [full_path] reads
    [enstore] before its first colon, and none for a file without such a
    record, and goes on with the pnfs paths that
    [enstore_locations_to_paths] makes of the sampled entries; before that
    it prints that it retrieves the list, the number of files, a progress
    line before every hundredth file, an empty line, the number of entries
    kept and the line [ done.].  With the sparsification 0 it prints the
    exception instead and exits with the status -1. *)
Theorem main_from_dataset_definition (args : Args) (name : string)
  (st : State World) (thislist : list string) (w1 : World)
  (full_paths : string -> list string) :
  dataset_name args = Some name -> name <> EmptyString ->
  snapshot args = None \/ snapshot args = Some EmptyString ->
  listFiles name (world st) = (Returned thislist, w1) ->
  (forall f, In f thislist ->
     exists locs, locateFile f w1 = (Returned locs, w1)
                  /\ Forall2 has_full_path locs (full_paths f)) ->
  let samlist :=
    omap (fun f => (fun p => (p, f)) <$> List.find on_enstore (full_paths f))
      thislist in
  let before :=
    (retrieving_line
       "Retrieving file list for SAM dataset definition name: '%s'..." name
     :: count_line (length thislist)
     :: locating_lines (length thislist) (length thislist)
     ++ [empty_line; count_line (length samlist)])%list in
  match Py.slice_step samlist (sparse args) with
  | Ok entries =>
      main args st
      = (let (r, st2) :=
           report_and_exit (prestage args) (verbose args) (method args)
             (omap enstore_path entries)
             {| world := w1;
                stdout :=
                  (stdout st ++ before
                     ++ map non_enstore_line (List.filter not_enstore entries)
                     ++ [done_line])%list |} in
         (exit_status r, st2))
  | Raise e =>
      main args st
      = ((-1)%Z,
         {| world := w1;
            stdout :=
              (stdout st ++ before
                 ++ unable_lines
                      "Unable to retrieve SAM information for dataset: %s"
                      name (Builtin e))%list |})
  end.
Proof.
  intros Hd Hne Hsnap Hlist Hrecords samlist before.
  set (pick := fun f => first_on_enstore f (full_paths f)).
  assert (Hall : forall f, In f thislist ->
            exists locs, locateFile f w1 = (Returned locs, w1)
                         /\ first_enstore f locs = Ok (pick f)).
  { intros f Hf. destruct (Hrecords f Hf) as (locs & Hloc & Hps).
    exists locs. split; [exact Hloc|]. now apply first_enstore_find. }
  rewrite (dataset_branch args name st Hd Hne).
  unfold from_dataset, dataset_filelist.
  rewrite (no_snapshot_dimensions args name Hsnap).
  pose proof (tries_sam (listFiles name) (world st)) as Hsam.
  rewrite Hlist in Hsam. cbn [fst snd] in Hsam.
  pose proof (locate_each_tries (Z.of_nat (length thislist)) pick thislist
                0%Z [] w1 Hall) as Hloop.
  cbn [app] in Hloop. change (omap pick thislist) with samlist in Hloop.
  assert (Hsamlist :
    tries
      (let+ thislist := sam (listFiles name) in
       let+ _ := script (print [VInt (Z.of_nat (length thislist))]
                           Py.line_feed) in
       let+ samlist :=
         locate_each (Z.of_nat (length thislist)) thislist 0%Z [] in
       let+ _ := script (print [] Py.line_feed) in
       let+ _ := script (print [VInt (Z.of_nat (length samlist))]
                           Py.line_feed) in
       returned samlist) (world st) (Returned samlist) w1
      (count_line (length thislist)
       :: locating_lines (length thislist) (length thislist)
       ++ [empty_line; count_line (length samlist)])%list).
  { eapply tries_eq.
    - eapply tries_and_then; [exact Hsam|].
      eapply tries_and_then;
        [exact (tries_script _ _ _ _ _ (prints_print _ _ w1))|].
      eapply tries_and_then; [exact Hloop|].
      eapply tries_and_then;
        [exact (tries_script _ _ _ _ _ (prints_print _ _ w1))|].
      eapply tries_and_then;
        [exact (tries_script _ _ _ _ _ (prints_print _ _ w1))|].
      apply tries_returned.
    - cbn [app]. rewrite ?app_nil_r. reflexivity. }
  pose proof (paths_and_done_tries samlist (sparse args) w1) as Hrest.
  destruct (Py.slice_step samlist (sparse args)) as [entries|e].
  - rewrite (retrieve_tries _ _ _ _ st _ _ _
               (tries_and_then _ _ _ _ _ _ _ _ _ Hsamlist Hrest)).
    unfold before. cbn [app]. rewrite <- !app_assoc. reflexivity.
  - rewrite (retrieve_tries _ _ _ _ st _ _ _
               (tries_and_then _ _ _ _ _ _ _ _ _ Hsamlist Hrest)).
    unfold before. cbn [app]. rewrite ?app_nil_r, <- ?app_assoc. reflexivity.
Qed.

(** X28: with [-d], nothing that SAM raises reaches the top of the script
    or gives the status 2: when the files of the dataset cannot be listed,
    or when one of them cannot be located, be it with the FileNotFound that
    gives a plain argument the status 2, the script prints the exception,
    an empty line and that it is unable to retrieve, locates no further
    file, checks none, and exits with the status -1. *)
Theorem main_from_dataset_fails (args : Args) (name : string)
  (st : State World) :
  dataset_name args = Some name -> name <> EmptyString ->
  snapshot args = None \/ snapshot args = Some EmptyString ->
  let first :=
    retrieving_line
      "Retrieving file list for SAM dataset definition name: '%s'..." name in
  let unable :=
    unable_lines "Unable to retrieve SAM information for dataset: %s" name in
  match listFiles name (world st) with
  | (Threw e, w1) =>
      main args st
      = ((-1)%Z,
         {| world := w1; stdout := (stdout st ++ first :: unable e)%list |})
  | (Returned thislist, w1) =>
      forall located f rest pick e w2,
        thislist = (located ++ f :: rest)%list ->
        (forall g, In g located ->
           exists locs, locateFile g w1 = (Returned locs, w1)
                        /\ first_enstore g locs = Ok (pick g)) ->
        locateFile f w1 = (Threw e, w2) ->
        main args st
        = ((-1)%Z,
           {| world := w2;
              stdout :=
                (stdout st
                   ++ first :: count_line (length thislist)
                   :: locating_lines (length thislist) (S (length located))
                   ++ unable e)%list |})
  end.
Proof.
  intros Hd Hne Hsnap first unable.
  rewrite (dataset_branch args name st Hd Hne).
  unfold from_dataset, dataset_filelist.
  rewrite (no_snapshot_dimensions args name Hsnap).
  pose proof (tries_sam (listFiles name) (world st)) as Hsam.
  destruct (listFiles name (world st)) as [[thislist|e] w1];
    cbn [fst snd] in Hsam.
  - intros located f rest pick e w2 -> Hall Hf.
    pose proof (locate_each_threw
                  (Z.of_nat (length (located ++ f :: rest))) pick located f
                  rest e w2 0%Z [] w1 Hall Hf) as Hloop.
    assert (Hbody :
      tries
        (let+ thislist := sam (listFiles name) in
         let+ _ := script (print [VInt (Z.of_nat (length thislist))]
                             Py.line_feed) in
         let+ samlist :=
           locate_each (Z.of_nat (length thislist)) thislist 0%Z [] in
         let+ _ := script (print [] Py.line_feed) in
         let+ _ := script (print [VInt (Z.of_nat (length samlist))]
                             Py.line_feed) in
         returned samlist) (world st) (Threw e) w2
        (count_line (length (located ++ f :: rest))
         :: locating_lines (length (located ++ f :: rest))
              (S (length located)))).
    { eapply tries_eq.
      - eapply tries_and_then; [exact Hsam|].
        eapply tries_and_then;
          [exact (tries_script _ _ _ _ _ (prints_print _ _ w1))|].
        eapply tries_and_then_threw. exact Hloop.
      - reflexivity. }
    rewrite (retrieve_tries _ _ _ _ st _ _ _
               (tries_and_then_threw _ _ _ _ _ _ Hbody)).
    reflexivity.
  - rewrite (retrieve_tries _ _ _ _ st _ _ _
               (tries_and_then_threw _ _ _ _ _ _
                  (tries_and_then_threw _ _ _ _ _ _ Hsam))).
    reflexivity.
Qed.

(** X29: with [-d] and a snapshot, the script does not list and locate the
    files of the dataset one by one: it asks SAM once, for the newest
    snapshot of the dataset when the snapshot is [latest] and for the
    snapshot of the given id otherwise, and goes on as with [--dim]: with
    the pnfs paths of the sampled entries on enstore, or, when the query
    raises or the sparsification is 0, with the exception printed and the
    status -1. *)
Theorem main_from_dataset_snapshot (args : Args) (name s : string)
  (st : State World) :
  dataset_name args = Some name -> name <> EmptyString ->
  snapshot args = Some s -> s <> EmptyString ->
  let dims := if String.eqb s "latest"
              then "dataset_def_name_newest_snapshot " ++ name
              else "snapshot_id " ++ s in
  let first :=
    retrieving_line
      "Retrieving file list for SAM dataset definition name: '%s'..." name in
  let unable :=
    unable_lines "Unable to retrieve SAM information for dataset: %s" name in
  match listFilesAndLocations dims (world st) with
  | (Threw e, w1) =>
      main args st
      = ((-1)%Z,
         {| world := w1; stdout := (stdout st ++ first :: unable e)%list |})
  | (Returned samlist, w1) =>
      match Py.slice_step samlist (sparse args) with
      | Raise e =>
          main args st
          = ((-1)%Z,
             {| world := w1;
                stdout := (stdout st ++ first :: unable (Builtin e))%list |})
      | Ok entries =>
          main args st
          = (let (r, st2) :=
               report_and_exit (prestage args) (verbose args) (method args)
                 (omap enstore_path entries)
                 {| world := w1;
                    stdout :=
                      (stdout st
                         ++ first
                         :: map non_enstore_line
                              (List.filter not_enstore entries)
                         ++ [done_line])%list |} in
             (exit_status r, st2))
      end
  end.
Proof.
  intros Hd Hne Hsnap Hs dims first unable.
  rewrite (dataset_branch args name st Hd Hne).
  unfold from_dataset, dataset_filelist.
  assert (Hdims : (if given (snapshot_dimensions args name)
                   then snapshot_dimensions args name else None) = Some dims).
  { unfold snapshot_dimensions, dims. rewrite Hsnap. cbn [given].
    destruct (String.eqb s "latest"); [reflexivity|].
    destruct (String.eqb_spec s EmptyString); [contradiction|reflexivity]. }
  rewrite Hdims.
  pose proof (tries_sam (listFilesAndLocations dims) (world st)) as Hsam.
  destruct (listFilesAndLocations dims (world st)) as [[samlist|e] w1];
    cbn [fst snd] in Hsam.
  - pose proof (paths_and_done_tries samlist (sparse args) w1) as Hrest.
    destruct (Py.slice_step samlist (sparse args)) as [entries|e].
    + rewrite (retrieve_tries _ _ _ _ st _ _ _
                 (tries_and_then _ _ _ _ _ _ _ _ _ Hsam Hrest)).
      reflexivity.
    + rewrite (retrieve_tries _ _ _ _ st _ _ _
                 (tries_and_then _ _ _ _ _ _ _ _ _ Hsam Hrest)).
      reflexivity.
  - rewrite (retrieve_tries _ _ _ _ st _ _ _
               (tries_and_then_threw _ _ _ _ _ _ Hsam)).
    reflexivity.
Qed.
End Script.

(** * Examples on the scripted backend *)

(** C3 as stated fails: an xrootd URL of the legacy mount is rewritten once
    more by a second pass. *)
Lemma filename_to_namespace_twice_differs :
  filename_to_namespace "root://fndca1.fnal.gov:1094/pnfs/uboone/f"
  = "/pnfs/uboone/f"
  /\ filename_to_namespace
       (filename_to_namespace "root://fndca1.fnal.gov:1094/pnfs/uboone/f")
     = "/pnfs/fnal.gov/usr/uboone/f"
  /\ String.eqb
       (filename_to_namespace
          (filename_to_namespace "root://fndca1.fnal.gov:1094/pnfs/uboone/f"))
       (filename_to_namespace "root://fndca1.fnal.gov:1094/pnfs/uboone/f")
     = false.
Proof. repeat split; vm_compute; reflexivity. Qed.

Lemma filename_to_namespace_idempotent_witness :
  filename_to_namespace
    (filename_to_namespace "enstore:/pnfs/uboone/data/f.root")
  = filename_to_namespace "enstore:/pnfs/uboone/data/f.root"
  /\ filename_to_namespace
       "root://fndca1.fnal.gov:1094/pnfs/fnal.gov/usr/uboone/f"
     = "/pnfs/fnal.gov/usr/uboone/f"
  /\ filename_to_namespace
       (filename_to_namespace
          "root://fndca1.fnal.gov:1094/pnfs/fnal.gov/usr/uboone/f")
     = filename_to_namespace
         "root://fndca1.fnal.gov:1094/pnfs/fnal.gov/usr/uboone/f".
Proof.
  split.
  - apply (proj1 (filename_to_namespace_idempotent_iff
                    "enstore:/pnfs/uboone/data/f.root")).
    reflexivity.
  - destruct (proj2 (filename_to_namespace_idempotent_iff
                       "root://fndca1.fnal.gov:1094/pnfs/fnal.gov/usr/uboone/f")
                eq_refl) as [Hfirst Hiff].
    split; [exact Hfirst|].
    apply (proj2 Hiff). repeat split; reflexivity.
Defined.

Lemma enstore_suffix_discarded_witness :
  group1 <$> ENSTORE_PATTERN "enstore:/a/b/c(TAPE001)" = Some "/a/b/c"
  /\ group1 <$> ENSTORE_PATTERN "enstore:/a/b/c" = Some "/a/b/c"
  /\ enstore_locations_to_paths [("enstore:/a/b/c(TAPE001)", "f.root")] 1
       (mock_state [] (Raise PycurlError) [])
     = (Ok ["/a/b/c/f.root"], mock_state [] (Raise PycurlError) [])
  /\ enstore_locations_to_paths [("enstore:/a/b/c", "f.root")] 1
       (mock_state [] (Raise PycurlError) [])
     = (Ok ["/a/b/c/f.root"], mock_state [] (Raise PycurlError) []).
Proof.
  apply (enstore_suffix_discarded "/a/b/c" "TAPE001" "f.root"
           (mock_state [] (Raise PycurlError) [])).
  - discriminate.
  - reflexivity.
Defined.

(** C5 as stated fails: built as the script builds it, with the default
    threshold of 50, the bar for 37 files prints nothing at all, so there is
    no announcement at 37 either. *)
Lemma ProgressBar_37_default_is_silent :
  (let* pb := ProgressBar_init 37 default_announce_threshold in
   Update_each pb (seqZ 0 38)) {| world := tt; stdout := [] |}
  = (Ok {| total := 37; _total_div10 := 3; announce := false;
           _last_announce_decile := -1 |},
     {| world := tt; stdout := [] |}).
Proof. vm_compute. reflexivity. Qed.

Lemma ProgressBar_37_announcements_witness :
  exists pb,
    ProgressBar_init 37 10 {| world := tt; stdout := [] |}
    = (Ok pb, {| world := tt; stdout := [percent 0] |})
    /\ List.filter (fun e => match snd e with [] => false | _ => true end)
         (Update_log pb (seqZ 0 38) tt)
       = [(3, [percent 8]); (6, [percent 16]); (9, [percent 24]);
          (12, [percent 32]); (15, [percent 40]); (18, [percent 48]);
          (21, [percent 56]); (24, [percent 64]); (27, [percent 72]);
          (30, [percent 81]); (33, [percent 89]); (36, [percent 97]);
          (37, [percent 100])]%Z
    /\ List.filter (fun n => (n / (37 / 10) >? (n - 1) / (37 / 10))%Z) (seqZ 1 37)
       = [3; 6; 9; 12; 15; 18; 21; 24; 27; 30; 33; 36]%Z.
Proof. apply (ProgressBar_37_announcements 10 tt). lia. Defined.

(** C6: a batch of 50 files on the REST method, not verbose: every file is
    answered, and the announcement of 100% is printed twice, once by the
    [Update(50)] of the last file and once by the [Update(progbar.total)]
    after the loop. *)
Lemma FilelistCacheCount_announces_100_twice :
  let run :=
    FilelistCacheCount example_proxy mock_perform JsonText.json_decode
      mock_open_readline (repeat "/pnfs/uboone/f" 50) false "rest"
      (answering (Ok "{}")) in
  fst run = Ok (0, 0, 50, [])%Z
  /\ List.filter (is_percent 100) (stdout (snd run)) = [percent 100; percent 100].
Proof. vm_compute. split; reflexivity. Qed.

(** C4 as stated fails: an unreachable backend, and a reply that is not JSON
    (the HTML page of an HTTP 500), raise out of [request_prestage]. *)
Lemma request_prestage_raises :
  fst (request_prestage mock_perform JsonText.json_decode
         (make_curl example_proxy) "/pnfs/uboone/f"
         (answering (Raise PycurlError)))
  = Raise PycurlError
  /\ fst (request_prestage mock_perform JsonText.json_decode
            (make_curl example_proxy) "/pnfs/uboone/f"
            (answering (Ok "<html>500 Internal Server Error</html>")))
     = Raise ValueError.
Proof. split; vm_compute; reflexivity. Qed.

(** The three bodies the specification lists. *)
Example request_prestage_bodies :
  let ask body :=
    match fst (request_prestage mock_perform JsonText.json_decode
                 (make_curl example_proxy) "/pnfs/uboone/f"
                 (answering (Ok body))) with
    | Ok r => Ok (snd r)
    | Raise e => Raise e
    end in
  ask (object_text [("status", "success")]) = Ok true
  /\ ask (object_text [("status", "failed")]) = Ok false
  /\ ask "{}" = Ok false.
Proof. repeat split; vm_compute; reflexivity. Qed.



(** C2 as stated fails: the third file has the non-empty target [tape], the
    verbose line calls it pending, and the count of pending files is 1, for
    the second file alone. *)
Lemma pending_ignores_target_tape :
  let run := FilelistCacheCount example_proxy mock_perform
               JsonText.json_decode mock_open_readline three_files true
               "rest" three_answered in
  fst (qos_replies mock_perform JsonText.json_decode (make_curl example_proxy)
         three_files (world three_answered))
  = [Ok (JStr "ONLINE_AND_NEARLINE", JStr "");
     Ok (JStr "NEARLINE", JStr "disk+tape");
     Ok (JStr "NEARLINE", JStr "tape")]
  /\ fst run = Ok (1, 1, 3, [file1])%Z
  /\ last (stdout (snd run))
     = Some {| print_args := [VStr file3; VJson (JStr "NEARLINE"); VStr "pending"];
               print_end := Py.line_feed |}.
Proof. repeat split; vm_compute; reflexivity. Qed.

Lemma FilelistCacheCount_pending_witness :
  exists cached cache_list out,
    FilelistCacheCount example_proxy mock_perform JsonText.json_decode
      mock_open_readline three_files false "rest" three_answered
    = (Ok (cached,
           Z.of_nat (length (select three_files
                               (map (fun a => Py.contains "disk" (snd a))
                                  three_answers))),
           Z.of_nat (length three_files), cache_list),
       {| world := snd (qos_replies mock_perform JsonText.json_decode
                          (make_curl example_proxy) three_files
                          (world three_answered));
          stdout := out |}).
Proof.
  apply (FilelistCacheCount_pending_counts_disk example_proxy mock_perform
           JsonText.json_decode mock_open_readline three_files false
           three_answered three_answers).
  vm_compute. reflexivity.
Defined.

Lemma FilelistCacheCount_rest_tallies_witness :
  let online := map (fun a => Py.contains "ONLINE" (fst a)) three_answers in
  exists pending out,
    FilelistCacheCount example_proxy mock_perform JsonText.json_decode
      mock_open_readline three_files false "rest" three_answered
    = (Ok (Z.of_nat (length (select three_files online)), pending,
           Z.of_nat (length three_files), select three_files online),
       {| world := snd (qos_replies mock_perform JsonText.json_decode
                          (make_curl example_proxy) three_files
                          (world three_answered));
          stdout := out |})
    /\ Z.of_nat (length three_files)
       = (Z.of_nat (length (select three_files online))
          + Z.of_nat (length (select three_files (map negb online))))%Z.
Proof.
  apply (FilelistCacheCount_rest_tallies example_proxy mock_perform
           JsonText.json_decode mock_open_readline three_files false
           three_answered three_answers).
  vm_compute. reflexivity.
Defined.

Lemma FilelistCacheCount_pnfs_witness :
  exists out,
    FilelistCacheCount example_proxy mock_perform JsonText.json_decode
      mock_open_readline three_files false "pnfs" three_mounted
    = (Ok (1, -1, 3, [file1])%Z,
       {| world := world three_mounted; stdout := out |}).
Proof.
  apply (FilelistCacheCount_pnfs_pending_sentinel example_proxy mock_perform
           JsonText.json_decode mock_open_readline three_files false
           three_mounted
           ["ONLINE_AND_NEARLINE" ++ Py.line_feed; "NEARLINE" ++ Py.line_feed;
            "NEARLINE" ++ Py.line_feed]).
  vm_compute. reflexivity.
Defined.


(** * Examples for the further properties *)

Lemma filename_to_namespace_rewrites_prefix_witness :
  Py.contains "/pnfs/uboone" "/data/f.root" = false
  /\ filename_to_namespace "/pnfs/uboone/data/f.root"
     = "/pnfs/fnal.gov/usr/uboone/data/f.root"
  /\ filename_to_namespace "enstore:/pnfs/uboone/data/f.root"
     = "/pnfs/fnal.gov/usr/uboone/data/f.root"
  /\ filename_to_namespace "root://fndca1.fnal.gov:1094/pnfs/uboone/data/f.root"
     = "/pnfs/uboone/data/f.root".
Proof.
  split; [reflexivity|].
  destruct (filename_to_namespace_rewrites_prefix "/data/f.root") as [H _].
  destruct (H eq_refl) as [H1 H2].
  destruct (filename_to_namespace_rewrites_prefix "/pnfs/uboone/data/f.root")
    as [_ H3].
  split; [exact H1|]. split; [exact H2|exact (H3 eq_refl)].
Defined.

Lemma ENSTORE_PATTERN_matches_witness :
  is_Some (ENSTORE_PATTERN "enstore:/a/b(v1)")
  /\ exists rest,
       "enstore:/a/b(v1)" = "enstore:" ++ "/a/b" ++ rest
       /\ "/a/b" <> EmptyString
       /\ Py.contains "(" "/a/b" = false
       /\ (rest = EmptyString \/ exists r, rest = String "(" r)
       /\ Some "(v1)" = tape_suffix rest.
Proof.
  destruct (ENSTORE_PATTERN_matches "enstore:/a/b(v1)") as [Hiff Hgroup].
  split.
  - apply Hiff. exists "/"%char, "a/b(v1)". split; [reflexivity|discriminate].
  - exact (Hgroup {| group1 := "/a/b"; group2 := Some "(v1)" |} eq_refl).
Defined.

Lemma is_file_online_pnfs_reads_pseudo_file_witness :
  Py.contains "/" "run1.root" = false
  /\ stat_file (Py.path_join "/pnfs/uboone/data" "run1.root")
     = "/pnfs/uboone/data/.(get)(run1.root)(locality)"
  /\ is_file_online_pnfs mock_open_readline
       (Py.path_join "/pnfs/uboone/data" "run1.root") three_mounted
     = (Ok true, three_mounted)
  /\ stat_file "run1.root" = "/.(get)(run1.root)(locality)".
Proof.
  split; [reflexivity|].
  destruct (is_file_online_pnfs_reads_pseudo_file mock_open_readline
              "/pnfs/uboone/data" "run1.root" three_mounted eq_refl)
    as [Hjoined Hbare].
  destruct (Hjoined ltac:(discriminate) eq_refl) as [Hstat Hread].
  split; [exact Hstat|]. split; [exact Hread|exact Hbare].
Defined.

Lemma ProgressBar_below_threshold_is_silent_witness :
  (37 < 50)%Z
  /\ (let* pb := ProgressBar_init 37 50 in Update_each pb [1; 2; 37; 400; -3]%Z)
       {| world := tt; stdout := [] |}
     = (Ok {| total := 37; _total_div10 := 3; announce := false;
              _last_announce_decile := -1 |},
        {| world := tt; stdout := [] |}).
Proof.
  split; [lia|].
  apply (ProgressBar_below_threshold_is_silent 37 50 [1; 2; 37; 400; -3]%Z).
  lia.
Defined.

Lemma ProgressBar_small_total_raises_witness :
  (5 <= 10)%Z /\ (3 <= 5)%Z
  /\ ProgressBar_init 5 3 {| world := tt; stdout := [] |}
     = (Raise TypeError,
        {| world := tt;
           stdout := [{| print_args := [VFormat " %d" [VInt 0]];
                         print_end := " " |}] |}).
Proof.
  split; [lia|]. split; [lia|].
  apply (ProgressBar_small_total_raises 5 3 {| world := tt; stdout := [] |});
    lia.
Defined.

Lemma Update_repeated_witness :
  let pb := {| total := 60; _total_div10 := 6; announce := true;
               _last_announce_decile := 2 |} in
  exists pb1 st1,
    Update pb 60 {| world := tt; stdout := [] |} = (Ok pb1, st1)
    /\ ((60 < 60)%Z -> Update pb1 60 st1 = (Ok pb1, st1))
    /\ (60%Z = 60%Z ->
        stdout st1 = [percent 100]
        /\ stdout (snd (Update pb1 60 st1))
           = (stdout st1 ++ [percent 100])%list).
Proof.
  apply (Update_repeated
           {| total := 60; _total_div10 := 6; announce := true;
              _last_announce_decile := 2 |} 60%Z
           {| world := tt; stdout := [] |});
    [reflexivity|reflexivity|reflexivity|cbn; lia].
Defined.

Lemma FilelistCacheCount_returns_sublist_witness :
  FilelistCacheCount example_proxy mock_perform JsonText.json_decode
    mock_open_readline three_files true "rest" three_answered
  = (Ok (1, 1, 3, [file1])%Z,
     snd (FilelistCacheCount example_proxy mock_perform JsonText.json_decode
            mock_open_readline three_files true "rest" three_answered))
  /\ sublist [file1] three_files
  /\ 1%Z = Z.of_nat (length [file1])
  /\ 3%Z = Z.of_nat (length three_files)
  /\ (("rest" = "rest" /\ (0 <= 1 <= 3)%Z) \/ ("rest" = "pnfs" /\ 1 = -1)%Z).
Proof.
  assert (H : FilelistCacheCount example_proxy mock_perform
                JsonText.json_decode mock_open_readline three_files true
                "rest" three_answered
              = (Ok (1, 1, 3, [file1])%Z,
                 snd (FilelistCacheCount example_proxy mock_perform
                        JsonText.json_decode mock_open_readline three_files
                        true "rest" three_answered)))
    by (vm_compute; reflexivity).
  split; [exact H|].
  exact (FilelistCacheCount_returns_sublist example_proxy mock_perform
           JsonText.json_decode mock_open_readline three_files true "rest"
           three_answered _ 1%Z 1%Z 3%Z [file1] H).
Defined.

Lemma FilelistCacheCount_quiet_below_threshold_witness :
  (length three_files < 50)%nat
  /\ stdout (snd (FilelistCacheCount example_proxy mock_perform
                    JsonText.json_decode mock_open_readline three_files false
                    "rest" second_unreachable))
     = (stdout second_unreachable ++ checking_header three_files)%list.
Proof.
  split; [cbn; lia|].
  apply (FilelistCacheCount_quiet_below_threshold example_proxy mock_perform
           JsonText.json_decode mock_open_readline three_files "rest"
           second_unreachable); [cbn; lia|now left].
Defined.

Lemma FilelistCacheCount_verbose_lines_witness :
  (exists r,
      FilelistCacheCount example_proxy mock_perform JsonText.json_decode
        mock_open_readline three_files true "rest" three_answered
      = (Ok r,
         {| world := snd (qos_replies mock_perform JsonText.json_decode
                            (make_curl example_proxy) three_files
                            (world three_answered));
            stdout := (stdout three_answered ++ checking_header three_files
                         ++ zip_with verbose_rest_line three_files
                              three_answers)%list |}))
  /\ (exists r,
         FilelistCacheCount example_proxy mock_perform JsonText.json_decode
           mock_open_readline three_files true "pnfs" three_mounted
         = (Ok r,
            {| world := snd (pnfs_lines mock_open_readline three_files
                               (world three_mounted));
               stdout := (stdout three_mounted ++ checking_header three_files
                            ++ zip_with verbose_pnfs_line three_files
                                 three_lines)%list |})).
Proof.
  split.
  - apply (proj1 (FilelistCacheCount_verbose_lines example_proxy mock_perform
                    JsonText.json_decode mock_open_readline three_files
                    three_answered) three_answers).
    vm_compute. reflexivity.
  - apply (proj2 (FilelistCacheCount_verbose_lines example_proxy mock_perform
                    JsonText.json_decode mock_open_readline three_files
                    three_mounted) three_lines).
    vm_compute. reflexivity.
Defined.

Lemma FilelistCacheCount_large_batch_witness :
  let batch := repeat "/pnfs/uboone/f" 50 in
  (50 <= length batch)%nat
  /\ exists r lines,
       FilelistCacheCount example_proxy mock_perform JsonText.json_decode
         mock_open_readline batch false "rest" (answering (Ok "{}"))
       = (Ok r,
          {| world := snd (qos_replies mock_perform JsonText.json_decode
                             (make_curl example_proxy) batch
                             (world (answering (Ok "{}"))));
             stdout := (stdout (answering (Ok "{}")) ++ checking_header batch
                          ++ percent 0 :: lines
                          ++ [percent 100; percent 100])%list |}).
Proof.
  split; [cbn; lia|].
  apply (FilelistCacheCount_large_batch_ends_with_100_twice example_proxy
           mock_perform JsonText.json_decode mock_open_readline
           (repeat "/pnfs/uboone/f" 50) (answering (Ok "{}"))
           (repeat (false, false) 50)).
  - cbn; lia.
  - vm_compute. reflexivity.
Defined.

Lemma FilelistPrestageRequest_tallies_witness :
  FilelistPrestageRequest example_proxy mock_perform JsonText.json_decode
    three_files true (answering (Ok (object_text [("status", "success")])))
  = (Ok (Z.of_nat (length (List.filter id [true; true; true])),
         Z.of_nat (length three_files)),
     {| world := snd (prestage_replies mock_perform JsonText.json_decode
                        (make_curl example_proxy) three_files
                        (world (answering
                                  (Ok (object_text [("status", "success")])))));
        stdout := (stdout (answering
                             (Ok (object_text [("status", "success")])))
                     ++ prestaging_header three_files
                     ++ zip_with verbose_prestage_line three_files
                          [true; true; true])%list |})
  /\ (length (List.filter id [true; true; true]) <= length three_files)%nat.
Proof.
  apply (FilelistPrestageRequest_tallies example_proxy mock_perform
           JsonText.json_decode three_files true
           (answering (Ok (object_text [("status", "success")])))
           [true; true; true]).
  vm_compute. reflexivity.
Defined.

Lemma FilelistPrestageRequest_raises_witness :
  FilelistPrestageRequest example_proxy mock_perform JsonText.json_decode
    three_files true first_prestaged
  = (Raise PycurlError,
     {| world := snd (prestage_replies mock_perform JsonText.json_decode
                        (make_curl example_proxy) (take 2 three_files)
                        (world first_prestaged));
        stdout := (stdout first_prestaged ++ prestaging_header three_files
                     ++ zip_with verbose_prestage_line three_files [true])%list |}).
Proof.
  apply (FilelistPrestageRequest_raises example_proxy mock_perform
           JsonText.json_decode three_files true first_prestaged
           [true] PycurlError [Raise PycurlError]).
  vm_compute. reflexivity.
Defined.

Lemma prestage_exit_status_witness :
  fst (report_and_exit example_proxy mock_perform JsonText.json_decode
         mock_open_readline mock_write_lines true false "rest" three_files
         second_refused)
  = Ok (if forallb id [true; false; true] then 0%Z else 1%Z)
  /\ (three_files = [] ->
      report_and_exit example_proxy mock_perform JsonText.json_decode
        mock_open_readline mock_write_lines true false "rest" three_files
        second_refused
      = (Ok 0%Z, second_refused)).
Proof.
  apply (prestage_exit_status example_proxy mock_perform JsonText.json_decode
           mock_open_readline mock_write_lines three_files false "rest"
           second_refused [true; false; true]).
  vm_compute. reflexivity.
Defined.

Lemma report_summary_line_witness :
  exists pc pm pending_string,
    rounded_percent 1 (Py.nearest 3) = Ok pc
    /\ rounded_percent (3 - 1) (Py.nearest 3) = Ok pm
    /\ (1%Z = 3%Z -> pc = 100%Z /\ pm = 0%Z)
    /\ (1%Z = (-1)%Z -> pending_string = VStr "")
    /\ ((0 <= 1)%Z ->
        exists pp,
          rounded_percent 1 (Py.nearest 3) = Ok pp
          /\ pending_string
             = VFormat (tab ++ "Pending: %d (%d%%)") [VInt 1; VInt pp])
    /\ report mock_write_lines 1 1 3 [file1] three_answered
       = (Ok (if (3 - 1 =? 0)%Z then 0%Z else 1%Z),
          {| world := snd (mock_write_lines "cache_list.txt"
                             [file1 ++ Py.line_feed] (world three_answered));
             stdout :=
               (stdout three_answered ++
                [{| print_args := []; print_end := Py.line_feed |};
                 {| print_args :=
                      [VFormat ("Cached: %d%s" ++ tab ++ "Tape only: %d%s%s")
                         [VInt 1; VFormat " (%d%%)" [VInt pc];
                          VInt (3 - 1); VFormat " (%d%%)" [VInt pm];
                          pending_string]];
                    print_end := Py.line_feed |}])%list |}).
Proof.
  apply (report_summary_line mock_write_lines 1 1 3 [file1] three_answered
           (snd (mock_write_lines "cache_list.txt" [file1 ++ Py.line_feed]
                   (world three_answered))));
    [lia|lia|lia|reflexivity].
Defined.

Lemma report_single_file_witness :
  report mock_write_lines 1 0 1 [file1] three_answered
  = (Ok (1 - 1)%Z,
     {| world := snd (mock_write_lines "cache_list.txt"
                        [file1 ++ Py.line_feed] (world three_answered));
        stdout :=
          (stdout three_answered ++
           [{| print_args := [VStr (if (1 =? 1)%Z then "CACHED"
                                    else "NOT CACHED")];
               print_end := "" |};
            {| print_args := [VStr (if (0 >? 0)%Z then " PENDING" else "")];
               print_end := Py.line_feed |}])%list |}).
Proof.
  apply (report_single_file mock_write_lines 1 0 [file1] three_answered
           (snd (mock_write_lines "cache_list.txt" [file1 ++ Py.line_feed]
                   (world three_answered))));
    [lia|reflexivity].
Defined.

Lemma status_of_no_file_witness :
  FilelistCacheCount example_proxy mock_perform JsonText.json_decode
    mock_open_readline [] false "pnfs" three_mounted
  = (Ok (0%Z, if String.eqb "pnfs" "pnfs" then (-1)%Z else 0%Z, 0%Z, []),
     three_mounted)
  /\ report_and_exit example_proxy mock_perform JsonText.json_decode
       mock_open_readline mock_write_lines false false "pnfs" [] three_mounted
     = (Ok 0%Z,
        {| world := snd (mock_write_lines "cache_list.txt" []
                           (world three_mounted));
           stdout := stdout three_mounted |}).
Proof.
  apply (status_of_no_file example_proxy mock_perform JsonText.json_decode
           mock_open_readline mock_write_lines false "pnfs" three_mounted
           (snd (mock_write_lines "cache_list.txt" [] (world three_mounted))));
    [now right|reflexivity].
Defined.

Lemma status_query_after_prestage_is_a_POST_witness :
  let st := answering (Ok (object_text [("status", "success")])) in
  let after := request_prestage mock_perform JsonText.json_decode
                 (make_curl example_proxy) file1 st in
  let h := qos_handle (prestage_handle (make_curl example_proxy) file1) file2 in
  fst after = Ok (prestage_handle (make_curl example_proxy) file1, true)
  /\ h !! "POST" = Some (OInt 1)
  /\ h !! "POSTFIELDS" = Some (OStr prestage_postfields)
  /\ h !! "HTTPHEADER"
     = Some (OList ["Accept: application/json"; "Content-Type: application/json"])
  /\ h !! "URL" = Some (OStr (qos_url file2))
  /\ get_file_qos mock_perform JsonText.json_decode
       (prestage_handle (make_curl example_proxy) file1) file2 (snd after)
     = (let (r, w) := mock_perform h (world (snd after)) in
        (match r with
         | Raise e => Raise e
         | Ok body =>
             match JsonText.json_decode body with
             | Raise e => Raise e
             | Ok j =>
                 match qos_fields j with
                 | Ok fields => Ok (h, fields)
                 | Raise e => Raise e
                 end
             end
         end, {| world := w; stdout := stdout (snd after) |})).
Proof.
  split; [vm_compute; reflexivity|].
  apply (status_query_after_prestage_is_a_POST mock_perform
           JsonText.json_decode (make_curl example_proxy) file1 file2
           (answering (Ok (object_text [("status", "success")])))
           (snd (request_prestage mock_perform JsonText.json_decode
                   (make_curl example_proxy) file1
                   (answering (Ok (object_text [("status", "success")])))))
           (prestage_handle (make_curl example_proxy) file1) true).
  vm_compute. reflexivity.
Defined.

Lemma is_file_online_agrees_with_batch_witness :
  outcome (fst (qos_reply mock_perform JsonText.json_decode
                  (make_curl example_proxy) file1 (world three_answered)))
  = Ok (true, false)
  /\ is_file_online mock_perform JsonText.json_decode (make_curl example_proxy)
       file1 three_answered
     = (Ok (qos_handle (make_curl example_proxy) file1, true),
        {| world := snd (qos_reply mock_perform JsonText.json_decode
                           (make_curl example_proxy) file1
                           (world three_answered));
           stdout := stdout three_answered |})
  /\ exists out,
       FilelistCacheCount example_proxy mock_perform JsonText.json_decode
         mock_open_readline [file1] true "rest" three_answered
       = (Ok ((if true then 1 else 0)%Z, (if false then 1 else 0)%Z, 1%Z,
              if true then [file1] else []),
          {| world := snd (qos_reply mock_perform JsonText.json_decode
                             (make_curl example_proxy) file1
                             (world three_answered));
             stdout := out |}).
Proof.
  split; [vm_compute; reflexivity|].
  apply (is_file_online_agrees_with_batch example_proxy mock_perform
           JsonText.json_decode mock_open_readline file1 true three_answered
           true false).
  vm_compute. reflexivity.
Defined.

(** The script on the scripted site. *)
Abbreviation site_main :=
  (main example_proxy site_perform JsonText.json_decode site_open_readline
     site_write_lines site_listFilesAndLocations site_listFiles
     site_locateFile site_isfile site_print_stderr site_str).

Abbreviation site_report_and_exit :=
  (report_and_exit example_proxy site_perform JsonText.json_decode
     site_open_readline site_write_lines).

Abbreviation site_from_arguments :=
  (from_arguments site_locateFile site_isfile site_print_stderr).

Lemma main_leaves_out_local_files_witness :
  let both := ["/pnfs/uboone/data/run1.root"; "/home/user/notes.txt"] in
  site_from_arguments both [] 0%Z example_site
  = (Filelist ["/pnfs/uboone/data/run1.root"] (2 - 1)%Z, example_site)
  /\ site_main (plain_arguments both) example_site
     = (let (r, st2) := site_report_and_exit false false "rest"
                          ["/pnfs/uboone/data/run1.root"] example_site in
        (exit_status r, st2))
  /\ site_main (plain_arguments ["/home/user/notes.txt"]) example_site
     = (0%Z,
        {| world := snd (site_write_lines "cache_list.txt" []
                           (world example_site));
           stdout := [] |}).
Proof.
  destruct (main_leaves_out_local_files example_proxy site_perform
              JsonText.json_decode site_open_readline site_write_lines
              site_listFilesAndLocations site_listFiles site_locateFile
              site_isfile site_print_stderr site_str
              (plain_arguments
                 ["/pnfs/uboone/data/run1.root"; "/home/user/notes.txt"])
              example_site eq_refl eq_refl) as (Hlist & Hmain & _).
  { intros f [<-|[<-|[]]]; reflexivity. }
  destruct (main_leaves_out_local_files example_proxy site_perform
              JsonText.json_decode site_open_readline site_write_lines
              site_listFilesAndLocations site_listFiles site_locateFile
              site_isfile site_print_stderr site_str
              (plain_arguments ["/home/user/notes.txt"])
              example_site eq_refl eq_refl) as (_ & _ & Hnone).
  { intros f [<-|[]]. reflexivity. }
  split; [exact Hlist|]. split; [exact Hmain|].
  exact (Hnone eq_refl eq_refl (or_introl eq_refl) _ eq_refl).
Defined.

Lemma main_unknown_name_exits_2_witness :
  site_main (plain_arguments ["/home/user/notes.txt"; "run0.root"; "run7.root"])
    example_site
  = (2%Z,
     {| world :=
          site_print_stderr
            [VStr "File is not known to SAM and is not a full path:";
             VStr "run0.root"] (world example_site);
        stdout := [] |}).
Proof.
  apply (main_unknown_name_exits_2 example_proxy site_perform
           JsonText.json_decode site_open_readline site_write_lines
           site_listFilesAndLocations site_listFiles site_locateFile
           site_isfile site_print_stderr site_str
           (plain_arguments ["/home/user/notes.txt"; "run0.root"; "run7.root"])
           example_site ["/home/user/notes.txt"] "run0.root" ["run7.root"]
           (world example_site) (world example_site) FileNotFound);
    try reflexivity.
  - intros g [<-|[]]. reflexivity.
  - now left.
Defined.

Lemma from_arguments_lists_every_enstore_copy_witness :
  site_from_arguments ["run7.root"] [] 0%Z example_site
  = (Filelist ["/pnfs/uboone/a/run7.root"; "/pnfs/uboone/c/run7.root"] 0%Z,
     example_site).
Proof.
  apply (from_arguments_lists_every_enstore_copy site_locateFile site_isfile
           site_print_stderr "run7.root" example_site (world example_site)
           (world example_site)
           [location_record "enstore:/pnfs/uboone/a(vol1)"
              "enstore:/pnfs/uboone/a";
            location_record "dcache:/pnfs/uboone/b" "dcache:/pnfs/uboone/b";
            location_record "enstore:/pnfs/uboone/c(vol2)"
              "enstore:/pnfs/uboone/c"]
           ["enstore:/pnfs/uboone/a(vol1)"; "dcache:/pnfs/uboone/b";
            "enstore:/pnfs/uboone/c(vol2)"]);
    try reflexivity.
  repeat constructor; eexists; (split; [reflexivity|vm_compute; reflexivity]).
Defined.

Lemma main_from_dimensions_witness :
  site_main (by_dimensions "run_number 7" 1) example_site
  = (let (r, st2) :=
       site_report_and_exit false false "rest"
         ["/pnfs/uboone/a/run7.root"; "/pnfs/uboone/c/run9.root"]
         {| world := world example_site;
            stdout :=
              [retrieving_line
                 "Retrieving file list for SAM dimensions: '%s'..."
                 "run_number 7";
               non_enstore_line ("dcache:/pnfs/uboone/b", "run8.root");
               done_line] |} in
     (exit_status r, st2))
  /\ site_main (by_dimensions "run_number 7" 0) example_site
     = ((-1)%Z,
        {| world := world example_site;
           stdout :=
             retrieving_line
               "Retrieving file list for SAM dimensions: '%s'..."
               "run_number 7"
             :: unable_lines site_str
                  "Unable to retrieve SAM information for dimensions: %s"
                  "run_number 7" (Builtin ValueError) |}).
Proof.
  split.
  - exact (main_from_dimensions example_proxy site_perform
             JsonText.json_decode site_open_readline site_write_lines
             site_listFilesAndLocations site_listFiles site_locateFile
             site_isfile site_print_stderr site_str
             (by_dimensions "run_number 7" 1) "run_number 7" example_site
             eq_refl eq_refl ltac:(discriminate)).
  - exact (main_from_dimensions example_proxy site_perform
             JsonText.json_decode site_open_readline site_write_lines
             site_listFilesAndLocations site_listFiles site_locateFile
             site_isfile site_print_stderr site_str
             (by_dimensions "run_number 7" 0) "run_number 7" example_site
             eq_refl eq_refl ltac:(discriminate)).
Defined.

Lemma main_from_dataset_definition_witness :
  site_main (by_dataset "twodef" None) example_site
  = (let (r, st2) :=
       site_report_and_exit false false "rest"
         ["/pnfs/uboone/c/run8.root"; "/pnfs/uboone/a/run7.root"]
         {| world := world example_site;
            stdout :=
              [retrieving_line
                 "Retrieving file list for SAM dataset definition name: '%s'..."
                 "twodef";
               count_line 2; locating_line 2 0; empty_line; count_line 2;
               done_line] |} in
     (exit_status r, st2)).
Proof.
  refine (main_from_dataset_definition example_proxy site_perform
            JsonText.json_decode site_open_readline site_write_lines
            site_listFilesAndLocations site_listFiles site_locateFile
            site_isfile site_print_stderr site_str
            (by_dataset "twodef" None) "twodef" example_site
            ["run8.root"; "run7.root"] (world example_site)
            (fun f =>
               if String.eqb f "run8.root"
               then ["dcache:/pnfs/uboone/b"; "enstore:/pnfs/uboone/c";
                     "enstore:/pnfs/uboone/a"]
               else ["enstore:/pnfs/uboone/a"; "dcache:/pnfs/uboone/b";
                     "enstore:/pnfs/uboone/c"])
            eq_refl ltac:(discriminate) (or_introl eq_refl) eq_refl _).
  intros f [<-|[<-|[]]]; eexists; (split; [reflexivity|]);
    repeat constructor; eexists; (split; [reflexivity|vm_compute; reflexivity]).
Defined.

Lemma main_from_dataset_fails_witness :
  site_main (by_dataset "otherdef" None) example_site
  = ((-1)%Z,
     {| world := world example_site;
        stdout :=
          retrieving_line
            "Retrieving file list for SAM dataset definition name: '%s'..."
            "otherdef"
          :: count_line 3 :: locating_lines 3 2
          ++ unable_lines site_str
               "Unable to retrieve SAM information for dataset: %s"
               "otherdef" FileNotFound |})
  /\ site_main (by_dataset "nodef" None) example_site
     = ((-1)%Z,
        {| world := world example_site;
           stdout :=
             retrieving_line
               "Retrieving file list for SAM dataset definition name: '%s'..."
               "nodef"
             :: unable_lines site_str
                  "Unable to retrieve SAM information for dataset: %s"
                  "nodef" SAMError |}).
Proof.
  split.
  - refine (main_from_dataset_fails example_proxy site_perform
              JsonText.json_decode site_open_readline site_write_lines
              site_listFilesAndLocations site_listFiles site_locateFile
              site_isfile site_print_stderr site_str
              (by_dataset "otherdef" None) "otherdef" example_site
              eq_refl ltac:(discriminate) (or_introl eq_refl)
              ["run7.root"] "run0.root" ["run7.root"]
              (fun f => Some ("enstore:/pnfs/uboone/a", f)) FileNotFound
              (world example_site) eq_refl _ eq_refl).
    intros g [<-|[]]. eexists. split; reflexivity.
  - exact (main_from_dataset_fails example_proxy site_perform
             JsonText.json_decode site_open_readline site_write_lines
             site_listFilesAndLocations site_listFiles site_locateFile
             site_isfile site_print_stderr site_str
             (by_dataset "nodef" None) "nodef" example_site
             eq_refl ltac:(discriminate) (or_introl eq_refl)).
Defined.

Lemma main_from_dataset_snapshot_witness :
  site_main (by_dataset "mydef" (Some "latest")) example_site
  = (let (r, st2) :=
       site_report_and_exit false false "rest" ["/pnfs/uboone/a/run7.root"]
         {| world := world example_site;
            stdout :=
              [retrieving_line
                 "Retrieving file list for SAM dataset definition name: '%s'..."
                 "mydef";
               done_line] |} in
     (exit_status r, st2))
  /\ site_main (by_dataset "mydef" (Some "12")) example_site
     = ((-1)%Z,
        {| world := world example_site;
           stdout :=
             retrieving_line
               "Retrieving file list for SAM dataset definition name: '%s'..."
               "mydef"
             :: unable_lines site_str
                  "Unable to retrieve SAM information for dataset: %s"
                  "mydef" SAMError |}).
Proof.
  split.
  - exact (main_from_dataset_snapshot example_proxy site_perform
             JsonText.json_decode site_open_readline site_write_lines
             site_listFilesAndLocations site_listFiles site_locateFile
             site_isfile site_print_stderr site_str
             (by_dataset "mydef" (Some "latest")) "mydef" "latest" example_site
             eq_refl ltac:(discriminate) eq_refl ltac:(discriminate)).
  - exact (main_from_dataset_snapshot example_proxy site_perform
             JsonText.json_decode site_open_readline site_write_lines
             site_listFilesAndLocations site_listFiles site_locateFile
             site_isfile site_print_stderr site_str
             (by_dataset "mydef" (Some "12")) "mydef" "12" example_site
             eq_refl ltac:(discriminate) eq_refl ltac:(discriminate)).
Defined.
